(** * modernExtend: capability builders of the Zigbee converter library

    A shallow embedding of [src/lib/modernExtend.ts] and the properties
    its specification states about it.

    Conventions of the embedding.
    - A JavaScript [number] is a rational ([Q]), as every finite double
      is.  The products and quotients of the numeric builder, of the
      meter's configurator and of the zone timer are rounded to the
      nearest double ([roundDouble]); the battery decoder computes on
      8-bit readings, where its arithmetic is exact.  Infinities, NaN and
      a division by zero are not modelled.  Equalities between numbers
      are stated up to [Qeq].
    - The 32-bit integer operators ([&], [<<]) are written on [Z] with the
      conversion to a signed 32-bit integer spelled out.
    - A JavaScript object used as a dictionary is a [gmap string _];
      insertion overwrites, as assignment to an existing key does.  An
      object whose order of keys matters is a list of entries.
    - A function that can throw returns an [Outcome]; asynchronous code
      that talks to the device runs in [Io.IO], which threads the
      requests sent and the endpoint caches.
    - A closure is a function; the decoder of a security zone, which
      arms a timer, threads a [Timers.Runtime]. *)

From Stdlib Require Import ZArith QArith Qround String List Lia.
From stdpp Require Import gmap strings list fin_maps pretty.

Open Scope Z_scope.

(** ** JavaScript values and exceptions *)

Inductive JsValue : Type :=
| VUndefined
| VNumber (q : Q)
| VBool (b : bool)
| VString (s : string).

Inductive Outcome (A : Type) : Type :=
| Returns (a : A)
| Throws (message : string).
Arguments Returns {A} a.
Arguments Throws {A} message.

(** ** 32-bit integer operators *)

Definition two32 : Z := 2 ^ 32.
Definition two31 : Z := 2 ^ 31.

(** ToInt32 on an integer: reduce modulo 2^32 into [-2^31, 2^31). *)
Definition wrapInt32 (z : Z) : Z := (z + two31) mod two32 - two31.

(** [a & b] on integers. *)
Definition jsBitAnd (a b : Z) : Z := Z.land (wrapInt32 a) (wrapInt32 b).

(** [a << n]; the shift count is taken modulo 32. *)
Definition jsShiftLeft (a n : Z) : Z := wrapInt32 (Z.shiftl (wrapInt32 a) (n mod 32)).

(** [x || y] on numbers: the first operand unless it is zero. *)
Definition jsOrNum (x y : Z) : Z := if x =? 0 then y else x.

(** Truncation toward zero, the first step of ToInt32 on a number. *)
Definition truncQ (q : Q) : Z := if Qle_bool 0 q then Qfloor q else Qceiling q.

(** ** Doubles

    [roundDouble q] is the double nearest to [q]: 53 significant bits, a
    tie going to the even significand, exponents from -1074 up.  A
    magnitude beyond the largest double is not modelled. *)

(** [p / q] rounded to the nearest integer, a tie going to the even one,
    for [0 <= p] and [0 < q]. *)
Definition roundHalfEven (p q : Z) : Z :=
  let f := p / q in
  let r := p mod q in
  match 2 * r ?= q with
  | Lt => f
  | Gt => f + 1
  | Eq => if Z.even f then f else f + 1
  end.

(** The exponent [e] with [2^e <= n/d < 2^(e+1)], for positive [n], [d]. *)
Definition binaryExponent (n d : Z) : Z :=
  let e := Z.log2 n - Z.log2 d in
  if (if 0 <=? e then n <? d * 2 ^ e else n * 2 ^ (- e) <? d) then e - 1 else e.

Definition nearestDouble (n d : Z) : Q :=
  let u := Z.max (binaryExponent n d - 52) (-1074) in
  if 0 <=? u
  then Qred (inject_Z (roundHalfEven n (d * 2 ^ u) * 2 ^ u))
  else Qred (Qmake (roundHalfEven (n * 2 ^ (- u)) d) (Z.to_pos (2 ^ (- u)))).

Definition roundDouble (q : Q) : Q :=
  let r := Qred q in
  match Qnum r with
  | Z0 => 0%Q
  | Zpos n => nearestDouble (Zpos n) (Zpos (Qden r))
  | Zneg n => Qopp (nearestDouble (Zpos n) (Zpos (Qden r)))
  end.

(** [a * b] and [a / b] on doubles, for a divisor that is not zero. *)
Definition jsMultiply (a b : Q) : Q := roundDouble (a * b).
Definition jsDivide (a b : Q) : Q := roundDouble (a / b).

(** ** Prototype chain of an object literal

    [key in obj] answers true for the own keys of [obj] and for every
    member inherited from [Object.prototype]. *)

Definition objectPrototypeKeys : list string :=
  ["constructor"; "__defineGetter__"; "__defineSetter__"; "hasOwnProperty";
   "__lookupGetter__"; "__lookupSetter__"; "isPrototypeOf";
   "propertyIsEnumerable"; "toString"; "valueOf"; "__proto__";
   "toLocaleString"]%string.

Definition hasOwn {V} (obj : gmap string V) (key : string) : bool :=
  bool_decide (is_Some (obj !! key)).

Definition inherited (key : string) : bool :=
  bool_decide (key ∈ objectPrototypeKeys).

Definition jsIn {V} (key : string) (obj : gmap string V) : bool :=
  hasOwn obj key || inherited key.

(** What [obj[key]] evaluates to when [key in obj]: the own value, or
    the member inherited from the prototype, a function or an object. *)
Inductive Member (V : Type) : Type :=
| Own (value : V)
| Inherited (name : string).
Arguments Own {V} value.
Arguments Inherited {V} name.

(** [key in obj ? obj[key] : absent]. *)
Definition jsGet {V} (key : string) (obj : gmap string V) : option (Member V) :=
  match obj !! key with
  | Some value => Some (Own value)
  | None => if inherited key then Some (Inherited key) else None
  end.

(** ** Reporting times: [timeLookup] and [convertReportingConfigTime] *)

Definition timeLookup : gmap string Q :=
  list_to_map
    [("MAX", 65000%Q); ("1_HOUR", 3600%Q); ("30_MINUTES", 1800%Q);
     ("1_MINUTE", 60%Q); ("10_SECONDS", 10%Q); ("MIN", 0%Q)]%string.

(** [ReportingConfigTime = number | keyof typeof timeLookup]; at run time
    the second alternative is any string. *)
Inductive ReportingConfigTime : Type :=
| TimeNumber (seconds : Q)
| TimeName (name : string).

(** What [timeLookup[time]] evaluates to: an own entry is a number of
    seconds, an inherited key yields the member of [Object.prototype]
    of that name, which is not a number. *)
Inductive ResolvedTime : Type :=
| Seconds (s : Q)
| PrototypeMember (name : string).

Definition timeLookupGet (name : string) : ResolvedTime :=
  match timeLookup !! name with
  | Some s => Seconds s
  | None => PrototypeMember name
  end.

Definition convertReportingConfigTime (time : ReportingConfigTime) : Outcome ResolvedTime :=
  match time with
  | TimeName name =>
      if negb (jsIn name timeLookup)
      then Throws ("Reporting time '" ++ name ++ "' is unknown")
      else Returns (timeLookupGet name)
  | TimeNumber n => Returns (Seconds n)
  end.

Definition knownTimeNames : list string :=
  ["MAX"; "1_HOUR"; "30_MINUTES"; "1_MINUTE"; "10_SECONDS"; "MIN"]%string.

(** ** The access bitmask of the descriptor library

    [ea] comes from the descriptor library ([./exposes]), which is not
    part of the embedded file; its constants are parameters. *)

Record AccessTable : Type := {
  STATE : Z; SET : Z; GET : Z; STATE_SET : Z; STATE_GET : Z; ALL : Z
}.

(** [EnumLookupArgs.access], [NumericArgs.access], ...:
    ['STATE' | 'STATE_GET' | 'ALL']. *)
Inductive AccessName : Type := AccessSTATE | AccessSTATE_GET | AccessALL.

Definition accessOf (ea : AccessTable) (name : AccessName) : Z :=
  match name with
  | AccessSTATE => STATE ea
  | AccessSTATE_GET => STATE_GET ea
  | AccessALL => ALL ea
  end.

(** ** Devices, endpoints and protocol I/O *)

Module Zh.

(** [cluster: string | number]. *)
Inductive ClusterKey : Type :=
| ClusterName (name : string)
| ClusterNumber (id : Z).

Definition clusterToString (c : ClusterKey) : string :=
  match c with
  | ClusterName name => name
  | ClusterNumber id => pretty id
  end.

Record Cluster : Type := { clusterID : Z; clusterName : string }.

Record Endpoint : Type := {
  ID : Z;
  deviceIeeeAddress : string;
  getInputClusters : list Cluster
}.

(** [device.endpoints] can be undefined. *)
Record Device : Type := {
  ieeeAddr : string;
  endpoints : option (list Endpoint)
}.

Inductive Entity : Type :=
| IsDevice (device : Device)
| IsEndpoint (endpoint : Endpoint).

(** A property key of an attribute dictionary: a name, or a numeric
    identifier in its decimal spelling. *)
Inductive AttributeKey : Type :=
| KeyName (name : string)
| KeyNumber (id : Z).

Definition keyToString (k : AttributeKey) : string :=
  match k with
  | KeyName name => name
  | KeyNumber id => pretty id
  end.

(** One entry of the array handed to [endpoint.configureReporting]. *)
Record ReportingItem (Time Change Attribute : Type) : Type := {
  minimumReportInterval : Time;
  maximumReportInterval : Time;
  reportableChange : Change;
  attribute : Attribute
}.
Arguments minimumReportInterval {Time Change Attribute} _.
Arguments maximumReportInterval {Time Change Attribute} _.
Arguments reportableChange {Time Change Attribute} _.
Arguments attribute {Time Change Attribute} _.

End Zh.

Module Reporting.

Inductive ReportingConfigAttribute : Type :=
| AttributeName (name : string)
| AttributeNumber (id : Z)
| AttributeObject (ID : Z) (type : Z).

(** [change: number | [number, number]]. *)
Inductive Change : Type :=
| ChangeNumber (c : Q)
| ChangePair (low high : Q).

Record ReportingConfigWithoutAttribute : Type := {
  min0 : ReportingConfigTime;
  max0 : ReportingConfigTime;
  change0 : Change
}.

Record ReportingConfig : Type := {
  min : ReportingConfigTime;
  max : ReportingConfigTime;
  change : Change;
  attribute : ReportingConfigAttribute
}.

Definition WireItem : Type :=
  Zh.ReportingItem ResolvedTime Change ReportingConfigAttribute.

End Reporting.

Module Io.

(** A written attribute: the bare value under the attribute's name, or
    [{value, type}] under its numeric identifier. *)
Inductive WriteValue : Type :=
| Plain (value : JsValue)
| Typed (value : JsValue) (type : Z).

(** [zigbeeCommandOptions]. *)
Record CommandOptions : Type := {
  manufacturerCode : option Z;
  disableDefaultResponse : option bool
}.

(** The protocol requests an extension can issue on an endpoint. *)
Inductive Request : Type :=
| Bind (endpoint : Z) (cluster : Zh.ClusterKey) (coordinatorEndpoint : Z)
| ConfigureReporting (endpoint : Z) (cluster : Zh.ClusterKey)
    (items : list Reporting.WireItem)
| Read (endpoint : Z) (cluster : Zh.ClusterKey) (attributes : list Zh.AttributeKey)
    (options : option CommandOptions)
| Write (endpoint : Z) (cluster : Zh.ClusterKey)
    (payload : list (string * WriteValue)) (options : option CommandOptions).

(** The world an extension runs in: the requests sent so far, oldest
    first, and the per-endpoint cache of last-seen attribute values,
    keyed by endpoint, cluster and attribute. *)
Record World : Type := {
  sent : list Request;
  cache : gmap (Z * string * string) JsValue
}.

Definition emptyWorld : World := {| sent := []; cache := ∅ |}.

(** The transport: given the requests already sent and a new one, the
    device either acknowledges, returning the attribute values a read
    yields, or the request faults with a message. *)
Class Transport : Type :=
  reply : list Request -> Request -> Outcome (list (string * JsValue)).

Definition IO (A : Type) : Type := World -> Outcome A * World.

Definition ret {A} (a : A) : IO A := fun w => (Returns a, w).

Definition raise {A} (message : string) : IO A := fun w => (Throws message, w).

Definition bind {A B} (m : IO A) (k : A -> IO B) : IO B :=
  fun w =>
    match m w with
    | (Returns a, w') => k a w'
    | (Throws e, w') => (Throws e, w')
    end.

Definition lift {A} (o : Outcome A) : IO A := fun w => (o, w).

(** [try { m } catch (e) { handler e }]. *)
Definition tryCatch {A} (m : IO A) (handler : string -> IO A) : IO A :=
  fun w =>
    match m w with
    | (Returns a, w') => (Returns a, w')
    | (Throws e, w') => handler e w'
    end.

(** [for (const x of xs) { await body x }]. *)
Fixpoint forOf {A} (xs : list A) (body : A -> IO unit) : IO unit :=
  match xs with
  | [] => ret tt
  | x :: rest => bind (body x) (fun _ => forOf rest body)
  end.

Definition saveAll (endpoint : Z) (cluster : string)
    (values : list (string * JsValue))
    (c : gmap (Z * string * string) JsValue) : gmap (Z * string * string) JsValue :=
  foldl (fun acc kv => <[(endpoint, cluster, kv.1) := kv.2]> acc) c values.

(** Send one request; a read stores what the device returned in the
    endpoint's cache. *)
Definition send `{Transport} (endpoint : Z) (cluster : Zh.ClusterKey)
    (r : Request) : IO unit :=
  fun w =>
    let w1 := {| sent := sent w ++ [r]; cache := cache w |} in
    match reply (sent w) r with
    | Returns values =>
        (Returns tt,
         {| sent := sent w1;
            cache := match r with
                     | Read _ _ _ _ => saveAll endpoint (Zh.clusterToString cluster) values (cache w1)
                     | _ => cache w1
                     end |})
    | Throws e => (Throws e, w1)
    end.

(** [endpoint.saveClusterAttributeKeyValue(cluster, {...}); endpoint.save()]:
    local, no request is sent. *)
Definition saveClusterAttributeKeyValue (endpoint : Z) (cluster : string)
    (values : list (string * JsValue)) : IO unit :=
  fun w => (Returns tt, {| sent := sent w; cache := saveAll endpoint cluster values (cache w) |}).

(** [endpoint.getClusterAttributeValue(cluster, attribute)]. *)
Definition getClusterAttributeValue (endpoint : Z) (cluster attribute : string) : IO JsValue :=
  fun w => (Returns (default VUndefined (cache w !! (endpoint, cluster, attribute))), w).

End Io.

Notation "'let*' x ':=' m 'in' k" := (Io.bind m (fun x => k))
  (at level 10, x name, m at level 200, k at level 200, only parsing).
Notation "'await' m 'then' k" := (Io.bind m (fun _ => k))
  (at level 10, m at level 200, k at level 200, only parsing).

(** ** Reporting configurator *)

Section Configurator.
Context `{Io.Transport}.

(** [ep.getInputClusters().find((c) => isNumber(cluster) ? c.ID === cluster : c.name === cluster)],
    as the truth value [filter] takes it for. *)
Definition exposesInputCluster (cluster : Zh.ClusterKey) (ep : Zh.Endpoint) : bool :=
  match
    List.find
      (fun c =>
         match cluster with
         | Zh.ClusterNumber id => Zh.clusterID c =? id
         | Zh.ClusterName name => String.eqb (Zh.clusterName c) name
         end)
      (Zh.getInputClusters ep)
  with
  | Some _ => true
  | None => false
  end.

Definition getEndpointsWithInputCluster (device : Zh.Device) (cluster : Zh.ClusterKey)
  : Outcome (list Zh.Endpoint) :=
  match Zh.endpoints device with
  | None => Throws (Zh.ieeeAddr device ++ " " ++ "undefined")
  | Some all =>
      let endpoints := List.filter (exposesInputCluster cluster) all in
      if (length endpoints =? 0)%nat
      then Throws ("Device " ++ Zh.ieeeAddr device ++ " has no input cluster "
                     ++ Zh.clusterToString cluster)
      else Returns endpoints
  end.

(** [xs.map(f)] for an [f] that can throw: the first exception ends the map. *)
Fixpoint mapThrowing {A B} (f : A -> Outcome B) (xs : list A) : Outcome (list B) :=
  match xs with
  | [] => Returns []
  | x :: rest =>
      match f x with
      | Throws e => Throws e
      | Returns y =>
          match mapThrowing f rest with
          | Throws e => Throws e
          | Returns ys => Returns (y :: ys)
          end
      end
  end.

Definition resolveReportingConfig (a : Reporting.ReportingConfig) : Outcome Reporting.WireItem :=
  match convertReportingConfigTime (Reporting.min a) with
  | Throws e => Throws e
  | Returns lo =>
      match convertReportingConfigTime (Reporting.max a) with
      | Throws e => Throws e
      | Returns hi =>
          Returns {| Zh.minimumReportInterval := lo;
                     Zh.maximumReportInterval := hi;
                     Zh.reportableChange := Reporting.change a;
                     Zh.attribute := Reporting.attribute a |}
      end
  end.

(** [isObject(a.attribute) ? a.attribute.ID : a.attribute]. *)
Definition readKeyOf (a : Reporting.ReportingConfig) : Zh.AttributeKey :=
  match Reporting.attribute a with
  | Reporting.AttributeObject id _ => Zh.KeyNumber id
  | Reporting.AttributeName name => Zh.KeyName name
  | Reporting.AttributeNumber id => Zh.KeyNumber id
  end.

(** The logger calls are left out: they send nothing. *)
Definition setupAttributes (entity : Zh.Entity) (coordinatorEndpoint : Zh.Endpoint)
    (cluster : Zh.ClusterKey) (config : list Reporting.ReportingConfig)
    (configureReporting read : bool) : Io.IO unit :=
  let* endpoints :=
    Io.lift match entity with
            | Zh.IsEndpoint endpoint => Returns [endpoint]
            | Zh.IsDevice device => getEndpointsWithInputCluster device cluster
            end in
  Io.forOf endpoints (fun endpoint =>
    await (if configureReporting then
             await Io.send (Zh.ID endpoint) cluster
                     (Io.Bind (Zh.ID endpoint) cluster (Zh.ID coordinatorEndpoint)) then
             let* items := Io.lift (mapThrowing resolveReportingConfig config) in
             Io.send (Zh.ID endpoint) cluster
               (Io.ConfigureReporting (Zh.ID endpoint) cluster items)
           else Io.ret tt) then
    if read then
      Io.tryCatch
        (Io.send (Zh.ID endpoint) cluster
           (Io.Read (Zh.ID endpoint) cluster (map readKeyOf config) None))
        (fun _ => Io.ret tt)
    else Io.ret tt).

Definition Configure : Type := Zh.Device -> Zh.Endpoint -> Io.IO unit.

Definition withAttribute (config : option Reporting.ReportingConfigWithoutAttribute)
    (attribute : Reporting.ReportingConfigAttribute) : Reporting.ReportingConfig :=
  match config with
  | Some c =>
      {| Reporting.min := Reporting.min0 c; Reporting.max := Reporting.max0 c;
         Reporting.change := Reporting.change0 c; Reporting.attribute := attribute |}
  | None =>
      {| Reporting.min := TimeNumber (-1); Reporting.max := TimeNumber (-1);
         Reporting.change := Reporting.ChangeNumber (-1); Reporting.attribute := attribute |}
  end.

Definition setupConfigureForReporting (ea : AccessTable)
    (cluster : Zh.ClusterKey) (attribute : Reporting.ReportingConfigAttribute)
    (config : option Reporting.ReportingConfigWithoutAttribute) (access : Z)
    (endpointNames : option (list string)) : option Configure :=
  let configureReporting := bool_decide (is_Some config) in
  let read := negb (jsBitAnd access (GET ea) =? 0) in
  if configureReporting || read then
    Some (fun device coordinatorEndpoint =>
      let reportConfig := withAttribute config attribute in
      let* entities :=
        match endpointNames with
        | None => Io.ret [Zh.IsDevice device]
        | Some names =>
            match Zh.endpoints device with
            | None => Io.raise "Cannot read properties of undefined (reading 'filter')"
            | Some all =>
                Io.ret (map Zh.IsEndpoint
                          (List.filter (fun e => bool_decide (pretty (Zh.ID e) ∈ names)) all))
            end
        end in
      Io.forOf entities (fun entity =>
        setupAttributes entity coordinatorEndpoint cluster [reportConfig]
          configureReporting read))
  else None.

End Configurator.

(** ** Messages, device definitions and the descriptor library *)

(** [{[k1]: v1, [k2]: v2, ...}]: entries are assigned left to right, a
    repeated key keeps the last value. *)
Definition objectLiteral {V} (entries : list (string * V)) : gmap string V :=
  foldl (fun obj kv => <[kv.1 := kv.2]> obj) ∅ entries.

Module Fz.

(** An inbound message.  [data] holds the properties of [msg.data] with
    their values.  The decoders look fixed attribute names up in it,
    with [in] or with [hasOwnProperty]. *)
Record Message : Type := {
  type : string;
  data : gmap string JsValue;
  endpoint : Zh.Endpoint
}.

(** The fifth argument of a decoder. *)
Record Meta : Type := { device : option Zh.Device }.

End Fz.

Module Def.

(** [voltageToPercentage?: string | {min: number, max: number}]. *)
Inductive VoltageToPercentage : Type :=
| VoltageCurve (name : string)
| VoltageRange (min max : Q).

Record BatteryMeta : Type := {
  voltageToPercentage : option VoltageToPercentage;
  dontDividePercentage : option bool
}.

Record DefinitionMeta : Type := {
  battery : option BatteryMeta
}.

(** The device definition a decoder receives as [model];
    [endpoint?: (device) => {[name]: number}] maps endpoint names to
    endpoint numbers. *)
Record ModelDefinition : Type := {
  model : string;
  meta : option DefinitionMeta;
  endpoint : option (option Zh.Device -> list (string * Z))
}.

End Def.

(** Helpers of the library that live outside the embedded file
    ([./utils], [./exposes]) and conversions of the language runtime. *)
Class Helpers : Type := {
  ea : AccessTable;
  (** the runtime's conversion of a string to a number, [None] for NaN *)
  StringToNumber : string -> option Q;
  (** [utils.getEndpointName]: the name the definition gives the
      endpoint of the message, undefined when it names none; the helper
      can throw *)
  getEndpointName : Fz.Message -> Def.ModelDefinition -> Fz.Meta -> Outcome (option string);
  (** the message of the error [utils.assertNumber] throws for a value
      and the name of the property it was given *)
  notANumber : Member JsValue -> option string -> string;
  (** [utils.batteryVoltageToPercentage] *)
  batteryVoltageToPercentage : JsValue -> Def.VoltageToPercentage -> JsValue;
  (** the property a descriptor named [name] answers to once it is
      qualified with an endpoint *)
  endpointProperty : string -> string -> string
}.

(** ToNumber; [None] stands for NaN. *)
Definition toNumber `{Helpers} (v : JsValue) : option Q :=
  match v with
  | VUndefined => None
  | VNumber q => Some q
  | VBool b => Some (if b then 1%Q else 0%Q)
  | VString s => StringToNumber s
  end.

(** ToInt32. *)
Definition toInt32 `{Helpers} (v : JsValue) : Z :=
  match toNumber v with
  | Some q => wrapInt32 (truncQ q)
  | None => 0
  end.

(** A string or an optional value in a condition. *)
Definition truthyString (s : string) : bool := negb (String.eqb s "").

(** [Math.round]: the nearest integer, a tie going up. *)
Definition mathRound (x : Q) : Z := Qfloor (x + (1 # 2)).

(** Modelled from the spec: [utils.precisionRound], described there as
    "rounds to N digits, round-half-up". *)
Definition precisionRound (number : Q) (precision : Z) : Q :=
  let factor := Qpower 10 precision in
  inject_Z (mathRound (number * factor)) / factor.

(** Modelled from the spec: the same rounding as the numeric builder
    computes it, on doubles: the product with the power of ten and the
    quotient by it are rounded to the nearest double. *)
Definition precisionRoundDouble (number : Q) (precision : Z) : Q :=
  let factor := roundDouble (Qpower 10 precision) in
  jsDivide (inject_Z (mathRound (jsMultiply number factor))) factor.

(** Modelled from the spec: [utils.assertNumber], the validation of
    numeric-ness whose failure is a fault.  The text of the fault is the
    helper's. *)
Definition assertNumber `{Helpers} (value : Member JsValue) (property : option string)
  : Outcome Q :=
  match value with
  | Own (VNumber q) => Returns q
  | _ => Throws (notANumber value property)
  end.

Module Exposes.

Inductive Kind : Type := numeric | binary.

(** Modelled from the spec: the capability descriptor of the descriptor
    library, with the fields this file sets. *)
Record Expose : Type := {
  type : Kind;
  name : string;
  property : string;
  access : Z;
  endpoint : option string;
  description : option string;
  unit : option string;
  label : option string;
  category : option string;
  value_min : option Q;
  value_max : option Q;
  value_step : option Q;
  value_on : option JsValue;
  value_off : option JsValue
}.

Definition newNumeric (name : string) (access : Z) : Expose :=
  {| type := numeric; name := name; property := name; access := access;
     endpoint := None; description := None; unit := None; label := None;
     category := None; value_min := None; value_max := None; value_step := None;
     value_on := None; value_off := None |}.

Definition newBinary (name : string) (access : Z) (valueOn valueOff : JsValue) : Expose :=
  {| type := binary; name := name; property := name; access := access;
     endpoint := None; description := None; unit := None; label := None;
     category := None; value_min := None; value_max := None; value_step := None;
     value_on := Some valueOn; value_off := Some valueOff |}.

Definition withDescription (d : string) (e : Expose) : Expose :=
  {| type := type e; name := name e; property := property e; access := access e;
     endpoint := endpoint e; description := Some d; unit := unit e; label := label e;
     category := category e; value_min := value_min e; value_max := value_max e;
     value_step := value_step e; value_on := value_on e; value_off := value_off e |}.

Definition withEndpoint `{Helpers} (endpointName : string) (e : Expose) : Expose :=
  {| type := type e; name := name e;
     property := endpointProperty (property e) endpointName; access := access e;
     endpoint := Some endpointName; description := description e; unit := unit e;
     label := label e; category := category e; value_min := value_min e;
     value_max := value_max e; value_step := value_step e; value_on := value_on e;
     value_off := value_off e |}.

Definition withUnit (u : string) (e : Expose) : Expose :=
  {| type := type e; name := name e; property := property e; access := access e;
     endpoint := endpoint e; description := description e; unit := Some u;
     label := label e; category := category e; value_min := value_min e;
     value_max := value_max e; value_step := value_step e; value_on := value_on e;
     value_off := value_off e |}.

Definition withLabel (l : string) (e : Expose) : Expose :=
  {| type := type e; name := name e; property := property e; access := access e;
     endpoint := endpoint e; description := description e; unit := unit e;
     label := Some l; category := category e; value_min := value_min e;
     value_max := value_max e; value_step := value_step e; value_on := value_on e;
     value_off := value_off e |}.

Definition withCategory (c : string) (e : Expose) : Expose :=
  {| type := type e; name := name e; property := property e; access := access e;
     endpoint := endpoint e; description := description e; unit := unit e;
     label := label e; category := Some c; value_min := value_min e;
     value_max := value_max e; value_step := value_step e; value_on := value_on e;
     value_off := value_off e |}.

Definition withValueMin (v : Q) (e : Expose) : Expose :=
  {| type := type e; name := name e; property := property e; access := access e;
     endpoint := endpoint e; description := description e; unit := unit e;
     label := label e; category := category e; value_min := Some v;
     value_max := value_max e; value_step := value_step e; value_on := value_on e;
     value_off := value_off e |}.

Definition withValueMax (v : Q) (e : Expose) : Expose :=
  {| type := type e; name := name e; property := property e; access := access e;
     endpoint := endpoint e; description := description e; unit := unit e;
     label := label e; category := category e; value_min := value_min e;
     value_max := Some v; value_step := value_step e; value_on := value_on e;
     value_off := value_off e |}.

Definition withValueStep (v : Q) (e : Expose) : Expose :=
  {| type := type e; name := name e; property := property e; access := access e;
     endpoint := endpoint e; description := description e; unit := unit e;
     label := label e; category := category e; value_min := value_min e;
     value_max := value_max e; value_step := Some v; value_on := value_on e;
     value_off := value_off e |}.

End Exposes.

(** ** Timers and the per-endpoint store *)

Module Timers.

(** An endpoint as a key of the store: the device it belongs to and its
    number. *)
Definition keyOf (e : Zh.Endpoint) : string * Z := (Zh.deviceIeeeAddress e, Zh.ID e).

(** A callback waiting in the scheduler.  [payload] is what the callback
    publishes.  [owner] records the endpoint whose message scheduled it;
    the scheduler itself does not know it, the field only lets a
    statement speak of the timers of one endpoint. *)
Record Timer : Type := {
  handle : nat;
  owner : string * Z;
  due : Q;
  payload : gmap string JsValue
}.

(** The clock, the scheduler's pending callbacks, the store of
    [../lib/store] restricted to the values this file puts there (timer
    handles), and what the callbacks have published, with the time of
    each publication. *)
Record Runtime : Type := {
  now : Q;
  nextHandle : nat;
  pending : list Timer;
  store : gmap (string * Z * string) nat;
  published : list (Q * gmap string JsValue)
}.

Definition initial : Runtime :=
  {| now := 0%Q; nextHandle := O; pending := []; store := ∅; published := [] |}.

(** [clearTimeout(h)]; [h] may be undefined. *)
Definition clearTimeout (h : option nat) (rt : Runtime) : Runtime :=
  match h with
  | None => rt
  | Some h =>
      {| now := now rt; nextHandle := nextHandle rt;
         pending := List.filter (fun t => negb (handle t =? h)%nat) (pending rt);
         store := store rt; published := published rt |}
  end.

(** The largest delay the runtime accepts, in milliseconds. *)
Definition TIMEOUT_MAX : Q := 2147483647.

(** The delay the runtime arms a timer with: a delay that is not a
    number, is below 1 or is above [TIMEOUT_MAX] becomes 1 millisecond. *)
Definition armedDelay (delay : option Q) : Q :=
  match delay with
  | Some d => if Qle_bool 1 d && Qle_bool d TIMEOUT_MAX then d else 1
  | None => 1
  end.

(** [setTimeout(() => publish(payload), delay)]: the callback is due
    when the armed delay has passed, on an ideal clock. *)
Definition setTimeout (owner : string * Z) (payload : gmap string JsValue)
    (delay : option Q) (rt : Runtime) : nat * Runtime :=
  let h := nextHandle rt in
  (h,
   {| now := now rt; nextHandle := S h;
      pending := pending rt ++
                 [{| handle := h; owner := owner;
                     due := (now rt + armedDelay delay)%Q; payload := payload |}];
      store := store rt; published := published rt |}).

(** Modelled from the spec: [globalStore.getValue] and
    [globalStore.putValue] of [../lib/store], the "explicit scoped state
    store" holding the per-endpoint timer. *)
Definition getValue (e : Zh.Endpoint) (key : string) (rt : Runtime) : option nat :=
  store rt !! (keyOf e, key).

Definition putValue (e : Zh.Endpoint) (key : string) (value : nat) (rt : Runtime) : Runtime :=
  {| now := now rt; nextHandle := nextHandle rt; pending := pending rt;
     store := <[(keyOf e, key) := value]> (store rt); published := published rt |}.

Definition isDue (t : Q) (timer : Timer) : bool := Qle_bool (due timer) t.

(** The clock reaches [t]: every callback due by then runs and is
    gone; its publication carries the time it was due. *)
Definition elapse (t : Q) (rt : Runtime) : Runtime :=
  if Qle_bool (now rt) t then
    {| now := t; nextHandle := nextHandle rt;
       pending := List.filter (fun timer => negb (isDue t timer)) (pending rt);
       store := store rt;
       published := published rt ++
                    map (fun timer => (due timer, payload timer))
                        (List.filter (isDue t) (pending rt)) |}
  else rt.


End Timers.

(** ** The bundle an extension returns *)

Record FzConverter : Type := {
  fzCluster : string;
  fzType : list string;
  fzOptions : list Exposes.Expose;
  convert : Def.ModelDefinition -> Fz.Message -> option (gmap string JsValue) -> Fz.Meta ->
            Timers.Runtime -> Outcome (option (gmap string JsValue)) * Timers.Runtime
}.

(** A decoder of this file, or one of the converter library ([fz.*]),
    known by name. *)
Inductive FromZigbee : Type :=
| FzOwn (c : FzConverter)
| FzLibrary (name : string).

Record TzConverter : Type := {
  key : list string;
  convertSet : option (Zh.Endpoint -> string -> JsValue -> Io.IO (gmap string JsValue));
  convertGet : option (Zh.Endpoint -> string -> Io.IO unit)
}.

Inductive ToZigbee : Type :=
| TzOwn (c : TzConverter)
| TzLibrary (name : string).

Record ModernExtend : Type := {
  exposes : list Exposes.Expose;
  fromZigbee : list FromZigbee;
  toZigbee : list ToZigbee;
  configure : option Configure;
  extendMeta : option Def.DefinitionMeta
}.

(** A decoder that neither reads nor changes the runtime. *)
Definition stateless (f : Def.ModelDefinition -> Fz.Message -> option (gmap string JsValue) ->
                          Fz.Meta -> Outcome (option (gmap string JsValue)))
  : Def.ModelDefinition -> Fz.Message -> option (gmap string JsValue) -> Fz.Meta ->
    Timers.Runtime -> Outcome (option (gmap string JsValue)) * Timers.Runtime :=
  fun model msg options meta rt => (f model msg options meta, rt).

(** ** [numeric] *)

Module Numeric.

(** [type: 'from' | 'to']. *)
Inductive Direction : Type := from | to.

(** [scale?: number | ScaleFunction]. *)
Inductive Scale : Type :=
| ScaleNumber (s : Q)
| ScaleFunction (f : Q -> Direction -> Q).

(** [attribute: string | {ID: number, type: number}]. *)
Inductive Attribute : Type :=
| AttributeName (name : string)
| AttributeObject (ID : Z) (type : Z).

Record NumericArgs : Type := {
  name : string;
  cluster : Zh.ClusterKey;
  attribute : Attribute;
  description : string;
  zigbeeCommandOptions : option Io.CommandOptions;
  access : option AccessName;
  unit : option string;
  endpointNames : option (list string);
  reporting : option Reporting.ReportingConfigWithoutAttribute;
  valueMin : option Q;
  valueMax : option Q;
  valueStep : option Q;
  scale : option Scale;
  label : option string;
  entityCategory : option string;
  precision : option Z
}.

Section Builder.
Context `{Helpers} `{Io.Transport}.
Variable args : NumericArgs.

Definition endpoints : option (list string) := endpointNames args.

Definition attributeKey : Zh.AttributeKey :=
  match attribute args with
  | AttributeName name => Zh.KeyName name
  | AttributeObject id _ => Zh.KeyNumber id
  end.

Definition accessBits : Z := accessOf ea (default AccessALL (access args)).

(** An optional step of the descriptor's construction. *)
Definition applyIf {A} (x : option A) (f : A -> Exposes.Expose -> Exposes.Expose)
    (e : Exposes.Expose) : Exposes.Expose :=
  match x with Some a => f a e | None => e end.

Definition nonEmpty (s : option string) : option string :=
  match s with
  | Some x => if truthyString x then Some x else None
  | None => None
  end.

Definition createExpose (endpoint : option string) : Exposes.Expose :=
  let expose := Exposes.withDescription (description args)
                  (Exposes.newNumeric (name args) accessBits) in
  let expose := applyIf (nonEmpty endpoint) Exposes.withEndpoint expose in
  let expose := applyIf (nonEmpty (unit args)) Exposes.withUnit expose in
  let expose := applyIf (valueMin args) Exposes.withValueMin expose in
  let expose := applyIf (valueMax args) Exposes.withValueMax expose in
  let expose := applyIf (valueStep args) Exposes.withValueStep expose in
  let expose := applyIf (label args) Exposes.withLabel expose in
  let expose := applyIf (nonEmpty (entityCategory args)) Exposes.withCategory expose in
  expose.

(** [!endpoints || (endpoints && endpoints.length === 1 && endpoints[0] === '1')]. *)
Definition noEndpoint : bool :=
  match endpoints with
  | None => true
  | Some [e] => String.eqb e "1"
  | Some _ => false
  end.

Definition numericExposes : list Exposes.Expose :=
  if noEndpoint then [createExpose None]
  else map (fun endpoint => createExpose (Some endpoint)) (default [] endpoints).

(** [typeof scale === 'number' ? value / scale : scale(value, 'from')],
    for a constant scale that is not zero. *)
Definition scaleFrom (value : Q) : Q :=
  match scale args with
  | None => value
  | Some (ScaleNumber s) => jsDivide value s
  | Some (ScaleFunction f) => f value from
  end.

(** The value the decoder emits for a numeric raw value.  The second
    [assertNumber], after scaling, cannot fail on a rational. *)
Definition decodeValue (raw : Q) : Q :=
  let value := scaleFrom raw in
  match precision args with
  | Some p => precisionRoundDouble value p
  | None => value
  end.

(** [endpoints?.find((e) => getEndpointName(msg, model, meta) === e)]:
    the helper is called for the first name in the list, and with the
    same result for every further one. *)
Definition matchingEndpoint (model : Def.ModelDefinition) (msg : Fz.Message) (meta : Fz.Meta)
  : Outcome (option string) :=
  match endpoints with
  | None | Some [] => Returns None
  | Some names =>
      match getEndpointName msg model meta with
      | Throws e => Throws e
      | Returns (Some name) => Returns (List.find (fun e => String.eqb name e) names)
      | Returns None => Returns None
      end
  end.

(** [exposes.length === 1 ? exposes[0] : exposes.find((e) => e.endpoint === endpoint)]. *)
Definition exposeFor (endpoint : option string) : option Exposes.Expose :=
  if (length numericExposes =? 1)%nat then head numericExposes
  else List.find (fun e => bool_decide (Exposes.endpoint e = endpoint)) numericExposes.

Definition numericConvert (model : Def.ModelDefinition) (msg : Fz.Message)
    (options : option (gmap string JsValue)) (meta : Fz.Meta)
  : Outcome (option (gmap string JsValue)) :=
  match jsGet (Zh.keyToString attributeKey) (Fz.data msg) with
  | None => Returns None
  | Some raw =>
      match matchingEndpoint model msg meta with
      | Throws e => Throws e
      | Returns endpoint =>
          if bool_decide (is_Some endpoints)
             && negb (bool_decide (is_Some (nonEmpty endpoint)))
          then Returns None
          else
            match assertNumber raw None with
            | Throws e => Throws e
            | Returns value =>
                let value := decodeValue value in
                match exposeFor endpoint with
                | Some expose => Returns (Some {[ Exposes.property expose := VNumber value ]})
                | None => Throws "Cannot read properties of undefined (reading 'property')"
                end
            end
      end
  end.

(** The wire value [convertSet] writes for a numeric capability value:
    scaled first, and then, when a precision is declared, replaced by
    the rounding of [value]. *)
Definition payloadValueOf (value : Q) : Q :=
  let payloadValue :=
    match scale args with
    | None => value
    | Some (ScaleNumber s) => jsMultiply value s
    | Some (ScaleFunction f) => f value to
    end in
  match precision args with
  | Some p => precisionRoundDouble value p
  | None => payloadValue
  end.

Definition writePayload (payloadValue : Q) : list (string * Io.WriteValue) :=
  match attribute args with
  | AttributeName name => [(name, Io.Plain (VNumber payloadValue))]
  | AttributeObject id type => [(pretty id, Io.Typed (VNumber payloadValue) type)]
  end.

(** Returns the [state] of [{state: {[key]: value}}]. *)
Definition numericConvertSet (entity : Zh.Endpoint) (key : string) (value : JsValue)
  : Io.IO (gmap string JsValue) :=
  let* number := Io.lift (assertNumber (Own value) (Some key)) in
  let payloadValue := payloadValueOf number in
  await Io.send (Zh.ID entity) (cluster args)
          (Io.Write (Zh.ID entity) (cluster args) (writePayload payloadValue)
             (zigbeeCommandOptions args)) then
  Io.ret {[ key := value ]}.

Definition numericConvertGet (entity : Zh.Endpoint) (key : string) : Io.IO Datatypes.unit :=
  Io.send (Zh.ID entity) (cluster args)
    (Io.Read (Zh.ID entity) (cluster args) [attributeKey] (zigbeeCommandOptions args)).

Definition reportingAttribute : Reporting.ReportingConfigAttribute :=
  match attribute args with
  | AttributeName name => Reporting.AttributeName name
  | AttributeObject id type => Reporting.AttributeObject id type
  end.

Definition numeric : ModernExtend :=
  {| exposes := numericExposes;
     fromZigbee :=
       [FzOwn {| fzCluster := Zh.clusterToString (cluster args);
                 fzType := ["attributeReport"; "readResponse"]%string;
                 fzOptions := [];
                 convert := stateless numericConvert |}];
     toZigbee :=
       [TzOwn {| key := [name args];
                 convertSet := if negb (jsBitAnd accessBits (SET ea) =? 0)
                               then Some numericConvertSet else None;
                 convertGet := if negb (jsBitAnd accessBits (GET ea) =? 0)
                               then Some numericConvertGet else None |}];
     configure := setupConfigureForReporting ea (cluster args) reportingAttribute
                    (reporting args) accessBits endpoints;
     extendMeta := None |}.

End Builder.

End Numeric.

(** ** [battery] *)

Module Battery.

Record BatteryArgs : Type := {
  voltageToPercentage : option Def.VoltageToPercentage;
  dontDividePercentage : option bool;
  percentage : option bool;
  voltage : option bool;
  lowStatus : option bool;
  percentageReportingConfig : option Reporting.ReportingConfigWithoutAttribute;
  percentageReporting : option bool;
  voltageReportingConfig : option Reporting.ReportingConfigWithoutAttribute;
  voltageReporting : option bool
}.

(** [battery()] called without an argument. *)
Definition noArgs : BatteryArgs :=
  {| voltageToPercentage := None; dontDividePercentage := None; percentage := None;
     voltage := None; lowStatus := None; percentageReportingConfig := None;
     percentageReporting := None; voltageReportingConfig := None;
     voltageReporting := None |}.

Section Builder.
Context `{Helpers} `{Io.Transport}.
Variable given : BatteryArgs.

(** [args = {percentage: true, voltage: false, lowStatus: false,
    percentageReporting: true, voltageReporting: false, ...args}]. *)
Definition args : BatteryArgs :=
  {| voltageToPercentage := voltageToPercentage given;
     dontDividePercentage := dontDividePercentage given;
     percentage := Some (default true (percentage given));
     voltage := Some (default false (voltage given));
     lowStatus := Some (default false (lowStatus given));
     percentageReportingConfig := percentageReportingConfig given;
     percentageReporting := Some (default true (percentageReporting given));
     voltageReportingConfig := voltageReportingConfig given;
     voltageReporting := Some (default false (voltageReporting given)) |}.

Definition flag (b : option bool) : bool := default false b.

Definition truthyCurve (v : Def.VoltageToPercentage) : bool :=
  match v with
  | Def.VoltageCurve name => truthyString name
  | Def.VoltageRange _ _ => true
  end.

Definition batteryMeta : Def.DefinitionMeta :=
  {| Def.battery :=
       Some {| Def.voltageToPercentage :=
                 match voltageToPercentage args with
                 | Some v => if truthyCurve v then Some v else None
                 | None => None
                 end;
               Def.dontDividePercentage :=
                 if flag (dontDividePercentage args)
                 then dontDividePercentage args else None |} |}.

Definition batteryExposes : list Exposes.Expose :=
  (if flag (percentage args)
   then [Exposes.withCategory "diagnostic"
           (Exposes.withValueMax 100
              (Exposes.withValueMin 0
                 (Exposes.withDescription "Remaining battery in %"
                    (Exposes.withUnit "%" (Exposes.newNumeric "battery" (STATE ea))))))]
   else [])
  ++ (if flag (voltage args)
      then [Exposes.withCategory "diagnostic"
              (Exposes.withDescription "Reported battery voltage in millivolts"
                 (Exposes.withUnit "mV" (Exposes.newNumeric "voltage" (STATE ea))))]
      else [])
  ++ (if flag (lowStatus args)
      then [Exposes.withCategory "diagnostic"
              (Exposes.withDescription "Empty battery indicator"
                 (Exposes.newBinary "battery_low" (STATE ea) (VBool true) (VBool false)))]
      else []).

(** [msg.data.hasOwnProperty(key) && (msg.data[key] < 255)]: the number
    the value converts to when the test passes. *)
Definition below255 (msg : Fz.Message) (key : string) : option Q :=
  match Fz.data msg !! key with
  | Some v =>
      match toNumber v with
      | Some q => if Qle_bool 255 q then None else Some q
      | None => None
      end
  | None => None
  end.

(** [model.meta && model.meta.battery && model.meta.battery.dontDividePercentage]. *)
Definition modelBattery (model : Def.ModelDefinition) : option Def.BatteryMeta :=
  match Def.meta model with
  | Some m => Def.battery m
  | None => None
  end.

Definition modelDontDivide (model : Def.ModelDefinition) : bool :=
  match modelBattery model with
  | Some b => flag (Def.dontDividePercentage b)
  | None => false
  end.

Definition modelVoltageToPercentage (model : Def.ModelDefinition) : option Def.VoltageToPercentage :=
  match modelBattery model with
  | Some b =>
      match Def.voltageToPercentage b with
      | Some v => if truthyCurve v then Some v else None
      | None => None
      end
  | None => None
  end.

(** One of the three groups of four bits:
    [(s & 1<<b || s & 1<<(b+1) || s & 1<<(b+2) || s & 1<<(b+3)) > 0]. *)
Definition groupLow (state : Z) (b : Z) : bool :=
  jsOrNum (jsBitAnd state (jsShiftLeft 1 b))
    (jsOrNum (jsBitAnd state (jsShiftLeft 1 (b + 1)))
       (jsOrNum (jsBitAnd state (jsShiftLeft 1 (b + 2)))
          (jsBitAnd state (jsShiftLeft 1 (b + 3)))))
  >? 0.

Definition percentageStep (model : Def.ModelDefinition) (msg : Fz.Message)
    (payload : gmap string JsValue) : gmap string JsValue :=
  match below255 msg "batteryPercentageRemaining" with
  | Some raw =>
      let percentage0 := if modelDontDivide model then raw else (raw / 2)%Q in
      if flag (percentage args)
      then <["battery" := VNumber (precisionRound percentage0 2)]> payload
      else payload
  | None => payload
  end.

Definition voltageStep (model : Def.ModelDefinition) (msg : Fz.Message)
    (payload : gmap string JsValue) : gmap string JsValue :=
  match below255 msg "batteryVoltage" with
  | Some raw =>
      let payload :=
        if flag (voltage args)
        then <["voltage" := VNumber (raw * 100)%Q]> payload
        else payload in
      match modelVoltageToPercentage model with
      | Some curve =>
          <["battery" := batteryVoltageToPercentage
                           (default VUndefined (payload !! "voltage")) curve]> payload
      | None => payload
      end
  | None => payload
  end.

Definition alarmStep (msg : Fz.Message) (payload : gmap string JsValue)
  : gmap string JsValue :=
  match Fz.data msg !! "batteryAlarmState" with
  | Some v =>
      let state := toInt32 v in
      let battery1Low := groupLow state 0 in
      let battery2Low := groupLow state 10 in
      let battery3Low := groupLow state 20 in
      if flag (lowStatus args)
      then <["battery_low" := VBool (battery1Low || battery2Low || battery3Low)]> payload
      else payload
  | None => payload
  end.

Definition batteryConvert (model : Def.ModelDefinition) (msg : Fz.Message)
    (options : option (gmap string JsValue)) (meta : Fz.Meta)
  : Outcome (option (gmap string JsValue)) :=
  Returns (Some (alarmStep msg (voltageStep model msg (percentageStep model msg ∅)))).

Definition defaultReporting : Reporting.ReportingConfigWithoutAttribute :=
  {| Reporting.min0 := TimeName "1_HOUR"; Reporting.max0 := TimeName "MAX";
     Reporting.change0 := Reporting.ChangeNumber 10 |}.

Definition batteryConfigure : Configure :=
  fun device coordinatorEndpoint =>
    await (if flag (percentageReporting args) then
             setupAttributes (Zh.IsDevice device) coordinatorEndpoint
               (Zh.ClusterName "genPowerCfg")
               [withAttribute
                  (Some (default defaultReporting (percentageReportingConfig args)))
                  (Reporting.AttributeName "batteryPercentageRemaining")]
               true true
           else Io.ret tt) then
    if flag (voltageReporting args) then
      setupAttributes (Zh.IsDevice device) coordinatorEndpoint
        (Zh.ClusterName "genPowerCfg")
        [withAttribute
           (Some (default defaultReporting (voltageReportingConfig args)))
           (Reporting.AttributeName "batteryVoltage")]
        true true
    else Io.ret tt.

Definition battery : ModernExtend :=
  {| exposes := batteryExposes;
     fromZigbee :=
       [FzOwn {| fzCluster := "genPowerCfg";
                 fzType := ["attributeReport"; "readResponse"]%string;
                 fzOptions := [];
                 convert := stateless batteryConvert |}];
     toZigbee := [];
     configure := Some batteryConfigure;
     extendMeta := Some batteryMeta |}.

End Builder.

End Battery.

(** ** [iasZoneAlarm] *)

Module Ias.

Inductive iasZoneType : Type :=
| occupancy | contact | smoke | water_leak | carbon_monoxide | sos | vibration
| alarm | gas | generic.

Inductive iasZoneAttribute : Type :=
| alarm_1 | alarm_2 | tamper | battery_low | supervision_reports | restore_reports
| ac_status | test | battery_defect.

Record IasArgs : Type := {
  zoneType : iasZoneType;
  zoneAttributes : list iasZoneAttribute;
  alarmTimeout : option bool
}.

(** The string a zone type is. *)
Definition zoneTypeName (z : iasZoneType) : string :=
  match z with
  | occupancy => "occupancy" | contact => "contact" | smoke => "smoke"
  | water_leak => "water_leak" | carbon_monoxide => "carbon_monoxide"
  | sos => "sos" | vibration => "vibration" | alarm => "alarm" | gas => "gas"
  | generic => "generic"
  end.

(** The string a zone attribute is. *)
Definition attributeName (a : iasZoneAttribute) : string :=
  match a with
  | alarm_1 => "alarm_1" | alarm_2 => "alarm_2" | tamper => "tamper"
  | battery_low => "battery_low" | supervision_reports => "supervision_reports"
  | restore_reports => "restore_reports" | ac_status => "ac_status"
  | test => "test" | battery_defect => "battery_defect"
  end.

Definition isAlarm (a : iasZoneAttribute) : bool :=
  match a with alarm_1 | alarm_2 => true | _ => false end.

#[global] Instance iasZoneAttribute_eq_dec : EqDecision iasZoneAttribute.
Proof. solve_decision. Defined.

#[global] Instance iasZoneType_eq_dec : EqDecision iasZoneType.
Proof. solve_decision. Defined.

(** [l.includes(a)]. *)
Definition includes (a : iasZoneAttribute) (l : list iasZoneAttribute) : bool :=
  bool_decide (a ∈ l).

Section Builder.
Context `{Helpers}.

Definition onOff (name description : string) : Exposes.Expose :=
  Exposes.withDescription description
    (Exposes.newBinary name (STATE ea) (VBool true) (VBool false)).

Definition diagnostic (name description : string) : Exposes.Expose :=
  Exposes.withCategory "diagnostic" (onOff name description).

(** The entries of [exposeList] under the zone types; ['generic'] has
    none. *)
Definition exposeListZone (z : iasZoneType) : option Exposes.Expose :=
  match z with
  | occupancy => Some (onOff "occupancy" "Indicates whether the device detected occupancy")
  | contact =>
      Some (Exposes.withDescription "Indicates whether the device is opened or closed"
              (Exposes.newBinary "contact" (STATE ea) (VBool false) (VBool true)))
  | smoke => Some (onOff "smoke" "Indicates whether the device detected smoke")
  | water_leak => Some (onOff "water_leak" "Indicates whether the device detected a water leak")
  | carbon_monoxide =>
      Some (onOff "carbon_monoxide" "Indicates whether the device detected carbon monoxide")
  | sos =>
      Some (Exposes.withDescription "Indicates whether the SOS alarm is triggered"
              (Exposes.withLabel "SOS"
                 (Exposes.newBinary "sos" (STATE ea) (VBool true) (VBool false))))
  | vibration => Some (onOff "vibration" "Indicates whether the device detected vibration")
  | alarm => Some (onOff "alarm" "Indicates whether the alarm is triggered")
  | gas => Some (onOff "gas" "Indicates whether the device detected gas")
  | generic => None
  end.

(** The entries of [exposeList] under the zone attributes. *)
Definition exposeListAttribute (a : iasZoneAttribute) : Exposes.Expose :=
  match a with
  | alarm_1 => onOff "alarm_1" "Indicates whether IAS Zone alarm 1 is active"
  | alarm_2 => onOff "alarm_2" "Indicates whether IAS Zone alarm 2 is active"
  | tamper => diagnostic "tamper" "Indicates whether the device is tampered"
  | battery_low =>
      diagnostic "battery_low" "Indicates whether the battery of the device is almost empty"
  | supervision_reports =>
      diagnostic "supervision_reports"
        "Indicates whether the device issues reports on zone operational status"
  | restore_reports =>
      diagnostic "restore_reports"
        "Indicates whether the device issues reports on alarm no longer being present"
  | ac_status =>
      diagnostic "ac_status" "Indicates whether the device mains voltage supply is at fault"
  | test =>
      diagnostic "test" "Indicates whether the device is currently performing a test"
  | battery_defect =>
      diagnostic "battery_defect" "Indicates whether the device battery is defective"
  end.

Variable args : IasArgs.

Definition bothAlarms : bool :=
  includes alarm_1 (zoneAttributes args) && includes alarm_2 (zoneAttributes args).

Definition isGeneric : bool := bool_decide (zoneType args = generic).

Definition alarm1Name : string :=
  if isGeneric then "alarm_1"
  else if bothAlarms then zoneTypeName (zoneType args) ++ "_alarm_1"
  else zoneTypeName (zoneType args).

Definition alarm2Name : string :=
  if isGeneric then "alarm_2"
  else if bothAlarms then zoneTypeName (zoneType args) ++ "_alarm_2"
  else zoneTypeName (zoneType args).

(** [exposeList[args.zoneType].description + suffix]. *)
Definition zoneDescription (zone : Exposes.Expose) (suffix : string) : string :=
  default "undefined" (Exposes.description zone) ++ suffix.

(** The zone type is ['generic'] exactly when [exposeList] has no entry
    for it. *)
Definition iasExposes : list Exposes.Expose :=
  match exposeListZone (zoneType args) with
  | None => map exposeListAttribute (zoneAttributes args)
  | Some zone =>
      (if bothAlarms then
         [Exposes.withDescription (zoneDescription zone " (alarm_1)")
            (Exposes.newBinary (zoneTypeName (zoneType args) ++ "_alarm_1") (STATE ea)
               (VBool true) (VBool false));
          Exposes.withDescription (zoneDescription zone " (alarm_2)")
            (Exposes.newBinary (zoneTypeName (zoneType args) ++ "_alarm_2") (STATE ea)
               (VBool true) (VBool false))]
       else [zone])
      ++ map exposeListAttribute
           (List.filter (fun attr => negb (isAlarm attr)) (zoneAttributes args))
  end.

Definition timeoutProperty : string := zoneTypeName (zoneType args) ++ "_timeout".

Definition timeoutOption : list Exposes.Expose :=
  if default false (alarmTimeout args) then
    [Exposes.withDescription
       ("Time in seconds after which " ++ zoneTypeName (zoneType args)
          ++ " is cleared after detecting it (default 90 seconds).")
       (Exposes.withValueMin 0 (Exposes.newNumeric timeoutProperty (SET ea)))]
  else [].

(** [options?.hasOwnProperty(timeoutProperty) ? Number(options[timeoutProperty]) : 90];
    [None] stands for NaN. *)
Definition timeoutOf (options : option (gmap string JsValue)) : option Q :=
  match options with
  | Some o =>
      match o !! timeoutProperty with
      | Some v => toNumber v
      | None => Some 90%Q
      end
  | None => Some 90%Q
  end.

(** [timeout !== 0]. *)
Definition notZero (timeout : option Q) : bool :=
  match timeout with
  | Some q => negb (Qeq_bool q 0)
  | None => true
  end.

(** What the timer's callback publishes. *)
Definition clearPayload : gmap string JsValue :=
  objectLiteral [(alarm1Name, VBool false); (alarm2Name, VBool false)].

(** The [if (args.alarmTimeout) {...}] block. *)
Definition rearm (msg : Fz.Message) (options : option (gmap string JsValue))
    (rt : Timers.Runtime) : Timers.Runtime :=
  if default false (alarmTimeout args) then
    let timeout := timeoutOf options in
    let rt := Timers.clearTimeout (Timers.getValue (Fz.endpoint msg) "timer" rt) rt in
    if notZero timeout then
      let '(timer, rt) :=
        Timers.setTimeout (Timers.keyOf (Fz.endpoint msg)) clearPayload
          (option_map (fun t => jsMultiply t 1000) timeout) rt in
      Timers.putValue (Fz.endpoint msg) "timer" timer rt
    else rt
  else rt.

Definition zoneStatusOf (msg : Fz.Message) : JsValue :=
  if String.eqb (Fz.type msg) "commandStatusChangeNotification"
  then default VUndefined (Fz.data msg !! "zonestatus")
  else default VUndefined (Fz.data msg !! "zoneStatus").

(** [(zoneStatus & 1 << n) > 0]. *)
Definition flagAt (zoneStatus : Z) (n : Z) : JsValue :=
  VBool (jsBitAnd zoneStatus (jsShiftLeft 1 n) >? 0).

Definition statusPayload (zoneStatus : Z) : gmap string JsValue :=
  objectLiteral
    [(alarm1Name, VBool (jsBitAnd zoneStatus 1 >? 0));
     (alarm2Name, flagAt zoneStatus 1);
     ("tamper", flagAt zoneStatus 2);
     ("battery_low", flagAt zoneStatus 3);
     ("supervision_reports", flagAt zoneStatus 4);
     ("restore_reports", flagAt zoneStatus 5);
     ("trouble", flagAt zoneStatus 6);
     ("ac_status", flagAt zoneStatus 7);
     ("test", flagAt zoneStatus 8);
     ("battery_defect", flagAt zoneStatus 9)]%string.

Definition iasConvert (model : Def.ModelDefinition) (msg : Fz.Message)
    (options : option (gmap string JsValue)) (meta : Fz.Meta) (rt : Timers.Runtime)
  : Outcome (option (gmap string JsValue)) * Timers.Runtime :=
  let zoneStatus := zoneStatusOf msg in
  let rt := rearm msg options rt in
  (Returns (Some (statusPayload (toInt32 zoneStatus))), rt).

Definition iasZoneAlarm : ModernExtend :=
  {| exposes := iasExposes;
     fromZigbee :=
       [FzOwn {| fzCluster := "ssIasZone";
                 fzType := ["commandStatusChangeNotification"; "attributeReport";
                            "readResponse"]%string;
                 fzOptions := timeoutOption;
                 convert := iasConvert |}];
     toZigbee := [];
     configure := None;
     extendMeta := None |}.

End Builder.

End Ias.

(** ** [electricityMeter] *)

Module Meter.

Record MultiplierDivisor : Type := {
  multiplier : option Q;
  divisor : option Q
}.

(** [false | MultiplierDivisor], or left out. *)
Inductive Forced : Type :=
| LeftOut
| Disabled
| Given (md : MultiplierDivisor).

Inductive ClusterChoice : Type := both | metering | electrical.

Record ElectricityMeterArgs : Type := {
  cluster : option ClusterChoice;
  current : Forced;
  power : Forced;
  voltage : Forced;
  energy : Forced
}.

(** [utils.isObject] on a value of this type: true of the object,
    false of [false] and [undefined]. *)
Definition isObject (f : Forced) : bool :=
  match f with Given _ => true | _ => false end.

(** [a !== b] on optional numbers. *)
Definition differ (a b : option Q) : bool :=
  match a, b with
  | None, None => false
  | Some x, Some y => negb (Qeq_bool x y)
  | _, _ => true
  end.

(** [f?.divisor] and [f?.multiplier]. *)
Definition divisorOf (f : Forced) : option Q :=
  match f with Given md => divisor md | _ => None end.

Definition multiplierOf (f : Forced) : option Q :=
  match f with Given md => multiplier md | _ => None end.

(** One entry of [configureLookup]. *)
Record Property : Type := {
  attribute : string;
  divisorAttribute : string;
  multiplierAttribute : string;
  forced : Forced;
  change : Q
}.

(** [delete obj[key]] on an object kept as an ordered list of entries. *)
Definition deleteKey {V} (key : string) (obj : list (string * V)) : list (string * V) :=
  List.filter (fun kv => negb (String.eqb kv.1 key)) obj.

(** [delete obj[outer][inner]]. *)
Definition deleteIn {V} (outer inner : string) (obj : list (string * list (string * V)))
  : list (string * list (string * V)) :=
  map (fun kv => if String.eqb kv.1 outer then (kv.1, deleteKey inner kv.2) else kv) obj.

Section Builder.
Context `{Helpers} `{Io.Transport}.
Variable given : ElectricityMeterArgs.

(** [args = {cluster: 'both', ...args}]. *)
Definition clusterChoice : ClusterChoice := default both (cluster given).

(** The test of the [if] that opens the builder. *)
Definition mismatch : bool :=
  match clusterChoice with
  | metering =>
      isObject (power given) && isObject (energy given) &&
      (differ (divisorOf (power given)) (divisorOf (energy given)) ||
       differ (multiplierOf (power given)) (multiplierOf (energy given)))
  | _ => false
  end.

Definition configureLookup0 : list (string * list (string * Property)) :=
  [("haElectricalMeasurement",
    [("power", {| attribute := "activePower"; divisorAttribute := "acPowerDivisor";
                  multiplierAttribute := "acPowerMultiplier"; forced := power given;
                  change := 5 |});
     ("current", {| attribute := "rmsCurrent"; divisorAttribute := "acCurrentDivisor";
                    multiplierAttribute := "acCurrentMultiplier"; forced := current given;
                    change := roundDouble (5 # 100) |});
     ("voltage", {| attribute := "rmsVoltage"; divisorAttribute := "acVoltageDivisor";
                    multiplierAttribute := "acVoltageMultiplier"; forced := voltage given;
                    change := 5 |})]);
   ("seMetering",
    [("power", {| attribute := "instantaneousDemand"; divisorAttribute := "divisor";
                  multiplierAttribute := "multiplier"; forced := power given;
                  change := 5 |});
     ("energy", {| attribute := "currentSummDelivered"; divisorAttribute := "divisor";
                   multiplierAttribute := "multiplier"; forced := energy given;
                   change := roundDouble (1 # 10) |})])]%string.

Definition isDisabled (f : Forced) : bool :=
  match f with Disabled => true | _ => false end.

Definition when {A} (b : bool) (f : A -> A) (x : A) : A := if b then f x else x.

(** [configureLookup] once every [delete] has run. *)
Definition configureLookup : list (string * list (string * Property)) :=
  let l := configureLookup0 in
  let l := when (isDisabled (power given))
             (fun l => deleteIn "seMetering" "power"
                         (deleteIn "haElectricalMeasurement" "power" l)) l in
  let l := when (isDisabled (voltage given)) (deleteIn "haElectricalMeasurement" "voltage") l in
  let l := when (isDisabled (current given)) (deleteIn "haElectricalMeasurement" "current") l in
  let l := when (isDisabled (energy given)) (deleteIn "seMetering" "energy") l in
  match clusterChoice with
  | both => deleteIn "seMetering" "power" l
  | metering => deleteKey "haElectricalMeasurement" l
  | electrical => deleteKey "seMetering" l
  end.

(** [e.<name>().withAccess(access)]: a preset of the descriptor
    library; the unit and description the library gives it are left out. *)
Definition preset (name : string) (access : Z) : Exposes.Expose :=
  Exposes.newNumeric name access.

Definition meterExposes : list Exposes.Expose :=
  match clusterChoice with
  | both => [preset "power" (STATE_GET ea); preset "voltage" (STATE_GET ea);
             preset "current" (STATE_GET ea); preset "energy" (STATE_GET ea)]
  | metering => [preset "power" (STATE_GET ea); preset "energy" (STATE_GET ea)]
  | electrical => [preset "power" (STATE_GET ea); preset "voltage" (STATE_GET ea);
                   preset "current" (STATE_GET ea)]
  end.

Definition meterFromZigbee : list FromZigbee :=
  match clusterChoice with
  | both => [FzLibrary "electrical_measurement"; FzLibrary "metering"]
  | metering => [FzLibrary "metering"]
  | electrical => [FzLibrary "electrical_measurement"]
  end.

Definition meterToZigbee : list ToZigbee :=
  match clusterChoice with
  | both => [TzLibrary "electrical_measurement_power"; TzLibrary "acvoltage";
             TzLibrary "accurrent"; TzLibrary "currentsummdelivered"]
  | metering => [TzLibrary "metering_power"; TzLibrary "currentsummdelivered"]
  | electrical => [TzLibrary "electrical_measurement_power"; TzLibrary "acvoltage";
                   TzLibrary "accurrent"]
  end.

(** The body of the innermost loop: settle the divisor and multiplier of
    one property in the endpoint's cache and derive its reporting entry. *)
Definition propertyItem (endpoint : Zh.Endpoint) (clusterName : string) (property : Property)
  : Io.IO Reporting.ReportingConfig :=
  await (match forced property with
         | Given md =>
             Io.saveClusterAttributeKeyValue (Zh.ID endpoint) clusterName
               [(divisorAttribute property, VNumber (default 1%Q (divisor md)));
                (multiplierAttribute property, VNumber (default 1%Q (multiplier md)))]
         | _ =>
             Io.send (Zh.ID endpoint) (Zh.ClusterName clusterName)
               (Io.Read (Zh.ID endpoint) (Zh.ClusterName clusterName)
                  [Zh.KeyName (divisorAttribute property);
                   Zh.KeyName (multiplierAttribute property)] None)
         end) then
  let* d := Io.getClusterAttributeValue (Zh.ID endpoint) clusterName
              (divisorAttribute property) in
  let* d := Io.lift (assertNumber (Own d) (Some (divisorAttribute property))) in
  let* m := Io.getClusterAttributeValue (Zh.ID endpoint) clusterName
              (multiplierAttribute property) in
  let* m := Io.lift (assertNumber (Own m) (Some (multiplierAttribute property))) in
  let c := jsMultiply (change property) (jsDivide d m) in
  Io.ret {| Reporting.attribute := Reporting.AttributeName (attribute property);
            Reporting.min := TimeName "10_SECONDS";
            Reporting.max := TimeName "MAX";
            Reporting.change :=
              if String.eqb (attribute property) "currentSummDelivered"
              then Reporting.ChangePair 0 c else Reporting.ChangeNumber c |}.

(** [for (const property of Object.values(properties)) {... items.push(...)}]. *)
Fixpoint collectItems (endpoint : Zh.Endpoint) (clusterName : string)
    (properties : list (string * Property)) : Io.IO (list Reporting.ReportingConfig) :=
  match properties with
  | [] => Io.ret []
  | (_, property) :: rest =>
      let* item := propertyItem endpoint clusterName property in
      let* items := collectItems endpoint clusterName rest in
      Io.ret (item :: items)
  end.

Definition meterConfigure : Configure :=
  fun device coordinatorEndpoint =>
    Io.forOf configureLookup (fun entry =>
      let '(clusterName, properties) := entry in
      let* endpoints :=
        Io.lift (getEndpointsWithInputCluster device (Zh.ClusterName clusterName)) in
      Io.forOf endpoints (fun endpoint =>
        let* items := collectItems endpoint clusterName properties in
        if negb (length items =? 0)%nat then
          setupAttributes (Zh.IsEndpoint endpoint) coordinatorEndpoint
            (Zh.ClusterName clusterName) items true true
        else Io.ret tt)).

Definition electricityMeter : Outcome ModernExtend :=
  if mismatch then
    Throws "When cluster is metering, power and energy divisor/multiplier should be equal"
  else
    Returns {| exposes := meterExposes;
               fromZigbee := meterFromZigbee;
               toZigbee := meterToZigbee;
               configure := Some meterConfigure;
               extendMeta := None |}.

End Builder.

End Meter.

(** ** An extension's life: built once, then configured at interview *)

(** Build the electricity meter and, if the build returned a bundle, run
    its configurator against the device, starting from a world in which
    nothing has been sent. *)
Definition buildAndConfigureMeter `{Helpers} `{Io.Transport} (args : Meter.ElectricityMeterArgs)
    (device : Zh.Device) (coordinatorEndpoint : Zh.Endpoint) : Outcome unit * Io.World :=
  match Meter.electricityMeter args with
  | Throws e => (Throws e, Io.emptyWorld)
  | Returns extend =>
      match configure extend with
      | Some run => run device coordinatorEndpoint Io.emptyWorld
      | None => (Returns tt, Io.emptyWorld)
      end
  end.

(** ** The zone decoder over time *)



(** The bits of the battery alarm state that mean "low". *)
Definition lowBatteryBits : list Z := [0; 1; 2; 3; 10; 11; 12; 13; 20; 21; 22; 23].

(** Equality of two optional numbers. *)
Definition sameNumber (a b : option Q) : Prop :=
  match a, b with
  | None, None => True
  | Some x, Some y => (x == y)%Q
  | _, _ => False
  end.

(** ** Sample values *)

Module Sample.

(** The constants the descriptor library gives the access bits, the
    endpoint name as the library's helper finds it (it throws on a
    definition without an endpoint map, and looks the number of the
    message's endpoint up in the map otherwise), and stand-ins for the
    other helpers. *)
Definition helpers : Helpers :=
  {| ea := {| STATE := 1; SET := 2; GET := 4; STATE_SET := 3; STATE_GET := 5; ALL := 7 |};
     StringToNumber := fun _ => None;
     getEndpointName := fun msg definition meta =>
       match Def.endpoint definition with
       | None =>
           Throws ("Definition '" ++ Def.model definition ++ "' has not endpoint defined")
       | Some names =>
           Returns (option_map fst
                      (List.find (fun entry => entry.2 =? Zh.ID (Fz.endpoint msg))
                                 (names (Fz.device meta))))
       end;
     notANumber := fun value property =>
       (match property with Some name => "'" ++ name ++ "'" | None => "Value" end
        ++ " is not a number, got "
        ++ match value with
           | Own VUndefined => "undefined (undefined)"
           | Own (VNumber _) => "number"
           | Own (VBool b) => "boolean (" ++ (if b then "true" else "false") ++ ")"
           | Own (VString text) => "string (" ++ text ++ ")"
           | Inherited name => "function (" ++ name ++ ")"
           end)%string;
     batteryVoltageToPercentage := fun _ _ => VNumber 50;
     endpointProperty := fun property endpoint => (property ++ "_" ++ endpoint)%string |}.

(** A device that acknowledges every request and returns nothing. *)
Definition transport : Io.Transport := fun _ _ => Returns [].

Definition endpointAt (id : Z) : Zh.Endpoint :=
  {| Zh.ID := id; Zh.deviceIeeeAddress := "0x00124b0000000001";
     Zh.getInputClusters :=
       [{| Zh.clusterID := 1; Zh.clusterName := "genPowerCfg" |};
        {| Zh.clusterID := 1280; Zh.clusterName := "ssIasZone" |};
        {| Zh.clusterID := 1794; Zh.clusterName := "seMetering" |}] |}.

Definition device : Zh.Device :=
  {| Zh.ieeeAddr := "0x00124b0000000001"; Zh.endpoints := Some [endpointAt 1; endpointAt 2] |}.

Definition model : Def.ModelDefinition :=
  {| Def.model := "SAMPLE"; Def.meta := None; Def.endpoint := None |}.


Definition meta : Fz.Meta := {| Fz.device := Some device |}.

Definition report (endpoint : Z) (data : list (string * JsValue)) : Fz.Message :=
  {| Fz.type := "attributeReport"; Fz.data := objectLiteral data;
     Fz.endpoint := endpointAt endpoint |}.

Definition notification (endpoint : Z) (zoneStatus : Q) : Fz.Message :=
  {| Fz.type := "commandStatusChangeNotification";
     Fz.data := objectLiteral [("zonestatus"%string, VNumber zoneStatus)];
     Fz.endpoint := endpointAt endpoint |}.

(** An electricity meter on the metering cluster alone, with forced
    constants for power and energy. *)
Definition meterWith (powerDivisor energyDivisor : Q) : Meter.ElectricityMeterArgs :=
  {| Meter.cluster := Some Meter.metering; Meter.current := Meter.LeftOut;
     Meter.power := Meter.Given {| Meter.multiplier := Some 1%Q;
                                   Meter.divisor := Some powerDivisor |};
     Meter.voltage := Meter.LeftOut;
     Meter.energy := Meter.Given {| Meter.multiplier := Some 1%Q;
                                    Meter.divisor := Some energyDivisor |} |}.

(** A writable numeric capability in half units, rounded to whole
    numbers. *)
Definition halfUnits : Numeric.NumericArgs :=
  {| Numeric.name := "level"; Numeric.cluster := Zh.ClusterName "genAnalogOutput";
     Numeric.attribute := Numeric.AttributeName "presentValue";
     Numeric.description := "Level"; Numeric.zigbeeCommandOptions := None;
     Numeric.access := None; Numeric.unit := None; Numeric.endpointNames := None;
     Numeric.reporting := None; Numeric.valueMin := None; Numeric.valueMax := None;
     Numeric.valueStep := None; Numeric.scale := Some (Numeric.ScaleNumber 2);
     Numeric.label := None; Numeric.entityCategory := None;
     Numeric.precision := Some 0 |}.

(** A temperature on two endpoints. *)
Definition twoProbes : Numeric.NumericArgs :=
  {| Numeric.name := "temperature";
     Numeric.cluster := Zh.ClusterName "msTemperatureMeasurement";
     Numeric.attribute := Numeric.AttributeName "measuredValue";
     Numeric.description := "Measured temperature value";
     Numeric.zigbeeCommandOptions := None; Numeric.access := Some AccessSTATE_GET;
     Numeric.unit := Some "C"%string; Numeric.endpointNames := Some ["1"; "2"]%string;
     Numeric.reporting := None; Numeric.valueMin := None; Numeric.valueMax := None;
     Numeric.valueStep := None; Numeric.scale := Some (Numeric.ScaleNumber 100);
     Numeric.label := None; Numeric.entityCategory := None;
     Numeric.precision := None |}.

Definition batteryWith (percentage voltage lowStatus : option bool)
    (curve : option Def.VoltageToPercentage) : Battery.BatteryArgs :=
  {| Battery.voltageToPercentage := curve; Battery.dontDividePercentage := None;
     Battery.percentage := percentage; Battery.voltage := voltage;
     Battery.lowStatus := lowStatus; Battery.percentageReportingConfig := None;
     Battery.percentageReporting := None; Battery.voltageReportingConfig := None;
     Battery.voltageReporting := None |}.

(** A definition whose metadata carries a voltage curve. *)
Definition calibrated : Def.ModelDefinition :=
  {| Def.model := "SAMPLE";
     Def.meta :=
       Some {| Def.battery :=
                 Some {| Def.voltageToPercentage := Some (Def.VoltageCurve "3V_2100");
                         Def.dontDividePercentage := None |} |};
     Def.endpoint := None |}.

Definition smokeZone (attributes : list Ias.iasZoneAttribute) : Ias.IasArgs :=
  {| Ias.zoneType := Ias.smoke; Ias.zoneAttributes := attributes;
     Ias.alarmTimeout := Some true |}.

(** Two alarm notifications on endpoint 1, the second 10 ms after the
    first, with the default timeout. *)
Definition afterFirst : Timers.Runtime :=
  (@Ias.iasConvert helpers (smokeZone [Ias.alarm_1; Ias.tamper]) model
     (notification 1 1) None meta Timers.initial).2.

Definition beforeSecond : Timers.Runtime := Timers.elapse 10 afterFirst.

Definition afterSecond : Timers.Runtime :=
  (@Ias.iasConvert helpers (smokeZone [Ias.alarm_1; Ias.tamper]) model
     (notification 1 1) None meta beforeSecond).2.

End Sample.

(** The dictionary [Ias.statusPayload] builds, with the ten flags named. *)
Definition payloadOf (a1 a2 : string) (b0 b1 b2 b3 b4 b5 b6 b7 b8 b9 : bool)
  : gmap string JsValue :=
  objectLiteral
    [(a1, VBool b0); (a2, VBool b1); ("tamper", VBool b2); ("battery_low", VBool b3);
     ("supervision_reports", VBool b4); ("restore_reports", VBool b5);
     ("trouble", VBool b6); ("ac_status", VBool b7); ("test", VBool b8);
     ("battery_defect", VBool b9)]%string.

Ltac sum_constants :=
  repeat match goal with
         | |- context [Z.add ?a ?b] =>
             let v := eval vm_compute in (Z.add a b) in
             progress change (Z.add a b) with v
         end.


(** ** Strict equality and string search *)

(** [a === b] on the values of the embedding. *)
Definition strictEquals (a b : JsValue) : bool :=
  match a, b with
  | VUndefined, VUndefined => true
  | VNumber x, VNumber y => Qeq_bool x y
  | VBool x, VBool y => Bool.eqb x y
  | VString x, VString y => String.eqb x y
  | _, _ => false
  end.

(** [haystack.includes(needle)]. *)
Fixpoint includesString (needle haystack : string) : bool :=
  String.prefix needle haystack ||
  match haystack with
  | EmptyString => false
  | String _ rest => includesString needle rest
  end.

(** The endpoint a request addresses. *)
Definition requestEndpoint (r : Io.Request) : Z :=
  match r with
  | Io.Bind endpoint _ _ => endpoint
  | Io.ConfigureReporting endpoint _ _ => endpoint
  | Io.Read endpoint _ _ _ => endpoint
  | Io.Write endpoint _ _ _ => endpoint
  end.

Definition isRead (r : Io.Request) : bool :=
  match r with Io.Read _ _ _ _ => true | _ => false end.

(** ** [binary] *)

Module Binary.

(** [valueOn: [string | boolean, unknown]]: the capability value and the
    value on the wire. *)
Record BinaryArgs : Type := {
  name : string;
  valueOn : JsValue * JsValue;
  valueOff : JsValue * JsValue;
  cluster : Zh.ClusterKey;
  attribute : Numeric.Attribute;
  description : string;
  zigbeeCommandOptions : option Z;
  endpointName : option string;
  reporting : option Reporting.ReportingConfig;
  access : option AccessName;
  entityCategory : option string
}.

Section Builder.
Context `{Helpers} `{Io.Transport}.
Variable args : BinaryArgs.

Definition attributeKey : Zh.AttributeKey :=
  match attribute args with
  | Numeric.AttributeName name => Zh.KeyName name
  | Numeric.AttributeObject id _ => Zh.KeyNumber id
  end.

Definition accessBits : Z := accessOf ea (default AccessALL (access args)).

Definition binaryExpose : Exposes.Expose :=
  let expose := Exposes.withDescription (description args)
                  (Exposes.newBinary (name args) accessBits
                     (valueOn args).1 (valueOff args).1) in
  let expose := Numeric.applyIf (Numeric.nonEmpty (endpointName args))
                  Exposes.withEndpoint expose in
  let expose := Numeric.applyIf (Numeric.nonEmpty (entityCategory args))
                  Exposes.withCategory expose in
  expose.

(** [msg.data[attributeKey] === valueOn[1] ? valueOn[0] : valueOff[0]]. *)
Definition decodeState (raw : JsValue) : JsValue :=
  if strictEquals raw (valueOn args).2 then (valueOn args).1 else (valueOff args).1.

(** The state decoded from [msg.data[attributeKey]]: a member
    inherited from the prototype is no wire value. *)
Definition decodeMember (raw : Member JsValue) : JsValue :=
  match raw with
  | Own value => decodeState value
  | Inherited _ => (valueOff args).1
  end.

(** [!endpointName || getEndpointName(msg, model, meta) === endpointName]. *)
Definition endpointMatches (model : Def.ModelDefinition) (msg : Fz.Message) (meta : Fz.Meta)
  : Outcome bool :=
  match Numeric.nonEmpty (endpointName args) with
  | None => Returns true
  | Some wanted =>
      match getEndpointName msg model meta with
      | Throws e => Throws e
      | Returns (Some name) => Returns (String.eqb name wanted)
      | Returns None => Returns false
      end
  end.

(** [attributeKey in msg.data && (...)]. *)
Definition binaryConvert (model : Def.ModelDefinition) (msg : Fz.Message)
    (options : option (gmap string JsValue)) (meta : Fz.Meta)
  : Outcome (option (gmap string JsValue)) :=
  match jsGet (Zh.keyToString attributeKey) (Fz.data msg) with
  | Some raw =>
      match endpointMatches model msg meta with
      | Throws e => Throws e
      | Returns true =>
          Returns (Some {[ Exposes.property binaryExpose := decodeMember raw ]})
      | Returns false => Returns None
      end
  | None => Returns None
  end.

(** [value === valueOn[0] ? valueOn[1] : valueOff[1]]. *)
Definition payloadValueOf (value : JsValue) : JsValue :=
  if strictEquals value (valueOn args).1 then (valueOn args).2 else (valueOff args).2.

Definition writePayload (payloadValue : JsValue) : list (string * Io.WriteValue) :=
  match attribute args with
  | Numeric.AttributeName name => [(name, Io.Plain payloadValue)]
  | Numeric.AttributeObject id type => [(pretty id, Io.Typed payloadValue type)]
  end.

Definition commandOptions : option Io.CommandOptions :=
  match zigbeeCommandOptions args with
  | Some code => Some {| Io.manufacturerCode := Some code;
                         Io.disableDefaultResponse := None |}
  | None => None
  end.

(** Returns the [state] of [{state: {[key]: value}}]. *)
Definition binaryConvertSet (entity : Zh.Endpoint) (key : string) (value : JsValue)
  : Io.IO (gmap string JsValue) :=
  let payloadValue := payloadValueOf value in
  await Io.send (Zh.ID entity) (cluster args)
          (Io.Write (Zh.ID entity) (cluster args) (writePayload payloadValue)
             commandOptions) then
  Io.ret {[ key := value ]}.

Definition binaryConvertGet (entity : Zh.Endpoint) (key : string) : Io.IO unit :=
  Io.send (Zh.ID entity) (cluster args)
    (Io.Read (Zh.ID entity) (cluster args) [attributeKey] commandOptions).

Definition reportingAttribute : Reporting.ReportingConfigAttribute :=
  match attribute args with
  | Numeric.AttributeName name => Reporting.AttributeName name
  | Numeric.AttributeObject id type => Reporting.AttributeObject id type
  end.

(** The [reporting] argument seen as the [config] parameter of
    [setupConfigureForReporting], which replaces its attribute. *)
Definition reportingConfig : option Reporting.ReportingConfigWithoutAttribute :=
  match reporting args with
  | Some r => Some {| Reporting.min0 := Reporting.min r; Reporting.max0 := Reporting.max r;
                      Reporting.change0 := Reporting.change r |}
  | None => None
  end.

Definition binary : ModernExtend :=
  {| exposes := [binaryExpose];
     fromZigbee :=
       [FzOwn {| fzCluster := Zh.clusterToString (cluster args);
                 fzType := ["attributeReport"; "readResponse"]%string;
                 fzOptions := [];
                 convert := stateless binaryConvert |}];
     toZigbee :=
       [TzOwn {| key := [name args];
                 convertSet := if negb (jsBitAnd accessBits (SET ea) =? 0)
                               then Some binaryConvertSet else None;
                 convertGet := if negb (jsBitAnd accessBits (GET ea) =? 0)
                               then Some binaryConvertGet else None |}];
     configure := setupConfigureForReporting ea (cluster args) reportingAttribute
                    reportingConfig accessBits None;
     extendMeta := None |}.

End Builder.

End Binary.

(** ** [onOff] *)

Module OnOff.

Record OnOffArgs : Type := {
  powerOnBehavior : option bool;
  ota : option string;
  skipDuplicateTransaction : option bool;
  endpointNames : option (list string);
  configureReporting : option bool
}.

(** The descriptors [onOff] takes from the presets of the descriptor
    library. *)
Inductive Preset : Type :=
| Switch (endpoint : option string)
| PowerOnBehavior (values : list string).

(** The bundle of [onOff]; [ota] stands for the update definition handed
    through. *)
Record Extend : Type := {
  exposes : list Preset;
  fromZigbee : list FromZigbee;
  toZigbee : list ToZigbee;
  configure : option Configure;
  resultOta : option string
}.

Section Builder.
Context `{Io.Transport}.
Variable given : OnOffArgs.

(** [args = {powerOnBehavior: true, skipDuplicateTransaction: false,
    configureReporting: true, ...args}]. *)
Definition withPowerOnBehavior : bool := default true (powerOnBehavior given).
Definition withSkipDuplicate : bool := default false (skipDuplicateTransaction given).
Definition withConfigureReporting : bool := default true (configureReporting given).

Definition onOffExposes : list Preset :=
  match endpointNames given with
  | Some names => map (fun ep => Switch (Some ep)) names
  | None => [Switch None]
  end
  ++ (if withPowerOnBehavior
      then [PowerOnBehavior ["off"; "on"; "toggle"; "previous"]%string] else []).

Definition onOffFromZigbee : list FromZigbee :=
  [if withSkipDuplicate then FzLibrary "on_off_skip_duplicate_transaction"
   else FzLibrary "on_off"]
  ++ (if withPowerOnBehavior then [FzLibrary "power_on_behavior"] else []).

Definition onOffToZigbee : list ToZigbee :=
  [TzLibrary "on_off"]
  ++ (if withPowerOnBehavior then [TzLibrary "power_on_behavior"] else []).

Definition onOffReport (attribute : string) : Reporting.ReportingConfig :=
  {| Reporting.attribute := Reporting.AttributeName attribute;
     Reporting.min := TimeName "MIN"; Reporting.max := TimeName "MAX";
     Reporting.change := Reporting.ChangeNumber 1 |}.

Definition onOffConfigure : Configure :=
  fun device coordinatorEndpoint =>
    await setupAttributes (Zh.IsDevice device) coordinatorEndpoint
            (Zh.ClusterName "genOnOff") [onOffReport "onOff"] true true then
    if withPowerOnBehavior then
      Io.tryCatch
        (setupAttributes (Zh.IsDevice device) coordinatorEndpoint
           (Zh.ClusterName "genOnOff") [onOffReport "startUpOnOff"] false true)
        (fun message =>
           if includesString "UNSUPPORTED_ATTRIBUTE" message then Io.ret tt
           else Io.raise message)
    else Io.ret tt.

Definition onOff : Extend :=
  {| exposes := onOffExposes;
     fromZigbee := onOffFromZigbee;
     toZigbee := onOffToZigbee;
     configure := if withConfigureReporting then Some onOffConfigure else None;
     resultOta := ota given |}.

End Builder.

End OnOff.

(** The endpoints [setupAttributes] works on: the entity itself, or the
    endpoints of the device that list the cluster. *)
Definition targetsOf (entity : Zh.Entity) (cluster : Zh.ClusterKey) : Outcome (list Zh.Endpoint) :=
  match entity with
  | Zh.IsEndpoint endpoint => Returns [endpoint]
  | Zh.IsDevice device => getEndpointsWithInputCluster device cluster
  end.

(** Whether a cluster of an endpoint is the one a key names. *)
Definition namesCluster (cluster : Zh.ClusterKey) (c : Zh.Cluster) : bool :=
  match cluster with
  | Zh.ClusterNumber id => Zh.clusterID c =? id
  | Zh.ClusterName name => String.eqb (Zh.clusterName c) name
  end.

Section PerEndpoint.
Context `{Io.Transport}.

(** The work on one endpoint, as [setupAttributes] does it. *)
Definition perEndpoint (coordinatorEndpoint : Zh.Endpoint) (cluster : Zh.ClusterKey)
    (config : list Reporting.ReportingConfig) (configureReporting read : bool)
    (endpoint : Zh.Endpoint) : Io.IO unit :=
  Io.bind
    (if configureReporting then
       Io.bind (Io.send (Zh.ID endpoint) cluster
                  (Io.Bind (Zh.ID endpoint) cluster (Zh.ID coordinatorEndpoint)))
         (fun _ =>
            Io.bind (Io.lift (mapThrowing resolveReportingConfig config))
              (fun items =>
                 Io.send (Zh.ID endpoint) cluster
                   (Io.ConfigureReporting (Zh.ID endpoint) cluster items)))
     else Io.ret tt)
    (fun _ =>
       if read then
         Io.tryCatch
           (Io.send (Zh.ID endpoint) cluster
              (Io.Read (Zh.ID endpoint) cluster (map readKeyOf config) None))
           (fun _ => Io.ret tt)
       else Io.ret tt).

End PerEndpoint.


(** ** Quirks that edit the device record *)

Module Quirk.

(** The part of an endpoint the quirks edit: the cluster identifiers it
    lists as inputs and outputs. *)
Record Endpoint : Type := {
  ID : Z;
  inputClusters : list Z;
  outputClusters : list Z
}.

(** What [device.checkinInterval] can hold after
    [quirkCheckinInterval]: what the look-up evaluated to, or
    undefined. *)
Inductive Interval : Type :=
| IntervalOf (value : ResolvedTime)
| IntervalUndefined.

(** The device record: [saves] counts the calls of [device.save()]. *)
Record Device : Type := {
  manufacturerID : Z;
  endpoints : list Endpoint;
  powerSource : option string;
  type : option string;
  checkinInterval : option Interval;
  saves : nat
}.

Definition save (d : Device) : Device :=
  {| manufacturerID := manufacturerID d; endpoints := endpoints d;
     powerSource := powerSource d; type := type d;
     checkinInterval := checkinInterval d; saves := S (saves d) |}.

(** [device.getEndpoint(endpointID)], of the protocol library: the first
    endpoint of the device with that identifier, if there is one. *)
Definition getEndpoint (d : Device) (endpointID : Z) : option Endpoint :=
  List.find (fun e => ID e =? endpointID) (endpoints d).

(** The endpoints once the object [getEndpoint] found has been changed
    to [changed]. *)
Fixpoint replaceFound (endpointID : Z) (changed : Endpoint) (all : list Endpoint)
  : list Endpoint :=
  match all with
  | [] => []
  | e :: rest =>
      if ID e =? endpointID then changed :: rest
      else e :: replaceFound endpointID changed rest
  end.

Definition withEndpoint (d : Device) (endpointID : Z) (changed : Endpoint) : Device :=
  {| manufacturerID := manufacturerID d;
     endpoints := replaceFound endpointID changed (endpoints d);
     powerSource := powerSource d; type := type d;
     checkinInterval := checkinInterval d; saves := saves d |}.

(** [cluster: number | string]. *)
Inductive ClusterRef : Type :=
| ByName (name : string)
| ByNumber (id : Z).

(** [Zcl.Utils.getCluster(name, manufacturerID).ID], of the protocol
    library: a parameter; it throws on a name it does not know. *)
Class ClusterTable : Type := getClusterID : string -> Z -> Outcome Z.

Definition clusterID `{ClusterTable} (d : Device) (cluster : ClusterRef) : Outcome Z :=
  match cluster with
  | ByName name => getClusterID name (manufacturerID d)
  | ByNumber id => Returns id
  end.

(** [clusters.forEach((cluster) => { if (!list.includes(id)) list.push(id) })]:
    the list as it stands when the loop ends or throws. *)
Fixpoint addClusters `{ClusterTable} (d : Device) (clusters : list ClusterRef)
    (present : list Z) : Outcome unit * list Z :=
  match clusters with
  | [] => (Returns tt, present)
  | cluster :: rest =>
      match clusterID d cluster with
      | Throws e => (Throws e, present)
      | Returns id =>
          addClusters d rest (if bool_decide (id ∈ present) then present else present ++ [id])
      end
  end.

Record QuirkAddEndpointClusterArgs : Type := {
  endpointID : Z;
  requestedInputClusters : option (list ClusterRef);
  requestedOutputClusters : option (list ClusterRef)
}.

(** The configurator of [quirkAddEndpointCluster], on the device record. *)
Definition quirkAddEndpointCluster `{ClusterTable} (args : QuirkAddEndpointClusterArgs)
    (d : Device) : Outcome unit * Device :=
  match getEndpoint d (endpointID args) with
  | None => (Returns tt, d)
  | Some endpoint =>
      let '(inputsDone, inputs) :=
        addClusters d (default [] (requestedInputClusters args)) (inputClusters endpoint) in
      match inputsDone with
      | Throws e =>
          (Throws e,
           withEndpoint d (endpointID args)
             {| ID := ID endpoint; inputClusters := inputs;
                outputClusters := outputClusters endpoint |})
      | Returns _ =>
          let '(outputsDone, outputs) :=
            addClusters d (default [] (requestedOutputClusters args))
              (outputClusters endpoint) in
          let changed :=
            withEndpoint d (endpointID args)
              {| ID := ID endpoint; inputClusters := inputs; outputClusters := outputs |} in
          match outputsDone with
          | Throws e => (Throws e, changed)
          | Returns _ => (Returns tt, save changed)
          end
      end
  end.

(** [timeLookup[timeout]]: a number for an own key, the inherited member
    for an inherited one, undefined otherwise. *)
Definition timeLookupAt (name : string) : Interval :=
  if jsIn name timeLookup then IntervalOf (timeLookupGet name) else IntervalUndefined.

(** The configurator of [quirkCheckinInterval]. *)
Definition quirkCheckinInterval (timeout : ReportingConfigTime) (d : Device) : Device :=
  save
    {| manufacturerID := manufacturerID d; endpoints := endpoints d;
       powerSource := powerSource d; type := type d;
       checkinInterval :=
         Some match timeout with
              | TimeNumber n => IntervalOf (Seconds n)
              | TimeName name => timeLookupAt name
              end;
       saves := saves d |}.

(** The configurators of [forcePowerSource] and [forceDeviceType]. *)
Definition forcePowerSource (source : string) (d : Device) : Device :=
  save
    {| manufacturerID := manufacturerID d; endpoints := endpoints d;
       powerSource := Some source; type := type d;
       checkinInterval := checkinInterval d; saves := saves d |}.

Definition forceDeviceType (deviceType : string) (d : Device) : Device :=
  save
    {| manufacturerID := manufacturerID d; endpoints := endpoints d;
       powerSource := powerSource d; type := Some deviceType;
       checkinInterval := checkinInterval d; saves := saves d |}.

End Quirk.

(** ** [reconfigureReportingsOnDeviceAnnounce] *)

Module Announce.

(** One entry of [endpoint.configuredReportings]. *)
Record ConfiguredReporting : Type := {
  clusterName : string;
  attributeName : string;
  minimumReportInterval : Q;
  maximumReportInterval : Q;
  reportableChange : Q
}.

Record Endpoint : Type := {
  ID : Z;
  configuredReportings : list ConfiguredReporting
}.

(** The request that configures one reporting again. *)
Definition requestOf (endpoint : Endpoint) (c : ConfiguredReporting) : Io.Request :=
  Io.ConfigureReporting (ID endpoint) (Zh.ClusterName (clusterName c))
    [{| Zh.attribute := Reporting.AttributeName (attributeName c);
        Zh.minimumReportInterval := Seconds (minimumReportInterval c);
        Zh.maximumReportInterval := Seconds (maximumReportInterval c);
        Zh.reportableChange := Reporting.ChangeNumber (reportableChange c) |}].

(** Every request a device announce leads to, in order. *)
Definition allRequests (endpoints : list Endpoint) : list Io.Request :=
  flat_map (fun endpoint => map (requestOf endpoint) (configuredReportings endpoint))
    endpoints.

(** The event handler; [type] is the event's type. *)
Definition onEvent `{Io.Transport} (type : string) (endpoints : list Endpoint) : Io.IO unit :=
  if String.eqb type "deviceAnnounce" then
    Io.forOf endpoints (fun endpoint =>
      Io.forOf (configuredReportings endpoint) (fun c =>
        Io.send (ID endpoint) (Zh.ClusterName (clusterName c)) (requestOf endpoint c)))
  else Io.ret tt.

End Announce.

(** ** [iasWarning] *)

Module Warning.

Definition warningMode : list (string * Z) :=
  [("stop", 0); ("burglar", 1); ("fire", 2); ("emergency", 3); ("police_panic", 4);
   ("fire_panic", 5); ("emergency_panic", 6)]%string.

Definition level : list (string * Z) :=
  [("low", 0); ("medium", 1); ("high", 2); ("very_high", 3)]%string.

(** [utils.getFromLookup], of the helpers outside the file: a parameter. *)
Class Lookup : Type := getFromLookup : string -> list (string * Z) -> Outcome Z.

(** The [warning] value a write carries, with the fields the composite
    descriptor declares; [None] is an absent property. *)
Record WarningValue : Type := {
  mode : option string;
  valueLevel : option string;
  strobe : option bool;
  duration : option Q;
  strobe_duty_cycle : option Q;
  strobe_level : option string
}.

(** The payload of the [startWarning] command. *)
Record Payload : Type := {
  startwarninginfo : Z;
  warningduration : Q;
  strobedutycycle : Q;
  strobelevel : Z
}.

(** [x || fallback] on an optional string. *)
Definition orElse (x : option string) (fallback : string) : string :=
  match x with
  | Some s => if truthyString s then s else fallback
  | None => fallback
  end.

(** The [info] byte from the looked-up mode and level and the strobe
    bit, in the ordering the flag selects. *)
Definition warningInfo (reversePayload : bool) (modeValue strobeBit levelValue : Z) : Z :=
  if reversePayload
  then modeValue + jsShiftLeft strobeBit 4 + jsShiftLeft levelValue 6
  else jsShiftLeft modeValue 4 + jsShiftLeft strobeBit 2 + levelValue.

(** The payload [convertSet] hands to [entity.command]; the command
    itself is not part of this definition.  The identifiers [utils] and
    [strobeLevel] that the [strobe_level] branch names are not defined
    in the file, so evaluating that branch throws. *)
Definition warningPayload `{Lookup} (reversePayload : option bool) (value : WarningValue)
  : Outcome Payload :=
  let valuesMode := orElse (mode value) "emergency" in
  let valuesLevel := orElse (valueLevel value) "medium" in
  let valuesStrobe := default true (strobe value) in
  let valuesDuration := default 10%Q (duration value) in
  let valuesDutyCycle :=
    match strobe_duty_cycle value with
    | Some c => jsMultiply c 10
    | None => 0%Q
    end in
  match strobe_level value with
  | Some _ => Throws "utils is not defined"
  | None =>
      let valuesStrobeLevel := 1 in
      match getFromLookup valuesMode warningMode with
      | Throws e => Throws e
      | Returns modeValue =>
          match getFromLookup valuesLevel level with
          | Throws e => Throws e
          | Returns levelValue =>
              Returns {| startwarninginfo :=
                           warningInfo (default false reversePayload) modeValue
                             (if valuesStrobe then 1 else 0) levelValue;
                         warningduration := valuesDuration;
                         strobedutycycle := valuesDutyCycle;
                         strobelevel := valuesStrobeLevel |}
          end
      end
  end.

End Warning.


(** ** Devices that fault, and further sample values *)

Module Fixtures.

(** A device that does not answer a bind. *)
Definition refusesBind : Io.Transport :=
  fun _ r => match r with
             | Io.Bind _ _ _ => Throws "Bind failed (timeout)"
             | _ => Returns []
             end.

(** A device that rejects every reporting configuration. *)
Definition refusesReporting : Io.Transport :=
  fun _ r => match r with
             | Io.ConfigureReporting _ _ _ => Throws "Status 'UNSUPPORTED_ATTRIBUTE'"
             | _ => Returns []
             end.

(** A device that rejects every read. *)
Definition refusesRead : Io.Transport :=
  fun _ r => match r with
             | Io.Read _ _ _ _ => Throws "Status 'UNSUPPORTED_ATTRIBUTE'"
             | _ => Returns []
             end.

(** A reporting entry between two symbolic times. *)
Definition between (lo hi : string) : Reporting.ReportingConfig :=
  {| Reporting.attribute := Reporting.AttributeName "measuredValue";
     Reporting.min := TimeName lo; Reporting.max := TimeName hi;
     Reporting.change := Reporting.ChangeNumber 10 |}.

Definition hourly : Reporting.ReportingConfigWithoutAttribute :=
  {| Reporting.min0 := TimeName "MIN"; Reporting.max0 := TimeName "1_HOUR";
     Reporting.change0 := Reporting.ChangeNumber 10 |}.

(** A child lock whose wire values are 1 and 0. *)
Definition childLock : Binary.BinaryArgs :=
  {| Binary.name := "child_lock"; Binary.valueOn := (VString "LOCK", VNumber 1);
     Binary.valueOff := (VString "UNLOCK", VNumber 0);
     Binary.cluster := Zh.ClusterName "genBasic";
     Binary.attribute := Numeric.AttributeObject 16384 16;
     Binary.description := "Enables/disables physical input on the device";
     Binary.zigbeeCommandOptions := Some 4447; Binary.endpointName := None;
     Binary.reporting := None; Binary.access := None; Binary.entityCategory := None |}.

(** A binary capability whose two wire values coincide. *)
Definition stuck : Binary.BinaryArgs :=
  {| Binary.name := "state"; Binary.valueOn := (VString "ON", VNumber 1);
     Binary.valueOff := (VString "OFF", VNumber 1);
     Binary.cluster := Zh.ClusterName "genOnOff";
     Binary.attribute := Numeric.AttributeName "onOff";
     Binary.description := "State"; Binary.zigbeeCommandOptions := None;
     Binary.endpointName := None; Binary.reporting := None; Binary.access := None;
     Binary.entityCategory := None |}.

(** A numeric capability in hundredths, without a declared precision
    and without endpoint names. *)
Definition hundredths : Numeric.NumericArgs :=
  {| Numeric.name := "humidity"; Numeric.cluster := Zh.ClusterName "msRelativeHumidity";
     Numeric.attribute := Numeric.AttributeName "measuredValue";
     Numeric.description := "Measured relative humidity";
     Numeric.zigbeeCommandOptions := None; Numeric.access := Some AccessSTATE_GET;
     Numeric.unit := Some "%"%string; Numeric.endpointNames := None;
     Numeric.reporting := None; Numeric.valueMin := None; Numeric.valueMax := None;
     Numeric.valueStep := None; Numeric.scale := Some (Numeric.ScaleNumber 100);
     Numeric.label := None; Numeric.entityCategory := None;
     Numeric.precision := None |}.

(** A plug with the on/off cluster on its only endpoint. *)
Definition plug : Zh.Device :=
  {| Zh.ieeeAddr := "0x00124b0000000002";
     Zh.endpoints :=
       Some [{| Zh.ID := 1; Zh.deviceIeeeAddress := "0x00124b0000000002";
                Zh.getInputClusters :=
                  [{| Zh.clusterID := 6; Zh.clusterName := "genOnOff" |}] |}] |}.

(** [onOff()] called without an argument. *)
Definition plainSwitch : OnOff.OnOffArgs :=
  {| OnOff.powerOnBehavior := None; OnOff.ota := None;
     OnOff.skipDuplicateTransaction := None; OnOff.endpointNames := None;
     OnOff.configureReporting := None |}.

(** A numeric capability in thousandths, rounded to two digits. *)
Definition thousandths : Numeric.NumericArgs :=
  {| Numeric.name := "current"; Numeric.cluster := Zh.ClusterName "haElectricalMeasurement";
     Numeric.attribute := Numeric.AttributeName "rmsCurrent";
     Numeric.description := "Measured current";
     Numeric.zigbeeCommandOptions := None; Numeric.access := Some AccessSTATE_GET;
     Numeric.unit := Some "A"%string; Numeric.endpointNames := None;
     Numeric.reporting := None; Numeric.valueMin := None; Numeric.valueMax := None;
     Numeric.valueStep := None; Numeric.scale := Some (Numeric.ScaleNumber 1000);
     Numeric.label := None; Numeric.entityCategory := None;
     Numeric.precision := Some 2 |}.

(** A read response that carries no zone status. *)
Definition silent (endpoint : Z) : Fz.Message :=
  {| Fz.type := "readResponse"; Fz.data := objectLiteral [("zoneState"%string, VNumber 1)];
     Fz.endpoint := Sample.endpointAt endpoint |}.

(** A meter on both clusters whose voltage is switched off and whose
    energy has forced constants. *)
Definition meter : Meter.ElectricityMeterArgs :=
  {| Meter.cluster := None; Meter.current := Meter.LeftOut; Meter.power := Meter.LeftOut;
     Meter.voltage := Meter.Disabled;
     Meter.energy := Meter.Given {| Meter.multiplier := None;
                                    Meter.divisor := Some 3%Q |} |}.

Definition energy : Meter.Property :=
  {| Meter.attribute := "currentSummDelivered"; Meter.divisorAttribute := "divisor";
     Meter.multiplierAttribute := "multiplier"; Meter.forced := Meter.energy meter;
     Meter.change := roundDouble (1 # 10) |}.

(** The cluster names a quirk can resolve. *)
Definition clusterTable : Quirk.ClusterTable :=
  fun name _ =>
    if String.eqb name "genOnOff" then Returns 6
    else if String.eqb name "genLevelCtrl" then Returns 8
    else Throws ("Cluster with name '" ++ name ++ "' does not exist").

Definition dimmer : Quirk.Device :=
  {| Quirk.manufacturerID := 4476;
     Quirk.endpoints := [{| Quirk.ID := 1; Quirk.inputClusters := [0; 6];
                            Quirk.outputClusters := [25] |}];
     Quirk.powerSource := None; Quirk.type := None; Quirk.checkinInterval := None;
     Quirk.saves := 0 |}.

Definition addTo (endpoint : Z) (inputs : list Quirk.ClusterRef)
  : Quirk.QuirkAddEndpointClusterArgs :=
  {| Quirk.endpointID := endpoint; Quirk.requestedInputClusters := Some inputs;
     Quirk.requestedOutputClusters := None |}.

(** A device with two configured reportings on endpoint 1 and one on
    endpoint 2. *)
Definition reporting (cluster attribute : string) : Announce.ConfiguredReporting :=
  {| Announce.clusterName := cluster; Announce.attributeName := attribute;
     Announce.minimumReportInterval := 10; Announce.maximumReportInterval := 3600;
     Announce.reportableChange := 1 |}.

Definition announced : list Announce.Endpoint :=
  [{| Announce.ID := 1;
      Announce.configuredReportings :=
        [reporting "genOnOff" "onOff"; reporting "genLevelCtrl" "currentLevel"] |};
   {| Announce.ID := 2; Announce.configuredReportings := [reporting "genOnOff" "onOff"] |}].

(** [getFromLookup] on a table kept as a list. *)
Definition lookup : Warning.Lookup :=
  fun key table =>
    match List.find (fun kv => String.eqb kv.1 key) table with
    | Some kv => Returns kv.2
    | None => Throws ("Value '" ++ key ++ "' is not allowed")
    end.

Definition warning (strobeLevel : option string) : Warning.WarningValue :=
  {| Warning.mode := Some "burglar"%string; Warning.valueLevel := None;
     Warning.strobe := Some false; Warning.duration := Some 30%Q;
     Warning.strobe_duty_cycle := None; Warning.strobe_level := strobeLevel |}.

End Fixtures.

Ltac pick_member :=
  first [apply list_elem_of_here | apply list_elem_of_further; pick_member].


(** * Properties *)

(** ** Reporting times *)

Lemma known_time_names name : name ∈ knownTimeNames <-> is_Some (timeLookup !! name).
Proof.
  unfold knownTimeNames, timeLookup.
  rewrite !elem_of_cons, elem_of_nil.
  split.
  - intros [->|[->|[->|[->|[->|[->|[]]]]]]]; vm_compute; eauto.
  - intros [q Hq]. apply elem_of_list_to_map_2 in Hq.
    rewrite !elem_of_cons, elem_of_nil in Hq.
    destruct Hq as [Hq|[Hq|[Hq|[Hq|[Hq|[Hq|[]]]]]]]; inversion Hq; subst; tauto.
Qed.

(** A known name resolves to a number of seconds that is not negative. *)
Lemma known_time_resolves name :
  name ∈ knownTimeNames ->
  exists s, convertReportingConfigTime (TimeName name) = Returns (Seconds s) /\ (0 <= s)%Q.
Proof.
  unfold knownTimeNames. rewrite !elem_of_cons, elem_of_nil.
  intros [->|[->|[->|[->|[->|[->|[]]]]]]]; eexists; (split; [reflexivity|]);
    apply Qle_bool_iff; reflexivity.
Qed.

Lemma min_is_zero : convertReportingConfigTime (TimeName "MIN") = Returns (Seconds 0).
Proof. reflexivity. Qed.

Lemma max_is_65000 : convertReportingConfigTime (TimeName "MAX") = Returns (Seconds 65000).
Proof. reflexivity. Qed.

Lemma number_passes_through n : convertReportingConfigTime (TimeNumber n) = Returns (Seconds n).
Proof. reflexivity. Qed.

(** A string that is neither a known name nor a member every object
    inherits is rejected. *)
Lemma unknown_time_is_rejected name :
  name ∉ knownTimeNames -> inherited name = false ->
  convertReportingConfigTime (TimeName name)
  = Throws ("Reporting time '" ++ name ++ "' is unknown").
Proof.
  intros Hk Hi. unfold convertReportingConfigTime, jsIn, hasOwn.
  rewrite Hi. rewrite bool_decide_eq_false_2; [reflexivity|].
  intros Hs. apply Hk, known_time_names, Hs.
Qed.

(** C6. Resolution of symbolic reporting times is meant to fail fast on
    every string that is not a known name.  The code departs from that:
    the test [time in timeLookup] also holds for the names every object
    inherits from its prototype, so the string "toString", which is not
    a known symbolic name, is not rejected; the function returns the
    inherited member, which is not a number of seconds. *)
Theorem inherited_name_is_not_rejected :
  ("toString" ∉ knownTimeNames) /\
  convertReportingConfigTime (TimeName "toString")
  = Returns (PrototypeMember "toString").
Proof.
  split; [|reflexivity].
  unfold knownTimeNames. rewrite !elem_of_cons, elem_of_nil.
  intros [Hx|[Hx|[Hx|[Hx|[Hx|[Hx|[]]]]]]]; discriminate Hx.
Qed.

(** ** Reporting configurator *)

(** C7. [setupConfigureForReporting] returns a configurator if and only
    if a reporting configuration is given or the access bits include
    GET; otherwise it returns nothing at all. *)
Theorem configurator_exists_iff_reporting_or_readable
    `{Io.Transport} (ea : AccessTable) (cluster : Zh.ClusterKey)
    (attribute : Reporting.ReportingConfigAttribute)
    (config : option Reporting.ReportingConfigWithoutAttribute) (access : Z)
    (endpointNames : option (list string)) :
  (is_Some (setupConfigureForReporting ea cluster attribute config access endpointNames)
   <-> (is_Some config \/ jsBitAnd access (GET ea) ≠ 0))
  /\
  (~ (is_Some config \/ jsBitAnd access (GET ea) ≠ 0) <->
   setupConfigureForReporting ea cluster attribute config access endpointNames = None).
Proof.
  unfold setupConfigureForReporting.
  destruct config as [c|]; simpl.
  - split; split.
    + intros _. left. eauto.
    + intros _. eauto.
    + intros Hn. exfalso. apply Hn. left. eauto.
    + discriminate.
  - destruct (jsBitAnd access (GET ea) =? 0) eqn:E; simpl.
    + apply Z.eqb_eq in E. split; split.
      * intros [x Hx]. discriminate.
      * intros [[x Hx]|Hn]; [discriminate | contradiction].
      * reflexivity.
      * intros _ [[x Hx]|Hn]; [discriminate | contradiction].
    + apply Z.eqb_neq in E. split; split.
      * intros _. right. exact E.
      * intros _. eauto.
      * intros Hn. exfalso. apply Hn. right. exact E.
      * discriminate.
Qed.

(** ** Electricity meter *)

Lemma differ_true a b : Meter.differ a b = true <-> ~ sameNumber a b.
Proof.
  destruct a as [x|], b as [y|]; simpl.
  - rewrite negb_true_iff. split.
    + intros E Hq. apply Qeq_bool_iff in Hq. congruence.
    + intros Hn. destruct (Qeq_bool x y) eqn:E; [|reflexivity].
      apply Qeq_bool_iff in E. contradiction.
  - split; [intros _ [] | reflexivity].
  - split; [intros _ [] | reflexivity].
  - split; [discriminate | intros Hn; exfalso; apply Hn; exact I].
Qed.

Lemma differ_false a b : Meter.differ a b = false <-> sameNumber a b.
Proof.
  destruct a as [x|], b as [y|]; simpl.
  - rewrite negb_false_iff. apply Qeq_bool_iff.
  - split; [discriminate | intros []].
  - split; [discriminate | intros []].
  - split; [intros _; exact I | reflexivity].
Qed.

Section MeterProperties.
Context `{Helpers} `{Io.Transport}.

(** C1. With the metering cluster alone and forced constants for both
    power and energy, a divisor/multiplier pair that differs makes the
    builder throw; no bundle, hence no configurator, exists, and nothing
    has been sent.  With matching pairs the builder returns its bundle. *)
Theorem metering_pairs_must_match (args : Meter.ElectricityMeterArgs)
    (p e : Meter.MultiplierDivisor) :
  Meter.cluster args = Some Meter.metering ->
  Meter.power args = Meter.Given p ->
  Meter.energy args = Meter.Given e ->
  (~ (sameNumber (Meter.divisor p) (Meter.divisor e) /\
      sameNumber (Meter.multiplier p) (Meter.multiplier e)) ->
   (exists message, Meter.electricityMeter args = Throws message) /\
   forall device coordinatorEndpoint,
     exists message,
       buildAndConfigureMeter args device coordinatorEndpoint
       = (Throws message, Io.emptyWorld))
  /\
  (sameNumber (Meter.divisor p) (Meter.divisor e) /\
   sameNumber (Meter.multiplier p) (Meter.multiplier e) ->
   exists extend, Meter.electricityMeter args = Returns extend).
Proof.
  intros Hc Hp He.
  assert (Hm : Meter.mismatch args =
               Meter.differ (Meter.divisor p) (Meter.divisor e)
               || Meter.differ (Meter.multiplier p) (Meter.multiplier e)).
  { unfold Meter.mismatch, Meter.clusterChoice. rewrite Hc, Hp, He. reflexivity. }
  split.
  - intros Hne.
    assert (Ht : Meter.mismatch args = true).
    { rewrite Hm. apply orb_true_iff.
      destruct (Meter.differ (Meter.divisor p) (Meter.divisor e)) eqn:Ed; [left; reflexivity|].
      right. apply differ_true. intros Hs. apply Hne. split; [|exact Hs].
      apply differ_false, Ed. }
    split.
    + unfold Meter.electricityMeter. rewrite Ht. eauto.
    + intros device coordinatorEndpoint.
      unfold buildAndConfigureMeter, Meter.electricityMeter.
      rewrite Ht. eauto.
  - intros [Hd Hmul].
    unfold Meter.electricityMeter. rewrite Hm.
    apply differ_false in Hd, Hmul. rewrite Hd, Hmul. simpl. eauto.
Qed.

End MeterProperties.

(** ** Bits of a status word *)

Lemma wrapInt32_testbit z k : 0 <= k < 32 -> Z.testbit (wrapInt32 z) k = Z.testbit z k.
Proof.
  intros Hk. unfold wrapInt32, two32, two31.
  rewrite <- (Z.mod_pow2_bits_low (_ - _) 32 k) by lia.
  rewrite <- (Z.mod_pow2_bits_low z 32 k) by lia.
  f_equal.
  rewrite Zminus_mod, Zmod_mod, <- Zminus_mod.
  replace (z + 2 ^ 31 - 2 ^ 31) with z by lia. reflexivity.
Qed.

Lemma land_pow2 a k : 0 <= k -> Z.land a (2 ^ k) = if Z.testbit a k then 2 ^ k else 0.
Proof.
  intros Hk. apply Z.bits_inj'. intros n Hn.
  rewrite Z.land_spec.
  destruct (Z.testbit a k) eqn:E.
  - rewrite Z.pow2_bits_eqb by lia.
    destruct (Z.eqb_spec k n); subst; [rewrite E|]; simpl; [reflexivity | apply andb_false_r].
  - rewrite Z.bits_0, Z.pow2_bits_eqb by lia.
    destruct (Z.eqb_spec k n); subst; [rewrite E|]; simpl; [reflexivity | apply andb_false_r].
Qed.

Lemma wrapInt32_small z : - 2 ^ 31 <= z < 2 ^ 31 -> wrapInt32 z = z.
Proof.
  intros Hz. unfold wrapInt32, two32, two31.
  rewrite Z.mod_small; lia.
Qed.

Lemma pow2_in_range k : 0 <= k < 31 -> - 2 ^ 31 <= 2 ^ k < 2 ^ 31.
Proof.
  intros Hk. split.
  - pose proof (Z.pow_pos_nonneg 2 k). lia.
  - apply Z.pow_lt_mono_r; lia.
Qed.

Lemma jsShiftLeft_one k : 0 <= k < 31 -> jsShiftLeft 1 k = 2 ^ k.
Proof.
  intros Hk. unfold jsShiftLeft.
  rewrite (wrapInt32_small 1) by lia.
  rewrite Z.mod_small by lia.
  rewrite Z.shiftl_1_l.
  apply wrapInt32_small, pow2_in_range, Hk.
Qed.

Lemma bit_mask z k :
  0 <= k < 31 -> jsBitAnd z (jsShiftLeft 1 k) = if Z.testbit z k then 2 ^ k else 0.
Proof.
  intros Hk. rewrite jsShiftLeft_one by lia. unfold jsBitAnd.
  rewrite (wrapInt32_small (2 ^ k)) by (apply pow2_in_range, Hk).
  rewrite land_pow2 by lia. rewrite wrapInt32_testbit by lia. reflexivity.
Qed.

Lemma bit_flag z k : 0 <= k < 31 -> (jsBitAnd z (jsShiftLeft 1 k) >? 0) = Z.testbit z k.
Proof.
  intros Hk. rewrite bit_mask by lia.
  destruct (Z.testbit z k); [|reflexivity].
  pose proof (Z.pow_pos_nonneg 2 k). apply Z.gtb_lt. lia.
Qed.

Lemma bit0_flag z : (jsBitAnd z 1 >? 0) = Z.testbit z 0.
Proof. rewrite <- (bit_flag z 0) by lia. reflexivity. Qed.

Lemma groupLow_bits z b :
  0 <= b < 28 ->
  Battery.groupLow z b
  = Z.testbit z b || Z.testbit z (b + 1) || Z.testbit z (b + 2) || Z.testbit z (b + 3).
Proof.
  intros Hb. unfold Battery.groupLow, jsOrNum.
  rewrite !bit_mask by lia.
  pose proof (Z.pow_pos_nonneg 2 b).
  pose proof (Z.pow_pos_nonneg 2 (b + 1)).
  pose proof (Z.pow_pos_nonneg 2 (b + 2)).
  pose proof (Z.pow_pos_nonneg 2 (b + 3)).
  destruct (Z.testbit z b), (Z.testbit z (b + 1)), (Z.testbit z (b + 2)),
    (Z.testbit z (b + 3)); simpl;
    repeat match goal with
           | |- context [?x =? 0] => destruct (Z.eqb_spec x 0); try lia
           end;
    try (apply Z.gtb_lt; lia); reflexivity.
Qed.

Lemma truncQ_integer z : truncQ (inject_Z z) = z.
Proof.
  unfold truncQ. destruct (Qle_bool 0 (inject_Z z)); [apply Qfloor_Z | apply Qceiling_Z].
Qed.

Lemma toInt32_integer `{Helpers} raw k :
  0 <= k < 32 -> Z.testbit (toInt32 (VNumber (inject_Z raw))) k = Z.testbit raw k.
Proof.
  intros Hk. unfold toInt32. simpl. rewrite truncQ_integer. apply wrapInt32_testbit, Hk.
Qed.

(** ** Rounding *)

Lemma mathRound_integer n : mathRound (inject_Z n) = n.
Proof.
  unfold mathRound, Qfloor, inject_Z, Qplus. simpl.
  rewrite Z.mul_1_r.
  symmetry. apply (Z.div_unique _ _ _ 1); lia.
Qed.

(** Rounding to two digits keeps a multiple of a hundredth. *)
Lemma precisionRound_exact x n :
  (x * 100 == inject_Z n)%Q -> (precisionRound x 2 == x)%Q.
Proof.
  intros Hx. unfold precisionRound.
  change (Qpower 10 2) with (100 # 1)%Q.
  assert (E : mathRound (x * (100 # 1)) = n).
  { rewrite <- (mathRound_integer n). unfold mathRound.
    apply Qfloor_comp. rewrite Hx. reflexivity. }
  rewrite E. rewrite <- Hx. field.
Qed.

Lemma precisionRound_integer n : (precisionRound (inject_Z n) 2 == inject_Z n)%Q.
Proof.
  apply (precisionRound_exact _ (n * 100)). rewrite inject_Z_mult. reflexivity.
Qed.

Lemma precisionRound_half n : (precisionRound (inject_Z n / 2) 2 == inject_Z n / 2)%Q.
Proof.
  apply (precisionRound_exact _ (n * 50)). rewrite inject_Z_mult. field.
Qed.

Lemma Qle_bool_integers a b : Qle_bool (inject_Z a) (inject_Z b) = (a <=? b).
Proof.
  destruct (Z.leb_spec a b) as [Hl|Hl].
  - apply Qle_bool_iff. rewrite <- Zle_Qle. exact Hl.
  - destruct (Qle_bool (inject_Z a) (inject_Z b)) eqn:E; [|reflexivity].
    apply Qle_bool_iff in E. rewrite <- Zle_Qle in E. lia.
Qed.

(** ** Doubles *)

(** Rounding does not depend on how the rational is written. *)
Lemma roundDouble_proper (a b : Q) : (a == b)%Q -> roundDouble a = roundDouble b.
Proof. intros E. unfold roundDouble. rewrite (Qred_complete _ _ E). reflexivity. Qed.







(** ** Battery *)

Section BatteryProperties.
Context `{Helpers}.

Lemma below255_integer msg key raw :
  Fz.data msg !! key = Some (VNumber (inject_Z raw)) ->
  Battery.below255 msg key = if 255 <=? raw then None else Some (inject_Z raw).
Proof.
  intros Hd. unfold Battery.below255. rewrite Hd. simpl.
  change 255%Q with (inject_Z 255). rewrite Qle_bool_integers. reflexivity.
Qed.

(** The voltage step leaves the percentage alone unless a voltage curve
    applies to a voltage the message carries. *)
Lemma voltageStep_keeps_battery given model msg payload :
  Battery.modelVoltageToPercentage model = None \/
  Battery.below255 msg "batteryVoltage" = None ->
  Battery.voltageStep given model msg payload !! "battery"%string
  = payload !! "battery"%string.
Proof.
  intros Hv. unfold Battery.voltageStep.
  destruct (Battery.below255 msg "batteryVoltage") as [v|] eqn:Ev; [|reflexivity].
  destruct Hv as [Hv|Hv]; [|discriminate]. rewrite Hv.
  destruct (Battery.flag _); [|reflexivity].
  apply lookup_insert_ne. discriminate.
Qed.

Lemma alarmStep_keeps_battery given msg payload :
  Battery.alarmStep given msg payload !! "battery"%string = payload !! "battery"%string.
Proof.
  unfold Battery.alarmStep.
  destruct (Fz.data msg !! "batteryAlarmState"%string); [|reflexivity].
  destruct (Battery.flag _); [|reflexivity].
  apply lookup_insert_ne. discriminate.
Qed.

(** C4, as amended.  With the percentage capability enabled (the
    default) and no voltage curve applying to a voltage carried by the
    same message, a message whose remaining-percentage attribute is the
    integer [raw] yields no percentage when [raw] is 255 (or more), and
    otherwise half of [raw], or [raw] itself when the definition's
    metadata disables the halving. *)
Theorem battery_percentage_decoded given model msg options meta (raw : Z) :
  default true (Battery.percentage given) = true ->
  Battery.modelVoltageToPercentage model = None \/
  Battery.below255 msg "batteryVoltage" = None ->
  Fz.data msg !! "batteryPercentageRemaining"%string = Some (VNumber (inject_Z raw)) ->
  exists payload,
    Battery.batteryConvert given model msg options meta = Returns (Some payload) /\
    (255 <= raw -> payload !! "battery"%string = None) /\
    (raw < 255 ->
     exists q,
       payload !! "battery"%string = Some (VNumber q) /\
       (q == if Battery.modelDontDivide model then inject_Z raw else inject_Z raw / 2)%Q).
Proof.
  intros Hp Hv Hd. unfold Battery.batteryConvert.
  eexists. split; [reflexivity|].
  rewrite alarmStep_keeps_battery, voltageStep_keeps_battery by exact Hv.
  unfold Battery.percentageStep. rewrite (below255_integer _ _ _ Hd).
  unfold Battery.args at 2. cbn [Battery.percentage Battery.flag].
  rewrite Hp. cbn [default from_option id].
  split.
  - intros Hr. destruct (Z.leb_spec 255 raw); [apply lookup_empty | lia].
  - intros Hr. destruct (Z.leb_spec 255 raw); [lia|].
    eexists. split; [apply lookup_insert_eq|].
    destruct (Battery.modelDontDivide model);
      [apply precisionRound_integer | apply precisionRound_half].
Qed.

(** C5. With the low-status capability enabled, the decoder maps the
    battery alarm state to one boolean, [battery_low], which is true
    exactly when one of the bits 0-3, 10-13 or 20-23 is set. *)
Theorem battery_low_is_or_of_alarm_bits given model msg options meta (raw : Z) :
  Battery.lowStatus given = Some true ->
  Fz.data msg !! "batteryAlarmState"%string = Some (VNumber (inject_Z raw)) ->
  exists payload b,
    Battery.batteryConvert given model msg options meta = Returns (Some payload) /\
    payload !! "battery_low"%string = Some (VBool b) /\
    (b = true <-> exists k, k ∈ lowBatteryBits /\ Z.testbit raw k = true).
Proof.
  intros Hlow Hdata. unfold Battery.batteryConvert.
  eexists. eexists. split; [reflexivity|].
  unfold Battery.alarmStep. rewrite Hdata.
  unfold Battery.args at 1. simpl. rewrite Hlow. simpl.
  split; [apply lookup_insert_eq|].
  rewrite !groupLow_bits by lia.
  rewrite !toInt32_integer by lia. sum_constants.
  unfold lowBatteryBits.
  split.
  - intros Hb.
    repeat match type of Hb with
           | (_ || _)%bool = true => apply orb_true_iff in Hb; destruct Hb as [Hb|Hb]
           end;
    (eexists; split; [|exact Hb]); set_solver.
  - intros [k [Hin Hk]].
    rewrite !elem_of_cons, elem_of_nil in Hin.
    destruct Hin as [->|[->|[->|[->|[->|[->|[->|[->|[->|[->|[->|[->|[]]]]]]]]]]]]];
      rewrite Hk; rewrite ?orb_true_r; reflexivity.
Qed.

End BatteryProperties.

(** On the readings of the battery decoder, whole numbers below 255,
    the exact arithmetic of its embedding is the arithmetic of doubles. *)
Lemma battery_readings_are_exact (raw : Z) :
  0 <= raw < 255 ->
  (precisionRoundDouble (jsDivide (inject_Z raw) 2) 2 == precisionRound (inject_Z raw / 2) 2)%Q /\
  (precisionRoundDouble (inject_Z raw) 2 == precisionRound (inject_Z raw) 2)%Q /\
  (jsMultiply (inject_Z raw) 100 == inject_Z raw * 100)%Q.
Proof.
  intros Hraw.
  set (agrees := fun n : nat =>
         let r := inject_Z (Z.of_nat n) in
         Qeq_bool (precisionRoundDouble (jsDivide r 2) 2) (precisionRound (r / 2) 2)
         && Qeq_bool (precisionRoundDouble r 2) (precisionRound r 2)
         && Qeq_bool (jsMultiply r 100) (r * 100)).
  assert (Hall : forallb agrees (seq 0 255) = true) by (vm_compute; reflexivity).
  rewrite forallb_forall in Hall.
  specialize (Hall (Z.to_nat raw)).
  assert (Hin : In (Z.to_nat raw) (seq 0 255)) by (apply in_seq; lia).
  specialize (Hall Hin). unfold agrees in Hall. rewrite Z2Nat.id in Hall by lia.
  apply andb_true_iff in Hall. destruct Hall as [Hall H3].
  apply andb_true_iff in Hall. destruct Hall as [H1 H2].
  split; [|split]; apply Qeq_bool_iff; assumption.
Qed.

(** ** Numeric capabilities *)




(** Without a declared precision, a constant scale that is not zero
    round-trips a capability value when the value and its product with
    the scale are doubles. *)
Lemma scale_round_trip_without_precision (args : Numeric.NumericArgs) (D v : Q) :
  Numeric.scale args = Some (Numeric.ScaleNumber D) ->
  Numeric.precision args = None ->
  ~ (D == 0)%Q ->
  (roundDouble v == v)%Q ->
  (roundDouble (v * D) == v * D)%Q ->
  (Numeric.decodeValue args (Numeric.payloadValueOf args v) == v)%Q.
Proof.
  intros Hs Hp HD Hv Hproduct.
  unfold Numeric.decodeValue, Numeric.payloadValueOf, Numeric.scaleFrom.
  rewrite Hs, Hp. unfold jsDivide, jsMultiply.
  rewrite (roundDouble_proper (roundDouble (v * D) / D) v); [exact Hv|].
  rewrite Hproduct. field. exact HD.
Qed.

(** With a declared precision the written value is the rounding of the
    capability value, whatever the scale. *)
Lemma precision_overrides_scale (args : Numeric.NumericArgs) (p : Z) (v : Q) :
  Numeric.precision args = Some p ->
  Numeric.payloadValueOf args v = precisionRoundDouble v p.
Proof. intros Hp. unfold Numeric.payloadValueOf. rewrite Hp. reflexivity. Qed.

Section NumericProperties.
Context `{Helpers} `{Io.Transport}.
Variable args : Numeric.NumericArgs.

Lemma applyIf_endpoint {A} (x : option A) f e :
  (forall a e', Exposes.endpoint (f a e') = Exposes.endpoint e') ->
  Exposes.endpoint (Numeric.applyIf x f e) = Exposes.endpoint e.
Proof. intros Hf. destruct x; simpl; [apply Hf | reflexivity]. Qed.

Lemma createExpose_endpoint (endpoint : option string) :
  Exposes.endpoint (Numeric.createExpose args endpoint) = Numeric.nonEmpty endpoint.
Proof.
  unfold Numeric.createExpose.
  rewrite !applyIf_endpoint by reflexivity.
  destruct (Numeric.nonEmpty endpoint); reflexivity.
Qed.







End NumericProperties.


(** ** Security zones: descriptors and status flags *)

Section ZoneProperties.
Context `{Helpers}.

Lemma includes_spec a l : Ias.includes a l = true <-> a ∈ l.
Proof. unfold Ias.includes. apply bool_decide_eq_true. Qed.

Lemma bothAlarms_spec args :
  Ias.bothAlarms args = true <->
  Ias.alarm_1 ∈ Ias.zoneAttributes args /\ Ias.alarm_2 ∈ Ias.zoneAttributes args.
Proof. unfold Ias.bothAlarms. rewrite andb_true_iff, !includes_spec. reflexivity. Qed.

Lemma attribute_expose_name a :
  Exposes.name (Ias.exposeListAttribute a) = Ias.attributeName a.
Proof. destruct a; reflexivity. Qed.

Lemma zone_expose_name z e :
  Ias.exposeListZone z = Some e -> Exposes.name e = Ias.zoneTypeName z.
Proof. destruct z; intros [= <-]; reflexivity. Qed.

Lemma rest_names (P : string -> Prop) (l : list Ias.iasZoneAttribute) :
  (forall a, Ias.isAlarm a = false -> P (Ias.attributeName a)) ->
  Forall (fun r => P (Exposes.name r))
    (map Ias.exposeListAttribute (List.filter (fun attr => negb (Ias.isAlarm attr)) l)).
Proof.
  intros HP. apply Forall_map. apply Forall_forall. intros a Ha.
  apply list_elem_of_In, filter_In in Ha. destruct Ha as [_ Ha].
  rewrite attribute_expose_name. apply HP. apply negb_true_iff, Ha.
Qed.

(** C9. For a zone type other than generic whose requested attributes
    include both alarm_1 and alarm_2, the builder exposes two
    capabilities, named after the zone type with the suffixes _alarm_1
    and _alarm_2, each with a description of its own, and no other
    capability carries either name.  Otherwise it exposes one capability
    named after the zone type, and no other capability carries that
    name. *)
Theorem both_alarms_stay_distinct (args : Ias.IasArgs) :
  Ias.zoneType args ≠ Ias.generic ->
  let zone := Ias.zoneTypeName (Ias.zoneType args) in
  let rest :=
    map Ias.exposeListAttribute
      (List.filter (fun attr => negb (Ias.isAlarm attr)) (Ias.zoneAttributes args)) in
  (Ias.alarm_1 ∈ Ias.zoneAttributes args /\ Ias.alarm_2 ∈ Ias.zoneAttributes args ->
   exists described first second,
     Ias.exposeListZone (Ias.zoneType args) = Some described /\
     exposes (Ias.iasZoneAlarm args) = first :: second :: rest /\
     Exposes.name first = (zone ++ "_alarm_1")%string /\
     Exposes.name second = (zone ++ "_alarm_2")%string /\
     Exposes.description first
       = Some (default "undefined"%string (Exposes.description described) ++ " (alarm_1)")%string /\
     Exposes.description second
       = Some (default "undefined"%string (Exposes.description described) ++ " (alarm_2)")%string /\
     Exposes.name first ≠ Exposes.name second /\
     Forall (fun r => Exposes.name r ≠ Exposes.name first /\
                      Exposes.name r ≠ Exposes.name second) rest)
  /\
  (~ (Ias.alarm_1 ∈ Ias.zoneAttributes args /\ Ias.alarm_2 ∈ Ias.zoneAttributes args) ->
   exists single,
     Ias.exposeListZone (Ias.zoneType args) = Some single /\
     exposes (Ias.iasZoneAlarm args) = single :: rest /\
     Exposes.name single = zone /\
     Forall (fun r => Exposes.name r ≠ zone) rest).
Proof.
  intros Hzone zone rest.
  destruct (Ias.exposeListZone (Ias.zoneType args)) as [described|] eqn:Ez;
    [|destruct (Ias.zoneType args); discriminate || contradiction].
  split.
  - intros Hboth. apply bothAlarms_spec in Hboth.
    exists described. eexists. eexists.
    split; [reflexivity|]. split.
    { cbn [exposes Ias.iasZoneAlarm]. unfold Ias.iasExposes. rewrite Ez, Hboth. reflexivity. }
    cbn [Exposes.name Exposes.description Exposes.withDescription Exposes.newBinary].
    repeat split.
    + subst zone. destruct (Ias.zoneType args); discriminate.
    + subst zone rest.
      apply (rest_names
               (fun n => n ≠ (Ias.zoneTypeName (Ias.zoneType args) ++ "_alarm_1")%string /\
                         n ≠ (Ias.zoneTypeName (Ias.zoneType args) ++ "_alarm_2")%string)).
      intros a Ha.
      destruct (Ias.zoneType args), a; (discriminate Ha || (split; discriminate)).
  - intros Hnot.
    assert (Hb : Ias.bothAlarms args = false).
    { destruct (Ias.bothAlarms args) eqn:E; [|reflexivity].
      apply bothAlarms_spec in E. contradiction. }
    exists described. split; [reflexivity|]. split.
    { cbn [exposes Ias.iasZoneAlarm]. unfold Ias.iasExposes. rewrite Ez, Hb. reflexivity. }
    split; [apply zone_expose_name, Ez|].
    subst zone rest.
    apply (rest_names (fun n => n ≠ Ias.zoneTypeName (Ias.zoneType args))).
    intros a Ha.
    destruct (Ias.zoneType args), a; (discriminate Ha || discriminate).
Qed.

Lemma statusPayload_bits args z :
  Ias.statusPayload args (toInt32 (VNumber (inject_Z z)))
  = payloadOf (Ias.alarm1Name args) (Ias.alarm2Name args)
      (Z.testbit z 0) (Z.testbit z 1) (Z.testbit z 2) (Z.testbit z 3) (Z.testbit z 4)
      (Z.testbit z 5) (Z.testbit z 6) (Z.testbit z 7) (Z.testbit z 8) (Z.testbit z 9).
Proof.
  unfold Ias.statusPayload, Ias.flagAt, payloadOf.
  rewrite bit0_flag, !bit_flag by lia.
  rewrite !toInt32_integer by lia. reflexivity.
Qed.

Lemma alarm_names_cases args :
  (Ias.alarm1Name args ≠ Ias.alarm2Name args <->
   Ias.zoneType args = Ias.generic \/
   (Ias.alarm_1 ∈ Ias.zoneAttributes args /\ Ias.alarm_2 ∈ Ias.zoneAttributes args)).
Proof.
  rewrite <- bothAlarms_spec.
  unfold Ias.alarm1Name, Ias.alarm2Name, Ias.isGeneric.
  destruct (Ias.zoneType args), (Ias.bothAlarms args); cbn;
    (split; [intros Hn; try (left; reflexivity); try (right; reflexivity);
             exfalso; apply Hn; reflexivity
            | intros [Hg|Hb]; try discriminate]).
Qed.

(** The flags of an update, by the two alarm names. *)
Lemma status_flags_by_name args z :
  let payload := Ias.statusPayload args (toInt32 (VNumber (inject_Z z))) in
  payload !! "tamper"%string = Some (VBool (Z.testbit z 2)) /\
  payload !! "battery_low"%string = Some (VBool (Z.testbit z 3)) /\
  payload !! "supervision_reports"%string = Some (VBool (Z.testbit z 4)) /\
  payload !! "restore_reports"%string = Some (VBool (Z.testbit z 5)) /\
  payload !! "trouble"%string = Some (VBool (Z.testbit z 6)) /\
  payload !! "ac_status"%string = Some (VBool (Z.testbit z 7)) /\
  payload !! "test"%string = Some (VBool (Z.testbit z 8)) /\
  payload !! "battery_defect"%string = Some (VBool (Z.testbit z 9)) /\
  is_Some (payload !! Ias.alarm1Name args) /\
  is_Some (payload !! Ias.alarm2Name args) /\
  (Ias.alarm1Name args ≠ Ias.alarm2Name args ->
   payload !! Ias.alarm1Name args = Some (VBool (Z.testbit z 0)) /\
   payload !! Ias.alarm2Name args = Some (VBool (Z.testbit z 1)) /\
   size payload = 10%nat) /\
  (Ias.alarm1Name args = Ias.alarm2Name args -> size payload = 9%nat).
Proof.
  intros payload. subst payload. rewrite statusPayload_bits.
  unfold Ias.alarm1Name, Ias.alarm2Name, Ias.isGeneric.
  generalize (Z.testbit z 0) (Z.testbit z 1) (Z.testbit z 2) (Z.testbit z 3)
    (Z.testbit z 4) (Z.testbit z 5) (Z.testbit z 6) (Z.testbit z 7) (Z.testbit z 8)
    (Z.testbit z 9).
  intros b0 b1 b2 b3 b4 b5 b6 b7 b8 b9.
  destruct (Ias.zoneType args), (Ias.bothAlarms args);
    cbn [bool_decide decide_rel Ias.iasZoneType_eq_dec Ias.zoneTypeName];
    repeat match goal with
           | |- _ /\ _ => split
           | |- is_Some _ => eexists; vm_compute; reflexivity
           | |- _ = _ => vm_compute; reflexivity
           | |- _ ≠ _ -> _ =>
               let Hne := fresh in intros Hne; try (exfalso; apply Hne; reflexivity)
           | |- _ = _ -> _ =>
               let Heq := fresh in intros Heq; try discriminate Heq
           end.
Qed.

(** C10, as amended.  For every message whose zone status is the
    integer [z], the update the zone decoder returns contains the eight
    flags other than the alarms, each read from its bit (2 to 9) of [z],
    whether or not the attribute was requested, and an entry under each
    of the two alarm names.  For a generic zone, or when both alarms are
    requested, the alarm entries are bits 0 and 1 and the update has ten
    keys; otherwise the two alarm entries share the key named after the
    zone type and the update has nine. *)
Theorem zone_status_flags args model msg options meta rt (z : Z) :
  Ias.zoneStatusOf msg = VNumber (inject_Z z) ->
  exists payload,
    (Ias.iasConvert args model msg options meta rt).1 = Returns (Some payload) /\
    payload !! "tamper"%string = Some (VBool (Z.testbit z 2)) /\
    payload !! "battery_low"%string = Some (VBool (Z.testbit z 3)) /\
    payload !! "supervision_reports"%string = Some (VBool (Z.testbit z 4)) /\
    payload !! "restore_reports"%string = Some (VBool (Z.testbit z 5)) /\
    payload !! "trouble"%string = Some (VBool (Z.testbit z 6)) /\
    payload !! "ac_status"%string = Some (VBool (Z.testbit z 7)) /\
    payload !! "test"%string = Some (VBool (Z.testbit z 8)) /\
    payload !! "battery_defect"%string = Some (VBool (Z.testbit z 9)) /\
    is_Some (payload !! Ias.alarm1Name args) /\
    is_Some (payload !! Ias.alarm2Name args) /\
    (Ias.zoneType args = Ias.generic \/
     (Ias.alarm_1 ∈ Ias.zoneAttributes args /\ Ias.alarm_2 ∈ Ias.zoneAttributes args) ->
     payload !! Ias.alarm1Name args = Some (VBool (Z.testbit z 0)) /\
     payload !! Ias.alarm2Name args = Some (VBool (Z.testbit z 1)) /\
     size payload = 10%nat) /\
    (~ (Ias.zoneType args = Ias.generic \/
        (Ias.alarm_1 ∈ Ias.zoneAttributes args /\ Ias.alarm_2 ∈ Ias.zoneAttributes args)) ->
     Ias.alarm1Name args = Ias.zoneTypeName (Ias.zoneType args) /\
     Ias.alarm2Name args = Ias.zoneTypeName (Ias.zoneType args) /\
     size payload = 9%nat).
Proof.
  intros Hz. eexists. split.
  { unfold Ias.iasConvert. cbn [fst]. rewrite Hz. reflexivity. }
  destruct (status_flags_by_name args z)
    as [H2 [H3 [H4 [H5 [H6 [H7 [H8 [H9 [Ha1 [Ha2 [Hdistinct Hshared]]]]]]]]]]].
  repeat (split; [assumption|]).
  split.
  - intros Hcase. apply Hdistinct, alarm_names_cases, Hcase.
  - intros Hcase.
    assert (Hb : Ias.bothAlarms args = false).
    { destruct (Ias.bothAlarms args) eqn:E; [|reflexivity].
      exfalso. apply Hcase. right. apply bothAlarms_spec, E. }
    assert (Hg : Ias.isGeneric args = false).
    { unfold Ias.isGeneric. apply bool_decide_eq_false_2.
      intros Hgen. apply Hcase. left. exact Hgen. }
    assert (H1 : Ias.alarm1Name args = Ias.zoneTypeName (Ias.zoneType args))
      by (unfold Ias.alarm1Name; rewrite Hg, Hb; reflexivity).
    assert (H2' : Ias.alarm2Name args = Ias.zoneTypeName (Ias.zoneType args))
      by (unfold Ias.alarm2Name; rewrite Hg, Hb; reflexivity).
    split; [exact H1|]. split; [exact H2'|].
    apply Hshared. congruence.
Qed.

End ZoneProperties.

(** ** Security zones: the clear timer *)













Section ZoneTimer.
Context `{Helpers}.















End ZoneTimer.

(** * Further properties of the code *)

(** ** Endpoints that list a cluster *)

Lemma exposesInputCluster_spec cluster ep :
  exposesInputCluster cluster ep = true <->
  exists c, c ∈ Zh.getInputClusters ep /\ namesCluster cluster c = true.
Proof.
  unfold exposesInputCluster.
  destruct (List.find _ (Zh.getInputClusters ep)) as [c|] eqn:E.
  - apply find_some in E. destruct E as [Hin Hc].
    split; [|reflexivity]. intros _. exists c. split; [apply list_elem_of_In, Hin | exact Hc].
  - split; [discriminate|]. intros [c [Hin Hc]].
    apply list_elem_of_In in Hin.
    pose proof (find_none _ _ E c Hin) as Hn. unfold namesCluster in Hc.
    simpl in Hn. congruence.
Qed.

(** X1. [getEndpointsWithInputCluster] returns exactly the endpoints of the
    device that list the cluster among their input clusters, in the
    device's order, and never an empty list; it throws exactly when the
    device has no endpoint list or none of its endpoints lists the
    cluster. *)
Theorem endpoints_with_input_cluster (device : Zh.Device) (cluster : Zh.ClusterKey) :
  (forall found,
     getEndpointsWithInputCluster device cluster = Returns found ->
     found ≠ [] /\
     exists all,
       Zh.endpoints device = Some all /\
       found = List.filter (exposesInputCluster cluster) all /\
       forall e, e ∈ found <->
                 e ∈ all /\ exists c, c ∈ Zh.getInputClusters e /\ namesCluster cluster c = true)
  /\
  (forall message,
     getEndpointsWithInputCluster device cluster = Throws message ->
     Zh.endpoints device = None \/
     exists all,
       Zh.endpoints device = Some all /\
       forall e c, e ∈ all -> c ∈ Zh.getInputClusters e -> namesCluster cluster c = false).
Proof.
  unfold getEndpointsWithInputCluster.
  destruct (Zh.endpoints device) as [all|]; [|split; [discriminate | intros; left; reflexivity]].
  destruct (List.filter (exposesInputCluster cluster) all) as [|x rest] eqn:Ef; simpl.
  - split; [discriminate|]. intros message _. right. exists all. split; [reflexivity|].
    intros e c He Hc.
    destruct (namesCluster cluster c) eqn:En; [|reflexivity].
    assert (Hin : In e (List.filter (exposesInputCluster cluster) all)).
    { apply filter_In. split; [apply list_elem_of_In, He|].
      apply exposesInputCluster_spec. exists c. split; assumption. }
    rewrite Ef in Hin. destruct Hin.
  - split; [|discriminate]. intros found [= <-]. split; [discriminate|].
    exists all. split; [reflexivity|]. split; [symmetry; exact Ef|].
    intros e. rewrite <- Ef. rewrite list_elem_of_In, filter_In, <- list_elem_of_In.
    rewrite exposesInputCluster_spec. reflexivity.
Qed.

(** ** [setupAttributes], request by request *)

Section Setup.
Context `{Io.Transport}.

Lemma send_appends endpoint cluster r w :
  exists o c, Io.send endpoint cluster r w = (o, {| Io.sent := Io.sent w ++ [r]; Io.cache := c |})
              /\ (o = Returns tt <-> exists values, Io.reply (Io.sent w) r = Returns values)
              /\ (forall e, o = Throws e <-> Io.reply (Io.sent w) r = Throws e).
Proof.
  unfold Io.send. destruct (Io.reply (Io.sent w) r) as [values|e] eqn:E.
  - eexists. eexists. split; [reflexivity|]. split.
    + split; eauto.
    + intros e. split; discriminate.
  - eexists. eexists. split; [reflexivity|]. split.
    + split; [discriminate | intros [v Hv]; discriminate].
    + intros e'. split; intros [= ->]; reflexivity.
Qed.

Lemma setupAttributes_unfold entity coord cluster config cr rd :
  setupAttributes entity coord cluster config cr rd
  = Io.bind (Io.lift (targetsOf entity cluster))
      (fun endpoints => Io.forOf endpoints (perEndpoint coord cluster config cr rd)).
Proof. reflexivity. Qed.

Lemma send_returns endpoint cluster r w values :
  Io.reply (Io.sent w) r = Returns values -> isRead r = false ->
  Io.send endpoint cluster r w
  = (Returns tt, {| Io.sent := Io.sent w ++ [r]; Io.cache := Io.cache w |}).
Proof.
  intros Hr Hnot. unfold Io.send. rewrite Hr. destruct r; try discriminate; reflexivity.
Qed.

Lemma send_throws endpoint cluster r w message :
  Io.reply (Io.sent w) r = Throws message ->
  Io.send endpoint cluster r w
  = (Throws message, {| Io.sent := Io.sent w ++ [r]; Io.cache := Io.cache w |}).
Proof. intros Hr. unfold Io.send. rewrite Hr. reflexivity. Qed.

Lemma read_is_swallowed endpoint cluster r w :
  exists c,
    Io.tryCatch (Io.send endpoint cluster r) (fun _ => Io.ret tt) w
    = (Returns tt, {| Io.sent := Io.sent w ++ [r]; Io.cache := c |}).
Proof.
  unfold Io.tryCatch, Io.send, Io.ret.
  destruct (Io.reply (Io.sent w) r); eexists; reflexivity.
Qed.

Lemma setupAttributes_endpoint e coord cluster config cr rd w :
  setupAttributes (Zh.IsEndpoint e) coord cluster config cr rd w
  = match perEndpoint coord cluster config cr rd e w with
    | (Returns _, w') => (Returns tt, w')
    | (Throws message, w') => (Throws message, w')
    end.
Proof.
  rewrite setupAttributes_unfold. unfold Io.bind at 1, Io.lift. cbn [targetsOf Io.forOf].
  unfold Io.bind at 1.
  destruct (perEndpoint coord cluster config cr rd e w) as [[[]|message] w']; reflexivity.
Qed.

(** X2. On an endpoint whose bind and reporting configuration are
    acknowledged, [setupAttributes] sends a bind, then one reporting
    configuration with the resolved times, then one read of the
    configured attributes, in that order, and returns whatever the device
    answers to the read. *)
Theorem setup_endpoint_subscribes_then_reads e coord cluster config items w :
  mapThrowing resolveReportingConfig config = Returns items ->
  (exists v, Io.reply (Io.sent w) (Io.Bind (Zh.ID e) cluster (Zh.ID coord)) = Returns v) ->
  (exists v, Io.reply (Io.sent w ++ [Io.Bind (Zh.ID e) cluster (Zh.ID coord)])
               (Io.ConfigureReporting (Zh.ID e) cluster items) = Returns v) ->
  exists c,
    setupAttributes (Zh.IsEndpoint e) coord cluster config true true w
    = (Returns tt,
       {| Io.sent := Io.sent w ++
                     [Io.Bind (Zh.ID e) cluster (Zh.ID coord);
                      Io.ConfigureReporting (Zh.ID e) cluster items;
                      Io.Read (Zh.ID e) cluster (map readKeyOf config) None];
          Io.cache := c |}).
Proof.
  intros Hitems [vb Hb] [vc Hc].
  rewrite setupAttributes_endpoint. unfold perEndpoint.
  unfold Io.bind at 1. unfold Io.bind at 1.
  rewrite (send_returns _ _ _ _ _ Hb eq_refl).
  unfold Io.bind at 1, Io.lift. rewrite Hitems.
  rewrite (send_returns _ _ _
             {| Io.sent := Io.sent w ++ [Io.Bind (Zh.ID e) cluster (Zh.ID coord)];
                Io.cache := Io.cache w |} _ Hc eq_refl).
  destruct (read_is_swallowed (Zh.ID e) cluster
              (Io.Read (Zh.ID e) cluster (map readKeyOf config) None)
              {| Io.sent := (Io.sent w ++ [Io.Bind (Zh.ID e) cluster (Zh.ID coord)]) ++
                            [Io.ConfigureReporting (Zh.ID e) cluster items];
                 Io.cache := Io.cache w |}) as [c Hread].
  cbn [Io.sent Io.cache] in *. rewrite Hread. exists c.
  rewrite <- !app_assoc. reflexivity.
Qed.

(** X3. [setupAttributes] stops at the first fault that precedes the read:
    a refused bind leaves only the bind sent; a reporting time that does
    not resolve is found after the bind was sent and before any
    reporting configuration; a refused reporting configuration leaves
    the bind and the configuration sent.  No read follows. *)
Theorem setup_endpoint_aborts e coord cluster config w message :
  (Io.reply (Io.sent w) (Io.Bind (Zh.ID e) cluster (Zh.ID coord)) = Throws message ->
   setupAttributes (Zh.IsEndpoint e) coord cluster config true true w
   = (Throws message,
      {| Io.sent := Io.sent w ++ [Io.Bind (Zh.ID e) cluster (Zh.ID coord)];
         Io.cache := Io.cache w |}))
  /\
  ((exists v, Io.reply (Io.sent w) (Io.Bind (Zh.ID e) cluster (Zh.ID coord)) = Returns v) ->
   mapThrowing resolveReportingConfig config = Throws message ->
   setupAttributes (Zh.IsEndpoint e) coord cluster config true true w
   = (Throws message,
      {| Io.sent := Io.sent w ++ [Io.Bind (Zh.ID e) cluster (Zh.ID coord)];
         Io.cache := Io.cache w |}))
  /\
  (forall items,
     (exists v, Io.reply (Io.sent w) (Io.Bind (Zh.ID e) cluster (Zh.ID coord)) = Returns v) ->
     mapThrowing resolveReportingConfig config = Returns items ->
     Io.reply (Io.sent w ++ [Io.Bind (Zh.ID e) cluster (Zh.ID coord)])
       (Io.ConfigureReporting (Zh.ID e) cluster items) = Throws message ->
     setupAttributes (Zh.IsEndpoint e) coord cluster config true true w
     = (Throws message,
        {| Io.sent := Io.sent w ++ [Io.Bind (Zh.ID e) cluster (Zh.ID coord);
                                    Io.ConfigureReporting (Zh.ID e) cluster items];
           Io.cache := Io.cache w |})).
Proof.
  split; [|split].
  - intros Hb. rewrite setupAttributes_endpoint. unfold perEndpoint.
    unfold Io.bind at 1. unfold Io.bind at 1.
    rewrite (send_throws _ _ _ _ _ Hb). reflexivity.
  - intros [vb Hb] Hitems. rewrite setupAttributes_endpoint. unfold perEndpoint.
    unfold Io.bind at 1. unfold Io.bind at 1.
    rewrite (send_returns _ _ _ _ _ Hb eq_refl).
    unfold Io.bind at 1, Io.lift. rewrite Hitems. reflexivity.
  - intros items [vb Hb] Hitems Hc. rewrite setupAttributes_endpoint. unfold perEndpoint.
    unfold Io.bind at 1. unfold Io.bind at 1.
    rewrite (send_returns _ _ _ _ _ Hb eq_refl).
    unfold Io.bind at 1, Io.lift. rewrite Hitems.
    rewrite (send_throws _ _ _
               {| Io.sent := Io.sent w ++ [Io.Bind (Zh.ID e) cluster (Zh.ID coord)];
                  Io.cache := Io.cache w |} _ Hc). cbn [Io.sent Io.cache].
    rewrite <- app_assoc. reflexivity.
Qed.

(** One endpoint's work only appends requests, all addressed to it. *)
Lemma perEndpoint_appends coord cluster config cr rd e w :
  exists o added c,
    perEndpoint coord cluster config cr rd e w
    = (o, {| Io.sent := Io.sent w ++ added; Io.cache := c |}) /\
    Forall (fun r => requestEndpoint r = Zh.ID e) added /\
    (cr = false -> o = Returns tt /\
                   added = if rd then [Io.Read (Zh.ID e) cluster (map readKeyOf config) None]
                           else []).
Proof.
  unfold perEndpoint, Io.bind, Io.lift, Io.tryCatch, Io.send, Io.ret.
  destruct cr.
  - cbn [Io.sent Io.cache].
    destruct (Io.reply (Io.sent w) _) as [vb|eb]; cbn [Io.sent Io.cache].
    + destruct (mapThrowing resolveReportingConfig config) as [items|ei]; cbn [Io.sent Io.cache].
      * destruct (Io.reply (Io.sent w ++ _) (Io.ConfigureReporting _ _ _)) as [vc|ec];
          cbn [Io.sent Io.cache].
        -- destruct rd.
           ++ destruct (Io.reply _ (Io.Read _ _ _ _)); cbn [Io.sent Io.cache];
                eexists; eexists; eexists;
                (split; [rewrite <- !app_assoc; reflexivity|]);
                (split; [repeat constructor | discriminate]).
           ++ eexists. eexists. eexists.
              split; [rewrite <- !app_assoc; reflexivity|].
              split; [repeat constructor | discriminate].
        -- eexists. eexists. eexists.
           split; [rewrite <- !app_assoc; reflexivity|].
           split; [repeat constructor | discriminate].
      * eexists. eexists. eexists. split; [reflexivity|].
        split; [repeat constructor | discriminate].
    + eexists. eexists. eexists. split; [reflexivity|].
      split; [repeat constructor | discriminate].
  - destruct rd; cbn [Io.sent Io.cache].
    + destruct (Io.reply _ (Io.Read _ _ _ _)); cbn [Io.sent Io.cache];
        eexists; eexists; eexists; (split; [reflexivity|]);
        (split; [repeat constructor | intros _; split; reflexivity]).
    + exists (Returns tt), [], (Io.cache w). rewrite app_nil_r. destruct w.
      split; [reflexivity|]. split; [constructor | intros _; split; reflexivity].
Qed.

Lemma forOf_appends coord cluster config cr rd targets w :
  exists o added c,
    Io.forOf targets (perEndpoint coord cluster config cr rd) w
    = (o, {| Io.sent := Io.sent w ++ added; Io.cache := c |}) /\
    Forall (fun r => requestEndpoint r ∈ map Zh.ID targets) added /\
    (cr = false ->
     o = Returns tt /\
     added = if rd then map (fun e => Io.Read (Zh.ID e) cluster (map readKeyOf config) None)
                          targets
             else []).
Proof.
  revert w. induction targets as [|e rest IH]; intros w.
  - exists (Returns tt), [], (Io.cache w). simpl. rewrite app_nil_r. destruct w.
    split; [reflexivity|]. split; [constructor|]. intros _. destruct rd; split; reflexivity.
  - destruct (perEndpoint_appends coord cluster config cr rd e w)
      as [o1 [added1 [c1 [H1 [Hall1 Hread1]]]]].
    cbn [Io.forOf]. unfold Io.bind at 1. rewrite H1.
    destruct o1 as [[]|e1].
    + destruct (IH {| Io.sent := Io.sent w ++ added1; Io.cache := c1 |})
        as [o2 [added2 [c2 [H2 [Hall2 Hread2]]]]].
      rewrite H2. cbn [Io.sent]. exists o2, (added1 ++ added2), c2.
      split; [rewrite app_assoc; reflexivity|]. split.
      * apply Forall_app. split.
        -- eapply Forall_impl; [exact Hall1|]. simpl. intros r ->. left.
        -- eapply Forall_impl; [exact Hall2|]. simpl. intros r Hr. right. exact Hr.
      * intros Hcr. destruct (Hread1 Hcr) as [_ ->]. destruct (Hread2 Hcr) as [-> ->].
        split; [reflexivity|]. destruct rd; reflexivity.
    + exists (Throws e1), added1, c1. split; [reflexivity|]. split.
      * eapply Forall_impl; [exact Hall1|]. simpl. intros r ->. left.
      * intros Hcr. destruct (Hread1 Hcr) as [Hx _]. discriminate Hx.
Qed.

(** X4. Every request [setupAttributes] sends addresses one of its target
    endpoints: the entity itself when it is an endpoint, the endpoints
    listing the cluster when it is a device.  When the targets cannot be
    determined it throws with nothing sent. *)
Theorem setup_addresses_only_its_targets entity coord cluster config cr rd w :
  exists added c,
    (setupAttributes entity coord cluster config cr rd w).2
    = {| Io.sent := Io.sent w ++ added; Io.cache := c |} /\
    (forall message, targetsOf entity cluster = Throws message ->
       added = [] /\
       (setupAttributes entity coord cluster config cr rd w).1 = Throws message) /\
    (forall targets, targetsOf entity cluster = Returns targets ->
       Forall (fun r => requestEndpoint r ∈ map Zh.ID targets) added).
Proof.
  rewrite setupAttributes_unfold. unfold Io.bind at 1, Io.lift.
  destruct (targetsOf entity cluster) as [targets|message].
  - destruct (forOf_appends coord cluster config cr rd targets w)
      as [o [added [c [Hrun [Hall _]]]]].
    rewrite Hrun. exists added, c. split; [reflexivity|]. split; [discriminate|].
    intros targets' [= <-]. exact Hall.
  - exists [], (Io.cache w). rewrite app_nil_r. destruct w. split; [reflexivity|].
    split; [|discriminate]. intros m [= <-]. split; reflexivity.
Qed.

(** X5. With reporting switched off, [setupAttributes] sends one read per
    target endpoint and returns, whatever the device answers to the
    reads. *)
Theorem reading_alone_never_faults entity coord cluster config targets w :
  targetsOf entity cluster = Returns targets ->
  exists c,
    setupAttributes entity coord cluster config false true w
    = (Returns tt,
       {| Io.sent := Io.sent w ++
                     map (fun e => Io.Read (Zh.ID e) cluster (map readKeyOf config) None)
                         targets;
          Io.cache := c |}).
Proof.
  intros Ht. rewrite setupAttributes_unfold. unfold Io.bind at 1, Io.lift. rewrite Ht.
  destruct (forOf_appends coord cluster config false true targets w)
    as [o [added [c [Hrun [_ Hread]]]]].
  destruct (Hread eq_refl) as [-> ->]. exists c. exact Hrun.
Qed.

End Setup.

(** ** The configurator of [setupConfigureForReporting] *)

Section Configure.
Context `{Io.Transport}.

Lemma forOf_endpoint_entities coord cluster config cr rd (targets : list Zh.Endpoint) w :
  Io.forOf (map Zh.IsEndpoint targets)
    (fun entity => setupAttributes entity coord cluster config cr rd) w
  = Io.forOf targets (perEndpoint coord cluster config cr rd) w.
Proof.
  revert w. induction targets as [|e rest IH]; intros w; [reflexivity|].
  cbn [map Io.forOf]. unfold Io.bind.
  rewrite setupAttributes_endpoint.
  destruct (perEndpoint coord cluster config cr rd e w) as [[[]|message] w']; [apply IH|reflexivity].
Qed.

Lemma forOf_single_entity {A} (x : A) (f : A -> Io.IO unit) w :
  Io.forOf [x] f w = match f x w with
                     | (Returns _, w') => (Returns tt, w')
                     | (Throws message, w') => (Throws message, w')
                     end.
Proof.
  cbn [Io.forOf]. unfold Io.bind. destruct (f x w) as [[[]|message] w']; reflexivity.
Qed.

(** X6. With endpoint names, the configurator [setupConfigureForReporting]
    returns talks only to endpoints of the device whose identifier,
    written in decimal, is one of the names; on a device without an
    endpoint list it throws before sending anything. *)
Theorem configurator_stays_on_named_endpoints ea cluster attribute config access names run
    device coord w :
  setupConfigureForReporting ea cluster attribute config access (Some names) = Some run ->
  (Zh.endpoints device = None ->
   exists message, run device coord w = (Throws message, w)) /\
  (forall all, Zh.endpoints device = Some all ->
     exists added c,
       (run device coord w).2 = {| Io.sent := Io.sent w ++ added; Io.cache := c |} /\
       Forall (fun r => exists e, e ∈ all /\ Zh.ID e = requestEndpoint r /\
                                  pretty (Zh.ID e) ∈ names) added).
Proof.
  unfold setupConfigureForReporting.
  destruct (bool_decide (is_Some config) || negb (jsBitAnd access (GET ea) =? 0));
    [|discriminate].
  intros [= <-]. split.
  - intros Hnone. rewrite Hnone. unfold Io.bind, Io.raise. eauto.
  - intros all Hall. rewrite Hall. unfold Io.bind at 1, Io.ret.
    rewrite forOf_endpoint_entities.
    destruct (forOf_appends coord cluster [withAttribute config attribute]
                (bool_decide (is_Some config)) (negb (jsBitAnd access (GET ea) =? 0))
                (List.filter (fun e => bool_decide (pretty (Zh.ID e) ∈ names)) all) w)
      as [o [added [c [Hrun [Hall' _]]]]].
    rewrite Hrun. exists added, c. split; [reflexivity|].
    eapply Forall_impl; [exact Hall'|]. simpl. intros r Hr.
    apply list_elem_of_fmap in Hr. destruct Hr as [e [He Hin]].
    apply list_elem_of_In, filter_In in Hin. destruct Hin as [Hin Hname].
    exists e. split; [apply list_elem_of_In, Hin|]. split; [congruence|].
    apply bool_decide_eq_true in Hname. exact Hname.
Qed.

(** X7. Without a reporting configuration and with readable access, the
    configurator only reads: one read of the attribute per endpoint
    listing the cluster, no bind and no reporting configuration, and no
    answer of the device makes it fail.  It throws only when no endpoint
    lists the cluster. *)
Theorem readable_without_reporting_only_reads ea cluster attribute access :
  jsBitAnd access (GET ea) ≠ 0 ->
  exists run,
    setupConfigureForReporting ea cluster attribute None access None = Some run /\
    (forall device coord w targets,
       getEndpointsWithInputCluster device cluster = Returns targets ->
       exists c,
         run device coord w
         = (Returns tt,
            {| Io.sent := Io.sent w ++
                          map (fun e => Io.Read (Zh.ID e) cluster
                                          [readKeyOf (withAttribute None attribute)] None)
                              targets;
               Io.cache := c |})) /\
    (forall device coord w message,
       getEndpointsWithInputCluster device cluster = Throws message ->
       run device coord w = (Throws message, w)).
Proof.
  intros Hget. unfold setupConfigureForReporting.
  apply Z.eqb_neq in Hget. rewrite Hget. cbn [negb orb bool_decide].
  replace (bool_decide (is_Some (@None Reporting.ReportingConfigWithoutAttribute)))
    with false by (symmetry; apply bool_decide_eq_false_2; intros [x Hx]; discriminate).
  cbn [orb]. eexists. split; [reflexivity|]. split.
  - intros device coord w targets Ht.
    unfold Io.bind at 1, Io.ret. rewrite forOf_single_entity.
    rewrite setupAttributes_unfold. unfold Io.bind at 1, Io.lift. cbn [targetsOf].
    rewrite Ht.
    destruct (forOf_appends coord cluster [withAttribute None attribute] false true targets w)
      as [o [added [c [Hrun [_ Hread]]]]].
    destruct (Hread eq_refl) as [-> ->]. rewrite Hrun. exists c. reflexivity.
  - intros device coord w message Ht.
    unfold Io.bind at 1, Io.ret. rewrite forOf_single_entity.
    rewrite setupAttributes_unfold. unfold Io.bind at 1, Io.lift. cbn [targetsOf].
    rewrite Ht. reflexivity.
Qed.

End Configure.

(** ** [onOff], [numeric], [binary] and [battery] *)

Section OnOffProperties.
Context `{Io.Transport}.

Lemma onOffConfigure_unfold given device coord w :
  OnOff.onOffConfigure given device coord w
  = match setupAttributes (Zh.IsDevice device) coord (Zh.ClusterName "genOnOff")
            [OnOff.onOffReport "onOff"] true true w with
    | (Returns _, w') =>
        if OnOff.withPowerOnBehavior given then
          Io.tryCatch
            (setupAttributes (Zh.IsDevice device) coord
               (Zh.ClusterName "genOnOff") [OnOff.onOffReport "startUpOnOff"] false true)
            (fun message =>
               if includesString "UNSUPPORTED_ATTRIBUTE" message then Io.ret tt
               else Io.raise message) w'
        else (Returns tt, w')
    | (Throws e, w') => (Throws e, w')
    end.
Proof.
  unfold OnOff.onOffConfigure, Io.bind.
  destruct (setupAttributes _ _ _ _ _ _ w) as [[[]|e] w']; [|reflexivity].
  destruct (OnOff.withPowerOnBehavior given); reflexivity.
Qed.

(** X8. The configurator of [onOff] has the outcome of its first step (bind,
    reporting and read of onOff): when that step throws, the configurator
    stops there; when it returns, the configurator returns, having sent
    after it one read of startUpOnOff per endpoint if the power-on
    behaviour is enabled and nothing otherwise.  The read of startUpOnOff
    cannot make it fail, whatever the message of the fault. *)
Theorem onoff_startup_read_never_fails given device coord w :
  let first := setupAttributes (Zh.IsDevice device) coord (Zh.ClusterName "genOnOff")
                 [OnOff.onOffReport "onOff"] true true w in
  (OnOff.onOffConfigure given device coord w).1 = first.1 /\
  (forall message, first.1 = Throws message ->
     OnOff.onOffConfigure given device coord w = first) /\
  (first.1 = Returns tt ->
   exists targets c,
     getEndpointsWithInputCluster device (Zh.ClusterName "genOnOff") = Returns targets /\
     OnOff.onOffConfigure given device coord w
     = (Returns tt,
        {| Io.sent :=
             Io.sent first.2 ++
             (if OnOff.withPowerOnBehavior given
              then map (fun e => Io.Read (Zh.ID e) (Zh.ClusterName "genOnOff")
                                   [Zh.KeyName "startUpOnOff"] None) targets
              else []);
           Io.cache := c |})).
Proof.
  intros first. subst first. rewrite !onOffConfigure_unfold.
  remember (setupAttributes (Zh.IsDevice device) coord (Zh.ClusterName "genOnOff")
              [OnOff.onOffReport "onOff"] true true w) as first eqn:E.
  symmetry in E.
  destruct first as [[[]|message] w']; cbn [fst snd].
  - split; [|split; [discriminate|]].
    + destruct (OnOff.withPowerOnBehavior given); [|reflexivity].
      unfold Io.tryCatch. rewrite setupAttributes_unfold. unfold Io.bind at 1, Io.lift.
      cbn [targetsOf].
      destruct (getEndpointsWithInputCluster device (Zh.ClusterName "genOnOff"))
        as [targets|message] eqn:Et.
      * destruct (forOf_appends coord (Zh.ClusterName "genOnOff")
                    [OnOff.onOffReport "startUpOnOff"] false true targets w')
          as [o [added [c [Hrun [_ Hread]]]]].
        destruct (Hread eq_refl) as [-> ->]. rewrite Hrun. reflexivity.
      * exfalso. rewrite setupAttributes_unfold in E.
        unfold Io.bind at 1, Io.lift in E. cbn [targetsOf] in E. rewrite Et in E.
        discriminate.
    + intros _.
      destruct (getEndpointsWithInputCluster device (Zh.ClusterName "genOnOff"))
        as [targets|message] eqn:Et.
      * exists targets.
        destruct (OnOff.withPowerOnBehavior given).
        -- unfold Io.tryCatch. rewrite setupAttributes_unfold. unfold Io.bind at 1, Io.lift.
           cbn [targetsOf]. rewrite Et. cbv beta iota.
           destruct (forOf_appends coord (Zh.ClusterName "genOnOff")
                       [OnOff.onOffReport "startUpOnOff"] false true targets w')
             as [o [added [c [Hrun [_ Hread]]]]].
           destruct (Hread eq_refl) as [-> ->]. rewrite Hrun. exists c.
           split; reflexivity.
        -- exists (Io.cache w'). split; [reflexivity|].
           rewrite app_nil_r. destruct w'; reflexivity.
      * exfalso. rewrite setupAttributes_unfold in E.
        unfold Io.bind at 1, Io.lift in E. cbn [targetsOf] in E. rewrite Et in E.
        discriminate.
  - split; [reflexivity|]. split; [reflexivity|discriminate].
Qed.

End OnOffProperties.

Section NumericExtras.
Context `{Helpers} `{Io.Transport}.
Variable args : Numeric.NumericArgs.

(** X9. The setter of [numeric] validates before it writes: a value that is
    not a number throws, with the text of the validation helper and with
    nothing sent; a number leads to exactly one write, of the value as
    the setter encodes it on doubles, and the setter returns the value
    it was given as the new state exactly when the write is
    acknowledged. *)
Theorem numeric_set_validates_then_writes_once entity key value w :
  Numeric.numericConvertSet args entity key value w
  = match value with
    | VNumber q =>
        let request := Io.Write (Zh.ID entity) (Numeric.cluster args)
                         (Numeric.writePayload args (Numeric.payloadValueOf args q))
                         (Numeric.zigbeeCommandOptions args) in
        let after := {| Io.sent := Io.sent w ++ [request]; Io.cache := Io.cache w |} in
        match Io.reply (Io.sent w) request with
        | Returns _ => (Returns {[ key := value ]}, after)
        | Throws message => (Throws message, after)
        end
    | _ => (Throws (notANumber (Own value) (Some key)), w)
    end.
Proof.
  unfold Numeric.numericConvertSet, Io.bind, Io.lift, Io.send, Io.ret.
  destruct value as [|q|b|s]; cbn [assertNumber]; try reflexivity.
  cbv zeta. destruct (Io.reply (Io.sent w) _); reflexivity.
Qed.

(** X10. [numeric] exposes one descriptor without an endpoint, answering to
    the capability's name, exactly when no endpoint names are given or
    the only name is "1"; otherwise it exposes one descriptor per
    endpoint name, in order, each qualified with its name (an empty name
    leaves its descriptor unqualified).  Every descriptor carries the
    capability's name and access. *)
Theorem numeric_descriptors_per_endpoint :
  (Numeric.noEndpoint args = true <->
   Numeric.endpointNames args = None \/ Numeric.endpointNames args = Some ["1"%string]) /\
  (Numeric.noEndpoint args = true ->
   exists expose, Numeric.numericExposes args = [expose] /\
                  Exposes.endpoint expose = None /\
                  Exposes.property expose = Numeric.name args) /\
  (forall names, Numeric.noEndpoint args = false ->
     Numeric.endpointNames args = Some names ->
     map Exposes.endpoint (Numeric.numericExposes args)
     = map (fun n => if String.eqb n "" then None else Some n) names) /\
  Forall (fun expose => Exposes.name expose = Numeric.name args /\
                        Exposes.access expose = Numeric.accessBits args)
         (Numeric.numericExposes args).
Proof.
  assert (Hname : forall endpoint,
            Exposes.name (Numeric.createExpose args endpoint) = Numeric.name args /\
            Exposes.access (Numeric.createExpose args endpoint) = Numeric.accessBits args).
  { intros endpoint. unfold Numeric.createExpose, Numeric.applyIf.
    destruct (Numeric.nonEmpty endpoint), (Numeric.nonEmpty (Numeric.unit args)),
      (Numeric.valueMin args), (Numeric.valueMax args), (Numeric.valueStep args),
      (Numeric.label args), (Numeric.nonEmpty (Numeric.entityCategory args));
      split; reflexivity. }
  assert (Hprop : Exposes.property (Numeric.createExpose args None) = Numeric.name args).
  { unfold Numeric.createExpose, Numeric.applyIf. cbn [Numeric.nonEmpty].
    destruct (Numeric.nonEmpty (Numeric.unit args)),
      (Numeric.valueMin args), (Numeric.valueMax args), (Numeric.valueStep args),
      (Numeric.label args), (Numeric.nonEmpty (Numeric.entityCategory args));
      reflexivity. }
  split; [|split; [|split]].
  - unfold Numeric.noEndpoint, Numeric.endpoints.
    destruct (Numeric.endpointNames args) as [[|e [|e' rest]]|]; split;
      try discriminate; try (intros [D|D]; discriminate); try tauto.
    + intros He. apply String.eqb_eq in He. subst e. tauto.
    + intros [D|D]; [discriminate|]. injection D as ->. reflexivity.
  - intros Hno. unfold Numeric.numericExposes. rewrite Hno.
    eexists. split; [reflexivity|]. split; [apply createExpose_endpoint | exact Hprop].
  - intros names Hno Hn. unfold Numeric.numericExposes, Numeric.endpoints.
    rewrite Hno, Hn. cbn [default from_option id]. rewrite map_map.
    apply map_ext. intros n. rewrite createExpose_endpoint.
    unfold Numeric.nonEmpty, truthyString. destruct (String.eqb n ""); reflexivity.
  - unfold Numeric.numericExposes. destruct (Numeric.noEndpoint args).
    + constructor; [apply Hname | constructor].
    + apply Forall_forall. intros x Hx. apply list_elem_of_In, in_map_iff in Hx.
      destruct Hx as [n [<- _]]. apply Hname.
Qed.


End NumericExtras.

Lemma strictEquals_refl v : strictEquals v v = true.
Proof.
  destruct v as [|q|b|s]; simpl.
  - reflexivity.
  - apply Qeq_bool_iff. reflexivity.
  - destruct b; reflexivity.
  - apply String.eqb_refl.
Qed.

Section BinaryProperties.
Context `{Helpers} `{Io.Transport}.
Variable args : Binary.BinaryArgs.

(** X12. For [binary], over the values of the embedding: writing the on value
    and decoding what was written gives the on value; decoding what was
    written for any value gives the on or the off value; when the two
    wire values differ, every value other than the on value decodes,
    after writing, to the off value; when they coincide, every written
    value decodes to the on value. *)
Theorem binary_round_trip :
  let on := (Binary.valueOn args).1 in
  let off := (Binary.valueOff args).1 in
  Binary.decodeState args (Binary.payloadValueOf args on) = on /\
  (forall v, Binary.decodeState args (Binary.payloadValueOf args v) = on \/
             Binary.decodeState args (Binary.payloadValueOf args v) = off) /\
  (strictEquals (Binary.valueOff args).2 (Binary.valueOn args).2 = false ->
   forall v, strictEquals v on = false ->
     Binary.decodeState args (Binary.payloadValueOf args v) = off) /\
  (strictEquals (Binary.valueOff args).2 (Binary.valueOn args).2 = true ->
   forall v, Binary.decodeState args (Binary.payloadValueOf args v) = on).
Proof.
  intros on off. unfold Binary.decodeState, Binary.payloadValueOf. fold on off.
  split; [|split; [|split]].
  - rewrite strictEquals_refl, strictEquals_refl. reflexivity.
  - intros v. destruct (strictEquals v on);
      match goal with |- context [if ?c then on else off] => destruct c end; tauto.
  - intros Hwire v Hv. rewrite Hv, Hwire. reflexivity.
  - intros Hwire v. destruct (strictEquals v on).
    + rewrite strictEquals_refl. reflexivity.
    + rewrite Hwire. reflexivity.
Qed.

(** X13. The setter of [binary] does not validate: whatever the value, it
    sends exactly one write, of the on wire value if the value is the on
    value and of the off wire value otherwise, and when the write is
    acknowledged it returns the value it was given as the new state. *)
Theorem binary_set_echoes_any_value entity key value w :
  let wire := if strictEquals value (Binary.valueOn args).1
              then (Binary.valueOn args).2 else (Binary.valueOff args).2 in
  let request := Io.Write (Zh.ID entity) (Binary.cluster args)
                   (Binary.writePayload args wire) (Binary.commandOptions args) in
  let after := {| Io.sent := Io.sent w ++ [request]; Io.cache := Io.cache w |} in
  Binary.binaryConvertSet args entity key value w
  = match Io.reply (Io.sent w) request with
    | Returns _ => (Returns {[ key := value ]}, after)
    | Throws message => (Throws message, after)
    end.
Proof.
  intros wire request after.
  unfold Binary.binaryConvertSet, Io.bind, Io.send, Io.ret.
  fold wire. unfold Binary.payloadValueOf. fold wire. fold request.
  destruct (Io.reply (Io.sent w) request); reflexivity.
Qed.

End BinaryProperties.

Section BatteryExtras.
Context `{Helpers} `{Io.Transport}.
Variable given : Battery.BatteryArgs.

Lemma percentageStep_keys model msg payload k :
  is_Some (Battery.percentageStep given model msg payload !! k) ->
  is_Some (payload !! k) \/ (k = "battery"%string /\ default true (Battery.percentage given) = true).
Proof.
  unfold Battery.percentageStep.
  destruct (Battery.below255 msg "batteryPercentageRemaining"); [|tauto].
  unfold Battery.args at 1. cbn [Battery.percentage Battery.flag default from_option id].
  destruct (default true (Battery.percentage given)) eqn:E; [|tauto].
  destruct (decide (k = "battery"%string)) as [->|Hk]; [tauto|].
  rewrite lookup_insert_ne by congruence. tauto.
Qed.

Lemma voltageStep_keys model msg payload k :
  is_Some (Battery.voltageStep given model msg payload !! k) ->
  is_Some (payload !! k)
  \/ (k = "voltage"%string /\ Battery.voltage given = Some true)
  \/ (k = "battery"%string /\ is_Some (Battery.modelVoltageToPercentage model)).
Proof.
  unfold Battery.voltageStep.
  destruct (Battery.below255 msg "batteryVoltage"); [|tauto].
  cbv zeta.
  change (Battery.flag (Battery.voltage (Battery.args given)))
    with (default false (Battery.voltage given)).
  destruct (Battery.modelVoltageToPercentage model) as [curve|].
  - destruct (decide (k = "battery"%string)) as [->|Hk]; [eauto|].
    rewrite (lookup_insert_ne _ "battery"%string k) by congruence.
    destruct (Battery.voltage given) as [[|]|]; cbn [default from_option id]; try tauto.
    destruct (decide (k = "voltage"%string)) as [->|Hk']; [tauto|].
    rewrite lookup_insert_ne by congruence. tauto.
  - destruct (Battery.voltage given) as [[|]|]; cbn [default from_option id]; try tauto.
    destruct (decide (k = "voltage"%string)) as [->|Hk']; [tauto|].
    rewrite lookup_insert_ne by congruence. tauto.
Qed.

Lemma alarmStep_keys msg payload k :
  is_Some (Battery.alarmStep given msg payload !! k) ->
  is_Some (payload !! k) \/ (k = "battery_low"%string /\ Battery.lowStatus given = Some true).
Proof.
  unfold Battery.alarmStep.
  destruct (Fz.data msg !! "batteryAlarmState"%string); [|tauto].
  unfold Battery.args at 1. cbn [Battery.lowStatus Battery.flag default from_option id].
  destruct (Battery.lowStatus given) as [[|]|]; cbn [default from_option id]; try tauto.
  destruct (decide (k = "battery_low"%string)) as [->|Hk]; [tauto|].
  rewrite lookup_insert_ne by congruence. tauto.
Qed.

(** X14. The decoder of [battery] emits no key besides battery, voltage and
    battery_low: voltage only when the voltage capability is enabled,
    battery_low only when the low-status capability is enabled, battery
    only when the percentage capability is enabled or the definition
    carries a voltage curve.  Without a voltage curve every emitted key
    is the property of an exposed descriptor. *)
Theorem battery_payload_keys model msg options meta :
  exists payload,
    Battery.batteryConvert given model msg options meta = Returns (Some payload) /\
    (forall k, is_Some (payload !! k) ->
       (k = "battery"%string /\
        (default true (Battery.percentage given) = true \/
         is_Some (Battery.modelVoltageToPercentage model))) \/
       (k = "voltage"%string /\ Battery.voltage given = Some true) \/
       (k = "battery_low"%string /\ Battery.lowStatus given = Some true)) /\
    (Battery.modelVoltageToPercentage model = None ->
     forall k, is_Some (payload !! k) ->
       exists expose, expose ∈ Battery.batteryExposes given /\ Exposes.property expose = k).
Proof.
  eexists. split; [reflexivity|].
  assert (Hkeys : forall k,
    is_Some (Battery.alarmStep given msg
               (Battery.voltageStep given model msg
                  (Battery.percentageStep given model msg ∅)) !! k) ->
    (k = "battery"%string /\
     (default true (Battery.percentage given) = true \/
      is_Some (Battery.modelVoltageToPercentage model))) \/
    (k = "voltage"%string /\ Battery.voltage given = Some true) \/
    (k = "battery_low"%string /\ Battery.lowStatus given = Some true)).
  { intros k Hk.
    apply alarmStep_keys in Hk. destruct Hk as [Hk|Hk]; [|tauto].
    apply voltageStep_keys in Hk. destruct Hk as [Hk|[Hk|Hk]]; [|tauto|tauto].
    apply percentageStep_keys in Hk. destruct Hk as [Hk|Hk]; [|tauto].
    rewrite lookup_empty in Hk. destruct Hk as [x Hx]. discriminate. }
  split; [exact Hkeys|].
  intros Hcurve k Hk. apply Hkeys in Hk. rewrite Hcurve in Hk.
  unfold Battery.batteryExposes, Battery.args.
  cbn [Battery.percentage Battery.voltage Battery.lowStatus Battery.flag
       default from_option id].
  destruct Hk as [[-> [Hp|[x Hx]]]|[[-> Hv]|[-> Hl]]]; try discriminate.
  - rewrite Hp. eexists. split; [apply elem_of_app; left; apply list_elem_of_singleton;
                                 reflexivity | reflexivity].
  - rewrite Hv. cbn [default from_option id]. eexists.
    split; [apply elem_of_app; right; apply elem_of_app; left;
            apply list_elem_of_singleton; reflexivity | reflexivity].
  - rewrite Hl. cbn [default from_option id]. eexists.
    split; [apply elem_of_app; right; apply elem_of_app; right;
            apply list_elem_of_singleton; reflexivity | reflexivity].
Qed.

(** X15. With the voltage capability enabled, a battery voltage below 255 is
    emitted under voltage, multiplied by 100; a raw value of 255 or more
    emits no voltage. *)
Theorem battery_voltage_in_millivolts model msg options meta (raw : Z) :
  Battery.voltage given = Some true ->
  Fz.data msg !! "batteryVoltage"%string = Some (VNumber (inject_Z raw)) ->
  exists payload,
    Battery.batteryConvert given model msg options meta = Returns (Some payload) /\
    (255 <= raw -> payload !! "voltage"%string = None) /\
    (raw < 255 -> payload !! "voltage"%string = Some (VNumber (inject_Z raw * 100))).
Proof.
  intros Hv Hd. eexists. split; [reflexivity|].
  assert (Hkeep : forall p, Battery.alarmStep given msg p !! "voltage"%string
                            = p !! "voltage"%string).
  { intros p. unfold Battery.alarmStep.
    destruct (Fz.data msg !! "batteryAlarmState"%string); [|reflexivity].
    destruct (Battery.flag _); [|reflexivity].
    apply lookup_insert_ne. discriminate. }
  assert (Hpct : forall p, Battery.percentageStep given model msg p !! "voltage"%string
                           = p !! "voltage"%string).
  { intros p. unfold Battery.percentageStep.
    destruct (Battery.below255 msg "batteryPercentageRemaining"); [|reflexivity].
    destruct (Battery.flag _); [|reflexivity].
    apply lookup_insert_ne. discriminate. }
  rewrite Hkeep. unfold Battery.voltageStep.
  rewrite (below255_integer _ _ _ Hd).
  cbv zeta.
  change (Battery.flag (Battery.voltage (Battery.args given)))
    with (default false (Battery.voltage given)).
  rewrite Hv. cbn [default from_option id].
  split.
  - intros Hr. destruct (Z.leb_spec 255 raw); [|lia].
    rewrite Hpct. apply lookup_empty.
  - intros Hr. destruct (Z.leb_spec 255 raw); [lia|].
    destruct (Battery.modelVoltageToPercentage model).
    + rewrite lookup_insert_ne by discriminate. apply lookup_insert_eq.
    + apply lookup_insert_eq.
Qed.

End BatteryExtras.

(** ** Object literals and the update of the zone decoder *)

Lemma foldl_insert_lookup {V} (entries : list (string * V)) (acc : gmap string V) k v :
  foldl (fun obj kv => <[kv.1 := kv.2]> obj) acc entries !! k = Some v ->
  (k, v) ∈ entries \/ acc !! k = Some v.
Proof.
  revert acc. induction entries as [|[k' v'] rest IH]; intros acc Hl; [right; exact Hl|].
  cbn [foldl] in Hl. apply IH in Hl. destruct Hl as [Hl|Hl].
  - left. right. exact Hl.
  - cbn [fst snd] in Hl. destruct (decide (k' = k)) as [->|Hne].
    + rewrite lookup_insert_eq in Hl. injection Hl as ->. left. left.
    + rewrite lookup_insert_ne in Hl by exact Hne. right. exact Hl.
Qed.

Lemma foldl_insert_keys {V} (entries : list (string * V)) (acc : gmap string V) k :
  k ∈ entries.*1 \/ is_Some (acc !! k) ->
  is_Some (foldl (fun obj kv => <[kv.1 := kv.2]> obj) acc entries !! k).
Proof.
  revert acc. induction entries as [|[k' v'] rest IH]; intros acc Hk.
  - destruct Hk as [Hk|Hk]; [apply elem_of_nil in Hk; destruct Hk | exact Hk].
  - cbn [foldl]. apply IH. cbn [fst snd]. cbn [fmap list_fmap] in Hk.
    destruct Hk as [Hk|Hk].
    + apply elem_of_cons in Hk. destruct Hk as [->|Hk]; [|left; exact Hk].
      right. rewrite lookup_insert_eq. eauto.
    + right. destruct (decide (k' = k)) as [->|Hne].
      * rewrite lookup_insert_eq. eauto.
      * rewrite lookup_insert_ne by exact Hne. exact Hk.
Qed.

Lemma objectLiteral_lookup {V} (entries : list (string * V)) k v :
  objectLiteral entries !! k = Some v -> (k, v) ∈ entries.
Proof.
  intros Hl. apply foldl_insert_lookup in Hl. destruct Hl as [Hl|Hl]; [exact Hl|].
  rewrite lookup_empty in Hl. discriminate.
Qed.

Lemma objectLiteral_keys {V} (entries : list (string * V)) k :
  k ∈ entries.*1 -> is_Some (objectLiteral entries !! k).
Proof. intros Hk. apply foldl_insert_keys. left. exact Hk. Qed.

Section ZoneExtras.
Context `{Helpers}.

Lemma statusPayload_has args zoneStatus k :
  k ∈ [Ias.alarm1Name args; Ias.alarm2Name args; "tamper"; "battery_low";
       "supervision_reports"; "restore_reports"; "trouble"; "ac_status"; "test";
       "battery_defect"]%string ->
  is_Some (Ias.statusPayload args zoneStatus !! k).
Proof. intros Hk. apply objectLiteral_keys. exact Hk. Qed.

Lemma attribute_expose_property a :
  Exposes.property (Ias.exposeListAttribute a) = Ias.attributeName a.
Proof. destruct a; reflexivity. Qed.

Lemma zone_expose_property z e :
  Ias.exposeListZone z = Some e -> Exposes.property e = Ias.zoneTypeName z.
Proof. destruct z; intros [= <-]; reflexivity. Qed.

(** X16. For every configuration of [iasZoneAlarm], each exposed descriptor
    answers to a key of the decoder's update.  The update also carries
    the key trouble, which no descriptor of any configuration answers
    to. *)
Theorem zone_descriptors_are_payload_keys args (zoneStatus : Z) :
  Forall (fun expose =>
            is_Some (Ias.statusPayload args zoneStatus !! Exposes.property expose))
         (Ias.iasExposes args) /\
  is_Some (Ias.statusPayload args zoneStatus !! "trouble"%string) /\
  Forall (fun expose => Exposes.property expose ≠ "trouble"%string) (Ias.iasExposes args).
Proof.
  split; [|split].
  - unfold Ias.iasExposes.
    destruct (Ias.exposeListZone (Ias.zoneType args)) as [zone|] eqn:Ez.
    + apply Forall_app. split.
      * destruct (Ias.bothAlarms args) eqn:Eb.
        -- assert (Hg : Ias.isGeneric args = false).
           { unfold Ias.isGeneric. apply bool_decide_eq_false_2. intros Hg.
             rewrite Hg in Ez. discriminate. }
           repeat constructor; cbn [Exposes.property Exposes.withDescription Exposes.newBinary];
             apply statusPayload_has; unfold Ias.alarm1Name, Ias.alarm2Name;
             rewrite Hg, Eb; pick_member.
        -- assert (Hg : Ias.isGeneric args = false).
           { unfold Ias.isGeneric. apply bool_decide_eq_false_2. intros Hg.
             rewrite Hg in Ez. discriminate. }
           repeat constructor. rewrite (zone_expose_property _ _ Ez).
           apply statusPayload_has. unfold Ias.alarm1Name. rewrite Hg, Eb. pick_member.
      * apply Forall_map. apply Forall_forall. intros a Ha.
        apply list_elem_of_In, filter_In in Ha. destruct Ha as [_ Ha].
        apply negb_true_iff in Ha. rewrite attribute_expose_property.
        apply statusPayload_has.
        destruct a; try discriminate Ha; cbn [Ias.attributeName]; pick_member.
    + assert (Hg : Ias.isGeneric args = true).
      { unfold Ias.isGeneric. apply bool_decide_eq_true_2.
        destruct (Ias.zoneType args); try discriminate. reflexivity. }
      apply Forall_map. apply Forall_forall. intros a _.
      rewrite attribute_expose_property. apply statusPayload_has.
      unfold Ias.alarm1Name, Ias.alarm2Name. rewrite Hg.
      destruct a; cbn [Ias.attributeName]; pick_member.
  - apply statusPayload_has. pick_member.
  - unfold Ias.iasExposes.
    destruct (Ias.exposeListZone (Ias.zoneType args)) as [zone|] eqn:Ez.
    + apply Forall_app. split.
      * destruct (Ias.bothAlarms args).
        -- repeat constructor;
             cbn [Exposes.property Exposes.withDescription Exposes.newBinary];
             destruct (Ias.zoneType args); discriminate.
        -- repeat constructor. rewrite (zone_expose_property _ _ Ez).
           destruct (Ias.zoneType args); discriminate.
      * apply Forall_map. apply Forall_forall. intros a _.
        rewrite attribute_expose_property. destruct a; discriminate.
    + apply Forall_map. apply Forall_forall. intros a _.
      rewrite attribute_expose_property. destruct a; discriminate.
Qed.

Lemma testbit_low z z' k :
  z mod 1024 = z' mod 1024 -> 0 <= k < 10 -> Z.testbit z k = Z.testbit z' k.
Proof.
  intros Hm Hk. change 1024 with (2 ^ 10) in Hm.
  rewrite <- (Z.mod_pow2_bits_low z 10 k) by lia.
  rewrite <- (Z.mod_pow2_bits_low z' 10 k) by lia.
  rewrite Hm. reflexivity.
Qed.

(** X17. The update of the zone decoder depends on the low ten bits of the
    zone status only. *)
Theorem zone_status_reads_low_ten_bits args model msg msg' options meta rt (z z' : Z) :
  Ias.zoneStatusOf msg = VNumber (inject_Z z) ->
  Ias.zoneStatusOf msg' = VNumber (inject_Z z') ->
  z mod 1024 = z' mod 1024 ->
  (Ias.iasConvert args model msg options meta rt).1
  = (Ias.iasConvert args model msg' options meta rt).1.
Proof.
  intros Hz Hz' Hm. unfold Ias.iasConvert. cbn [fst]. rewrite Hz, Hz'.
  rewrite !statusPayload_bits.
  rewrite !(testbit_low z z' _ Hm) by lia. reflexivity.
Qed.

(** X18. A message without the zone status under the key its type selects
    (zonestatus for a status change notification, zoneStatus otherwise)
    is decoded as status 0: the update is returned with every flag
    false. *)
Theorem zone_status_missing_is_all_clear args model msg options meta rt :
  (Fz.type msg = "commandStatusChangeNotification"%string /\
   Fz.data msg !! "zonestatus"%string = None) \/
  (Fz.type msg ≠ "commandStatusChangeNotification"%string /\
   Fz.data msg !! "zoneStatus"%string = None) ->
  exists payload,
    (Ias.iasConvert args model msg options meta rt).1 = Returns (Some payload) /\
    is_Some (payload !! Ias.alarm1Name args) /\
    forall k v, payload !! k = Some v -> v = VBool false.
Proof.
  intros Hmsg.
  assert (Hz : Ias.zoneStatusOf msg = VUndefined).
  { unfold Ias.zoneStatusOf. destruct Hmsg as [[Ht Hd]|[Ht Hd]].
    - rewrite Ht. cbn. rewrite Hd. reflexivity.
    - apply String.eqb_neq in Ht. rewrite Ht, Hd. reflexivity. }
  unfold Ias.iasConvert. cbn [fst]. rewrite Hz. eexists. split; [reflexivity|].
  split; [apply statusPayload_has; pick_member|].
  intros k v Hl. apply objectLiteral_lookup in Hl.
  change (toInt32 VUndefined) with 0 in Hl.
  rewrite !elem_of_cons, elem_of_nil in Hl.
  repeat (destruct Hl as [Hl|Hl]; [injection Hl as _ ->; reflexivity|]).
  destruct Hl.
Qed.

End ZoneExtras.

(** ** The reporting table of [electricityMeter] *)

Section MeterExtras.
Context `{Helpers} `{Io.Transport}.

(** X19. After the deletions of [electricityMeter], no measurement switched
    off with [false] is left in the reporting table; the clusters of the
    table are the ones the cluster choice keeps, in order; and the power
    entry of the metering cluster is left only when the cluster choice is
    'metering'. *)
Theorem disabled_measurements_are_not_configured (given : Meter.ElectricityMeterArgs) :
  Forall (fun entry =>
            Forall (fun property => Meter.isDisabled (Meter.forced property.2) = false)
                   entry.2)
         (Meter.configureLookup given) /\
  map fst (Meter.configureLookup given)
  = match Meter.clusterChoice given with
    | Meter.both => ["haElectricalMeasurement"; "seMetering"]
    | Meter.metering => ["seMetering"]
    | Meter.electrical => ["haElectricalMeasurement"]
    end%string /\
  (forall properties,
     ("seMetering"%string, properties) ∈ Meter.configureLookup given ->
     "power"%string ∈ properties.*1 ->
     Meter.clusterChoice given = Meter.metering).
Proof.
  unfold Meter.configureLookup, Meter.clusterChoice, Meter.configureLookup0.
  destruct given as [[[| |]|] current power voltage energy];
    cbn [Meter.cluster Meter.current Meter.power Meter.voltage Meter.energy
         default from_option id];
    destruct current, power, voltage, energy;
    cbn -[elem_of];
    (split; [repeat constructor|]);
    (split; [reflexivity|]);
    intros properties Hin Hp; try reflexivity; exfalso;
    rewrite ?elem_of_cons, ?elem_of_nil in Hin;
    repeat match type of Hin with
           | _ \/ _ => destruct Hin as [Hin|Hin]
           | False => destruct Hin
           | (_, _) = (_, _) => try discriminate Hin; injection Hin as ->
           end;
    cbn in Hp; rewrite ?elem_of_cons, ?elem_of_nil in Hp;
    repeat match type of Hp with
           | _ \/ _ => destruct Hp as [Hp|Hp]
           | False => destruct Hp
           | _ = _ => discriminate Hp
           end.
Qed.

(** X20. For a measurement with forced constants whose multiplier is not
    zero, the configurator sends nothing: it stores the divisor and the
    multiplier (1 for one left out) in the endpoint's cache, touching no
    other entry, and derives the reportable change as the nominal change
    times divisor over multiplier, the quotient and the product rounded
    as doubles, as the pair [0, change] for currentSummDelivered. *)
Theorem forced_constants_replace_the_read (given : Meter.ElectricityMeterArgs)
    endpoint clusterName property md w :
  Meter.forced property = Meter.Given md ->
  Meter.divisorAttribute property ≠ Meter.multiplierAttribute property ->
  ~ (default 1%Q (Meter.multiplier md) == 0)%Q ->
  let d := default 1%Q (Meter.divisor md) in
  let m := default 1%Q (Meter.multiplier md) in
  exists c,
    Meter.propertyItem endpoint clusterName property w
    = (Returns {| Reporting.attribute := Reporting.AttributeName (Meter.attribute property);
                  Reporting.min := TimeName "10_SECONDS";
                  Reporting.max := TimeName "MAX";
                  Reporting.change :=
                    if String.eqb (Meter.attribute property) "currentSummDelivered"
                    then Reporting.ChangePair 0
                           (jsMultiply (Meter.change property) (jsDivide d m))
                    else Reporting.ChangeNumber
                           (jsMultiply (Meter.change property) (jsDivide d m)) |},
       {| Io.sent := Io.sent w; Io.cache := c |}) /\
    c !! (Zh.ID endpoint, clusterName, Meter.divisorAttribute property) = Some (VNumber d) /\
    c !! (Zh.ID endpoint, clusterName, Meter.multiplierAttribute property)
    = Some (VNumber m) /\
    (forall key, key ≠ (Zh.ID endpoint, clusterName, Meter.divisorAttribute property) ->
                 key ≠ (Zh.ID endpoint, clusterName, Meter.multiplierAttribute property) ->
                 c !! key = Io.cache w !! key).
Proof.
  intros Hf Hne _ d m.
  exists (<[(Zh.ID endpoint, clusterName, Meter.multiplierAttribute property) := VNumber m]>
            (<[(Zh.ID endpoint, clusterName, Meter.divisorAttribute property) := VNumber d]>
               (Io.cache w))).
  assert (Hd : (<[(Zh.ID endpoint, clusterName, Meter.multiplierAttribute property) := VNumber m]>
                  (<[(Zh.ID endpoint, clusterName, Meter.divisorAttribute property) := VNumber d]>
                     (Io.cache w)))
               !! (Zh.ID endpoint, clusterName, Meter.divisorAttribute property)
               = Some (VNumber d)).
  { rewrite lookup_insert_ne by congruence. apply lookup_insert_eq. }
  split; [|split; [exact Hd|split; [apply lookup_insert_eq|]]].
  - unfold Meter.propertyItem. rewrite Hf.
    unfold Io.bind, Io.saveClusterAttributeKeyValue, Io.getClusterAttributeValue, Io.lift,
      Io.ret, Io.saveAll.
    cbn [foldl fst snd Io.cache Io.sent]. fold d m.
    rewrite Hd. cbn [default from_option id assertNumber].
    rewrite lookup_insert_eq. cbn [default from_option id assertNumber].
    reflexivity.
  - intros key Hk1 Hk2. rewrite !lookup_insert_ne by congruence. reflexivity.
Qed.

Lemma configureLookup_first (given : Meter.ElectricityMeterArgs) :
  exists properties rest,
    Meter.configureLookup given
    = ((match Meter.clusterChoice given with
        | Meter.metering => "seMetering"
        | _ => "haElectricalMeasurement"
        end)%string, properties) :: rest.
Proof.
  unfold Meter.configureLookup, Meter.clusterChoice, Meter.configureLookup0.
  destruct given as [[[| |]|] current power voltage energy];
    cbn [Meter.cluster Meter.current Meter.power Meter.voltage Meter.energy
         default from_option id];
    destruct current, power, voltage, energy; cbn; eexists; eexists; reflexivity.
Qed.

(** X21. The configurator of [electricityMeter] throws, with nothing sent,
    when no endpoint of the device lists the first cluster of its table
    (seMetering for the cluster choice 'metering', haElectricalMeasurement
    otherwise), whatever measurements are switched off. *)
Theorem meter_configure_needs_its_first_cluster (given : Meter.ElectricityMeterArgs)
    device coord w message :
  getEndpointsWithInputCluster device
    (Zh.ClusterName (match Meter.clusterChoice given with
                     | Meter.metering => "seMetering"
                     | _ => "haElectricalMeasurement"
                     end)) = Throws message ->
  Meter.meterConfigure given device coord w = (Throws message, w).
Proof.
  intros Hnone. unfold Meter.meterConfigure.
  destruct (configureLookup_first given) as [properties [rest ->]].
  cbn [Io.forOf]. unfold Io.bind at 1 2, Io.lift. rewrite Hnone. reflexivity.
Qed.

End MeterExtras.

(** ** Reporting times, quirks, device announce and the warning byte *)

(** X22. [convertReportingConfigTime] throws on a string exactly when the
    string is neither a key of [timeLookup] nor a member inherited from
    the prototype of objects. *)
Theorem reporting_time_rejected_exactly_when_unknown name :
  (exists message, convertReportingConfigTime (TimeName name) = Throws message)
  <-> ((name ∉ knownTimeNames) /\ inherited name = false).
Proof.
  split.
  - intros [message Hm]. unfold convertReportingConfigTime, jsIn, hasOwn in Hm.
    destruct (bool_decide (is_Some (timeLookup !! name))) eqn:Eo; [discriminate|].
    destruct (inherited name) eqn:Ei; [discriminate|].
    split; [|reflexivity].
    intros Hk. apply known_time_names in Hk.
    apply bool_decide_eq_false in Eo. contradiction.
  - intros [Hk Hi]. eexists. apply unknown_time_is_rejected; assumption.
Qed.

(** X23. Every symbolic time resolves to a whole number of seconds between 0
    and 65000, which fits the sixteen bits of a reporting interval. *)
Theorem known_times_fit_sixteen_bits name :
  name ∈ knownTimeNames ->
  exists s : Z,
    convertReportingConfigTime (TimeName name) = Returns (Seconds (inject_Z s)) /\
    0 <= s <= 65000 /\ s < 2 ^ 16.
Proof.
  unfold knownTimeNames. rewrite !elem_of_cons, elem_of_nil.
  intros [->|[->|[->|[->|[->|[->|[]]]]]]];
    [exists 65000|exists 3600|exists 1800|exists 60|exists 10|exists 0];
    (split; [reflexivity|]); lia.
Qed.

Section QuirkProperties.
Context `{Quirk.ClusterTable}.

(** X24. [quirkCheckinInterval] always saves the device and never throws:
    where [convertReportingConfigTime] returns a value the interval
    stored is that value, and where it throws, on an unknown name, the
    interval stored is undefined. *)
Theorem checkin_interval_is_not_validated timeout d :
  let after := Quirk.quirkCheckinInterval timeout d in
  Quirk.saves after = S (Quirk.saves d) /\
  (forall r, convertReportingConfigTime timeout = Returns r ->
             Quirk.checkinInterval after = Some (Quirk.IntervalOf r)) /\
  (forall message, convertReportingConfigTime timeout = Throws message ->
                   Quirk.checkinInterval after = Some Quirk.IntervalUndefined).
Proof.
  intros after. subst after. split; [reflexivity|].
  unfold Quirk.quirkCheckinInterval, Quirk.save, Quirk.timeLookupAt,
    convertReportingConfigTime; cbn [Quirk.checkinInterval].
  destruct timeout as [n|name].
  - split; [intros r [= <-]; reflexivity | discriminate].
  - destruct (jsIn name timeLookup); cbn [negb].
    + split; [intros r [= <-]; reflexivity | discriminate].
    + split; [discriminate | reflexivity].
Qed.

Lemma addClusters_grows d clusters present :
  exists added,
    (Quirk.addClusters d clusters present).2 = present ++ added /\
    (NoDup present -> NoDup (present ++ added)) /\
    Forall (fun id => exists c, c ∈ clusters /\ Quirk.clusterID d c = Returns id) added.
Proof.
  revert present. induction clusters as [|c rest IH]; intros present.
  - exists []. rewrite app_nil_r. split; [reflexivity|]. split; [tauto | constructor].
  - cbn [Quirk.addClusters].
    destruct (Quirk.clusterID d c) as [id|message] eqn:Ec.
    + case_bool_decide as Hin.
      * destruct (IH present) as [added [Hadd [Hnd Hreq]]].
        exists added. split; [exact Hadd|]. split; [exact Hnd|].
        eapply Forall_impl; [exact Hreq|]. simpl. intros x [c' [Hc' Hx]].
        exists c'. split; [right; exact Hc' | exact Hx].
      * destruct (IH (present ++ [id])) as [added [Hadd [Hnd Hreq]]].
        exists (id :: added). rewrite Hadd, <- app_assoc. split; [reflexivity|].
        split.
        -- intros Hp. rewrite <- app_assoc in Hnd. apply Hnd.
           apply NoDup_app. split; [exact Hp|]. split.
           ++ intros x Hx Hx'. apply list_elem_of_singleton in Hx'. subst x. contradiction.
           ++ apply NoDup_singleton.
        -- constructor.
           ++ exists c. split; [left | exact Ec].
           ++ eapply Forall_impl; [exact Hreq|]. simpl. intros x [c' [Hc' Hx]].
              exists c'. split; [right; exact Hc' | exact Hx].
    + exists []. rewrite app_nil_r. split; [reflexivity|]. split; [tauto | constructor].
Qed.

Lemma addClusters_covers d clusters present :
  (Quirk.addClusters d clusters present).1 = Returns tt ->
  (forall id, id ∈ present -> id ∈ (Quirk.addClusters d clusters present).2) /\
  Forall (fun c => exists id, Quirk.clusterID d c = Returns id /\
                              id ∈ (Quirk.addClusters d clusters present).2) clusters.
Proof.
  revert present. induction clusters as [|c rest IH]; intros present Hret.
  - split; [tauto | constructor].
  - cbn [Quirk.addClusters] in *.
    destruct (Quirk.clusterID d c) as [id|message] eqn:Ec; [|discriminate].
    destruct (IH _ Hret) as [Hkeep Hall].
    split.
    + intros x Hx. apply Hkeep. case_bool_decide; [exact Hx|].
      apply elem_of_app. left. exact Hx.
    + constructor; [|exact Hall].
      exists id. split; [exact Ec|]. apply Hkeep.
      case_bool_decide as Hin; [exact Hin|]. apply elem_of_app. right. left.
Qed.

Lemma addClusters_settled d clusters present :
  Forall (fun c => exists id, Quirk.clusterID d c = Returns id /\ id ∈ present) clusters ->
  Quirk.addClusters d clusters present = (Returns tt, present).
Proof.
  induction 1 as [|c rest [id [Hc Hin]] _ IH]; [reflexivity|].
  cbn [Quirk.addClusters]. rewrite Hc.
  rewrite bool_decide_eq_true_2 by exact Hin. exact IH.
Qed.

Lemma addClusters_twice d clusters present :
  (Quirk.addClusters d clusters present).1 = Returns tt ->
  Quirk.addClusters d clusters (Quirk.addClusters d clusters present).2
  = (Returns tt, (Quirk.addClusters d clusters present).2).
Proof.
  intros Hret. apply addClusters_settled. apply addClusters_covers, Hret.
Qed.

Lemma addClusters_by_manufacturer d d' clusters present :
  Quirk.manufacturerID d' = Quirk.manufacturerID d ->
  Quirk.addClusters d' clusters present = Quirk.addClusters d clusters present.
Proof.
  intros Hm. revert present. induction clusters as [|c rest IH]; intros present; [reflexivity|].
  cbn [Quirk.addClusters].
  replace (Quirk.clusterID d' c) with (Quirk.clusterID d c)
    by (unfold Quirk.clusterID; rewrite Hm; reflexivity).
  destruct (Quirk.clusterID d c); [apply IH | reflexivity].
Qed.

Lemma find_replaceFound endpointID changed all found :
  List.find (fun e => Quirk.ID e =? endpointID) all = Some found ->
  Quirk.ID changed = endpointID ->
  List.find (fun e => Quirk.ID e =? endpointID) (Quirk.replaceFound endpointID changed all)
  = Some changed.
Proof.
  intros Hf Hid. induction all as [|e rest IH]; [discriminate|].
  cbn [List.find Quirk.replaceFound] in *.
  destruct (Quirk.ID e =? endpointID) eqn:Ee.
  - cbn [List.find]. rewrite Hid, Z.eqb_refl. reflexivity.
  - cbn [List.find]. rewrite Ee. apply IH, Hf.
Qed.

Lemma replaceFound_twice endpointID a b all :
  Quirk.ID a = endpointID ->
  Quirk.replaceFound endpointID b (Quirk.replaceFound endpointID a all)
  = Quirk.replaceFound endpointID b all.
Proof.
  intros Ha. induction all as [|e rest IH]; [reflexivity|].
  cbn [Quirk.replaceFound].
  destruct (Quirk.ID e =? endpointID) eqn:Ee; cbn [Quirk.replaceFound].
  - rewrite Ha, Z.eqb_refl. reflexivity.
  - rewrite Ee. f_equal. exact IH.
Qed.

(** X25. When the endpoint exists and the configurator returns, which it
    does when every requested cluster name resolves,
    [quirkAddEndpointCluster] saves the device once; the endpoint's input
    and output cluster lists keep their former entries in place and gain,
    at the end, only identifiers that were requested; every requested
    identifier is listed afterwards; and a list without duplicates stays
    without duplicates. *)
Theorem quirk_adds_the_requested_clusters args d endpoint :
  Quirk.getEndpoint d (Quirk.endpointID args) = Some endpoint ->
  (Quirk.quirkAddEndpointCluster args d).1 = Returns tt ->
  let after := (Quirk.quirkAddEndpointCluster args d).2 in
  exists changed moreInputs moreOutputs,
    Quirk.getEndpoint after (Quirk.endpointID args) = Some changed /\
    Quirk.saves after = S (Quirk.saves d) /\
    Quirk.inputClusters changed = Quirk.inputClusters endpoint ++ moreInputs /\
    Quirk.outputClusters changed = Quirk.outputClusters endpoint ++ moreOutputs /\
    Forall (fun c => exists id, Quirk.clusterID d c = Returns id /\
                                id ∈ Quirk.inputClusters changed)
           (default [] (Quirk.requestedInputClusters args)) /\
    Forall (fun c => exists id, Quirk.clusterID d c = Returns id /\
                                id ∈ Quirk.outputClusters changed)
           (default [] (Quirk.requestedOutputClusters args)) /\
    Forall (fun id => exists c, c ∈ default [] (Quirk.requestedInputClusters args) /\
                                Quirk.clusterID d c = Returns id) moreInputs /\
    Forall (fun id => exists c, c ∈ default [] (Quirk.requestedOutputClusters args) /\
                                Quirk.clusterID d c = Returns id) moreOutputs /\
    (NoDup (Quirk.inputClusters endpoint) -> NoDup (Quirk.inputClusters changed)) /\
    (NoDup (Quirk.outputClusters endpoint) -> NoDup (Quirk.outputClusters changed)).
Proof.
  intros Hfound. unfold Quirk.quirkAddEndpointCluster. rewrite Hfound.
  destruct (Quirk.addClusters d (default [] (Quirk.requestedInputClusters args))
              (Quirk.inputClusters endpoint)) as [[[]|e1] inputs] eqn:Ein;
    cbv beta iota zeta; [|discriminate].
  destruct (Quirk.addClusters d (default [] (Quirk.requestedOutputClusters args))
              (Quirk.outputClusters endpoint)) as [[[]|e2] outputs] eqn:Eout;
    cbv beta iota zeta; [|discriminate].
  intros _. cbn [snd].
  destruct (addClusters_grows d (default [] (Quirk.requestedInputClusters args))
              (Quirk.inputClusters endpoint)) as [moreInputs [Hi [Hin Hri]]].
  destruct (addClusters_grows d (default [] (Quirk.requestedOutputClusters args))
              (Quirk.outputClusters endpoint)) as [moreOutputs [Ho [Hon Hro]]].
  pose proof (addClusters_covers d (default [] (Quirk.requestedInputClusters args))
                (Quirk.inputClusters endpoint)) as Hci.
  pose proof (addClusters_covers d (default [] (Quirk.requestedOutputClusters args))
                (Quirk.outputClusters endpoint)) as Hco.
  rewrite Ein in Hi, Hci. rewrite Eout in Ho, Hco. cbn [fst snd] in *.
  eexists. exists moreInputs, moreOutputs.
  split.
  { unfold Quirk.getEndpoint, Quirk.save, Quirk.withEndpoint. cbn [Quirk.endpoints].
    eapply find_replaceFound; [exact Hfound|]. cbn [Quirk.ID].
    apply find_some in Hfound. destruct Hfound as [_ Hid]. apply Z.eqb_eq, Hid. }
  cbn [Quirk.inputClusters Quirk.outputClusters].
  split; [reflexivity|]. split; [exact Hi|]. split; [exact Ho|].
  split; [apply Hci; reflexivity|]. split; [apply Hco; reflexivity|].
  split; [exact Hri|]. split; [exact Hro|].
  rewrite Hi, Ho. split; assumption.
Qed.

(** X26. Running the configurator of [quirkAddEndpointCluster] a second time
    returns again and changes no endpoint. *)
Theorem quirk_add_is_idempotent args d :
  (Quirk.quirkAddEndpointCluster args d).1 = Returns tt ->
  let once := (Quirk.quirkAddEndpointCluster args d).2 in
  (Quirk.quirkAddEndpointCluster args once).1 = Returns tt /\
  Quirk.endpoints (Quirk.quirkAddEndpointCluster args once).2 = Quirk.endpoints once.
Proof.
  unfold Quirk.quirkAddEndpointCluster at 1 2.
  destruct (Quirk.getEndpoint d (Quirk.endpointID args)) as [endpoint|] eqn:Hfound.
  - destruct (Quirk.addClusters d (default [] (Quirk.requestedInputClusters args))
                (Quirk.inputClusters endpoint)) as [[[]|e1] inputs] eqn:Ein;
      cbv beta iota zeta; [|discriminate].
    destruct (Quirk.addClusters d (default [] (Quirk.requestedOutputClusters args))
                (Quirk.outputClusters endpoint)) as [[[]|e2] outputs] eqn:Eout;
      cbv beta iota zeta; [|discriminate].
    intros _. cbn [snd].
    set (changed := {| Quirk.ID := Quirk.ID endpoint; Quirk.inputClusters := inputs;
                       Quirk.outputClusters := outputs |}).
    set (once := Quirk.save (Quirk.withEndpoint d (Quirk.endpointID args) changed)).
    assert (Hid : Quirk.ID changed = Quirk.endpointID args).
    { pose proof Hfound as Hf. apply find_some in Hf. destruct Hf as [_ Hf].
      apply Z.eqb_eq, Hf. }
    assert (Hget : Quirk.getEndpoint once (Quirk.endpointID args) = Some changed).
    { unfold Quirk.getEndpoint. subst once. cbn [Quirk.endpoints Quirk.save Quirk.withEndpoint].
      eapply find_replaceFound; [exact Hfound | exact Hid]. }
    unfold Quirk.quirkAddEndpointCluster. rewrite Hget.
    rewrite !(addClusters_by_manufacturer d once) by reflexivity.
    cbn [Quirk.inputClusters Quirk.outputClusters changed].
    pose proof (addClusters_twice d (default [] (Quirk.requestedInputClusters args))
                  (Quirk.inputClusters endpoint)) as Hti.
    pose proof (addClusters_twice d (default [] (Quirk.requestedOutputClusters args))
                  (Quirk.outputClusters endpoint)) as Hto.
    rewrite Ein in Hti. rewrite Eout in Hto. cbn [fst snd] in Hti, Hto.
    rewrite (Hti eq_refl), (Hto eq_refl).
    split; [reflexivity|].
    cbn [snd Quirk.endpoints Quirk.save Quirk.withEndpoint]. subst once.
    cbn [Quirk.endpoints Quirk.save Quirk.withEndpoint Quirk.ID].
    rewrite replaceFound_twice by exact Hid. reflexivity.
  - intros _. cbv zeta. cbn [snd].
    unfold Quirk.quirkAddEndpointCluster. rewrite Hfound. split; reflexivity.
Qed.

Lemma addClusters_throws d clusters present message :
  (Quirk.addClusters d clusters present).1 = Throws message ->
  exists c, c ∈ clusters /\ Quirk.clusterID d c = Throws message.
Proof.
  revert present. induction clusters as [|c rest IH]; intros present; [discriminate|].
  cbn [Quirk.addClusters].
  destruct (Quirk.clusterID d c) as [id|e] eqn:Ec.
  - intros Hr. destruct (IH _ Hr) as [c' [Hin Hc']]. exists c'. split; [right|]; assumption.
  - intros [= ->]. exists c. split; [left | exact Ec].
Qed.

(** X27. [quirkAddEndpointCluster] on a device without the endpoint returns
    and leaves the device as it was, unsaved.  When it throws, the
    endpoint exists, a requested cluster name does not resolve, and the
    device is not saved. *)
Theorem quirk_saves_only_a_completed_change args d :
  let run := Quirk.quirkAddEndpointCluster args d in
  (Quirk.getEndpoint d (Quirk.endpointID args) = None -> run = (Returns tt, d)) /\
  (forall message, run.1 = Throws message ->
     Quirk.saves run.2 = Quirk.saves d /\
     is_Some (Quirk.getEndpoint d (Quirk.endpointID args)) /\
     exists c, (c ∈ default [] (Quirk.requestedInputClusters args) \/
                c ∈ default [] (Quirk.requestedOutputClusters args)) /\
               Quirk.clusterID d c = Throws message).
Proof.
  cbv zeta. unfold Quirk.quirkAddEndpointCluster.
  destruct (Quirk.getEndpoint d (Quirk.endpointID args)) as [endpoint|] eqn:Hfound.
  - split; [discriminate|]. intros message.
    pose proof (addClusters_throws d (default [] (Quirk.requestedInputClusters args))
                  (Quirk.inputClusters endpoint)) as Hti.
    pose proof (addClusters_throws d (default [] (Quirk.requestedOutputClusters args))
                  (Quirk.outputClusters endpoint)) as Hto.
    destruct (Quirk.addClusters d (default [] (Quirk.requestedInputClusters args))
                (Quirk.inputClusters endpoint)) as [[[]|e1] inputs];
      cbv beta iota zeta.
    + destruct (Quirk.addClusters d (default [] (Quirk.requestedOutputClusters args))
                  (Quirk.outputClusters endpoint)) as [[[]|e2] outputs];
        cbv beta iota zeta; [discriminate|].
      cbn [fst snd]. intros [= ->]. split; [reflexivity|]. split; [eauto|].
      destruct (Hto message eq_refl) as [c [Hin Hc]]. exists c. tauto.
    + cbn [fst snd]. intros [= ->]. split; [reflexivity|]. split; [eauto|].
      destruct (Hti message eq_refl) as [c [Hin Hc]]. exists c. tauto.
  - split; [reflexivity | discriminate].
Qed.

End QuirkProperties.


(** ** Device announce *)

Section AnnounceProperties.
Context `{Io.Transport}.

Lemma announce_endpoint endpoint (reportings : list Announce.ConfiguredReporting) w :
  exists o done,
    Io.forOf reportings (fun c =>
      Io.send (Announce.ID endpoint) (Zh.ClusterName (Announce.clusterName c))
        (Announce.requestOf endpoint c)) w
    = (o, {| Io.sent := Io.sent w ++ map (Announce.requestOf endpoint) done;
             Io.cache := Io.cache w |}) /\
    (o = Returns tt -> done = reportings) /\
    (forall message, o = Throws message ->
       exists before c, done = before ++ [c] /\
         done `prefix_of` reportings /\
         Io.reply (Io.sent w ++ map (Announce.requestOf endpoint) before)
                  (Announce.requestOf endpoint c) = Throws message) /\
    done `prefix_of` reportings.
Proof.
  revert w. induction reportings as [|c rest IH]; intros w.
  - exists (Returns tt), []. cbn [Io.forOf map]. rewrite app_nil_r. unfold Io.ret.
    destruct w. split; [reflexivity|]. split; [reflexivity|]. split; [discriminate|].
    reflexivity.
  - cbn [Io.forOf]. unfold Io.bind at 1.
    destruct (Io.reply (Io.sent w) (Announce.requestOf endpoint c)) as [values|message] eqn:Er.
    + rewrite (send_returns _ _ _ _ values Er eq_refl).
      destruct (IH {| Io.sent := Io.sent w ++ [Announce.requestOf endpoint c];
                      Io.cache := Io.cache w |}) as [o [done [Hrun [Hret [Hthrow Hpre]]]]].
      cbn [Io.sent Io.cache] in *.
      exists o, (c :: done). rewrite Hrun. cbn [map]. rewrite <- app_assoc. cbn [app].
      split; [reflexivity|]. split; [intros Ho; f_equal; apply Hret, Ho|].
      split.
      * intros m Ho. destruct (Hthrow m Ho) as [before [c' [Hd [Hp Hreply]]]].
        exists (c :: before), c'. split; [rewrite Hd; reflexivity|].
        split; [apply prefix_cons, Hpre|].
        cbn [map]. rewrite <- app_assoc in Hreply. exact Hreply.
      * apply prefix_cons, Hpre.
    + rewrite (send_throws _ _ _ _ message Er).
      exists (Throws message), [c]. cbn [map].
      split; [reflexivity|]. split; [discriminate|].
      split.
      * intros m [= <-]. exists [], c. split; [reflexivity|].
        split; [exists rest; reflexivity|]. cbn [map]. rewrite app_nil_r. exact Er.
      * exists rest. reflexivity.
Qed.

(** X28. The event handler of [reconfigureReportingsOnDeviceAnnounce] does
    nothing on an event other than deviceAnnounce.  On deviceAnnounce it
    sends the reporting configurations of the device's endpoints in
    order, one request per configured reporting: all of them when it
    returns, and, when a request faults, those up to and including the
    faulting one. *)
Theorem announce_reconfigures_in_order type endpoints w :
  (type ≠ "deviceAnnounce"%string -> Announce.onEvent type endpoints w = (Returns tt, w)) /\
  (type = "deviceAnnounce"%string ->
   exists o done,
     Announce.onEvent type endpoints w
     = (o, {| Io.sent := Io.sent w ++ done; Io.cache := Io.cache w |}) /\
     done `prefix_of` Announce.allRequests endpoints /\
     (o = Returns tt -> done = Announce.allRequests endpoints) /\
     (forall message, o = Throws message ->
        exists before r, done = before ++ [r] /\
          Io.reply (Io.sent w ++ before) r = Throws message)).
Proof.
  unfold Announce.onEvent. split.
  - intros Ht. apply String.eqb_neq in Ht. rewrite Ht. reflexivity.
  - intros ->. rewrite String.eqb_refl.
    revert w. induction endpoints as [|endpoint rest IH]; intros w.
    + exists (Returns tt), []. cbn [Io.forOf]. rewrite app_nil_r. unfold Io.ret.
      destruct w. split; [reflexivity|]. split; [reflexivity|].
      split; [reflexivity|discriminate].
    + cbn [Io.forOf]. unfold Io.bind at 1.
      destruct (announce_endpoint endpoint (Announce.configuredReportings endpoint) w)
        as [o [done [Hrun [Hret [Hthrow Hpre]]]]].
      rewrite Hrun. unfold Announce.allRequests. cbn [flat_map].
      destruct o as [[]|message].
      * rewrite (Hret eq_refl).
        destruct (IH {| Io.sent := Io.sent w ++ map (Announce.requestOf endpoint)
                                     (Announce.configuredReportings endpoint);
                        Io.cache := Io.cache w |}) as [o' [done' [Hrun' [Hpre' [Hret' Hthrow']]]]].
        cbn [Io.sent Io.cache] in *.
        exists o', (map (Announce.requestOf endpoint) (Announce.configuredReportings endpoint)
                      ++ done').
        rewrite Hrun', <- app_assoc. split; [reflexivity|].
        split; [apply prefix_app, Hpre'|].
        split; [intros Ho; f_equal; apply Hret', Ho|].
        intros m Ho. destruct (Hthrow' m Ho) as [before [r [Hd Hreply]]].
        exists (map (Announce.requestOf endpoint) (Announce.configuredReportings endpoint)
                  ++ before), r.
        split; [rewrite Hd, <- app_assoc; reflexivity|].
        rewrite <- app_assoc in Hreply. exact Hreply.
      * exists (Throws message), (map (Announce.requestOf endpoint) done).
        split; [reflexivity|].
        split.
        { destruct Hpre as [more ->]. rewrite map_app, <- app_assoc.
          eexists. reflexivity. }
        split; [discriminate|].
        intros m [= <-]. destruct (Hthrow message eq_refl) as [before [c [Hd [_ Hreply]]]].
        exists (map (Announce.requestOf endpoint) before), (Announce.requestOf endpoint c).
        split; [rewrite Hd, map_app; reflexivity | exact Hreply].
Qed.

End AnnounceProperties.

(** ** Warning byte *)

Lemma jsShiftLeft_small a k :
  0 <= a < 8 -> 0 <= k < 8 -> jsShiftLeft a k = a * 2 ^ k.
Proof.
  intros Ha Hk. unfold jsShiftLeft.
  rewrite (wrapInt32_small a) by lia.
  rewrite Z.mod_small by lia.
  rewrite Z.shiftl_mul_pow2 by lia.
  apply wrapInt32_small.
  assert (0 < 2 ^ k <= 2 ^ 7) by (split; [lia | apply Z.pow_le_mono_r; lia]).
  change (2 ^ 7) with 128 in *. change (2 ^ 31) with 2147483648. nia.
Qed.

(** X29. The info byte of [iasWarning] fits eight bits and determines the
    mode, the strobe bit and the level it was built from, in both
    orderings of the payload, for modes 0 to 6, strobe 0 or 1 and levels
    0 to 3. *)
Theorem warning_byte_is_injective reverse (m s l m' s' l' : Z) :
  0 <= m <= 6 -> 0 <= s <= 1 -> 0 <= l <= 3 ->
  0 <= m' <= 6 -> 0 <= s' <= 1 -> 0 <= l' <= 3 ->
  0 <= Warning.warningInfo reverse m s l < 256 /\
  (Warning.warningInfo reverse m s l = Warning.warningInfo reverse m' s' l' ->
   m = m' /\ s = s' /\ l = l').
Proof.
  intros Hm Hs Hl Hm' Hs' Hl'. unfold Warning.warningInfo.
  rewrite !jsShiftLeft_small by lia.
  change (2 ^ 4) with 16. change (2 ^ 6) with 64. change (2 ^ 2) with 4.
  destruct reverse; split; lia.
Qed.

Section WarningProperties.
Context `{Warning.Lookup}.

(** X30. A warning that carries strobe_level always throws: evaluating it
    needs the identifier [utils], which the file does not define.  Hence
    every payload [iasWarning] builds has strobe level 1. *)
Theorem strobe_level_never_reaches_the_device reversePayload value :
  (forall chosen, Warning.strobe_level value = Some chosen ->
     Warning.warningPayload reversePayload value = Throws "utils is not defined") /\
  (forall payload, Warning.warningPayload reversePayload value = Returns payload ->
     Warning.strobe_level value = None /\ Warning.strobelevel payload = 1).
Proof.
  unfold Warning.warningPayload. split.
  - intros chosen Hs. rewrite Hs. reflexivity.
  - intros payload. destruct (Warning.strobe_level value); [discriminate|].
    destruct (Warning.getFromLookup _ Warning.warningMode); [|discriminate].
    destruct (Warning.getFromLookup _ Warning.level); [|discriminate].
    intros [= <-]. split; reflexivity.
Qed.

End WarningProperties.



(** * The properties on sample values *)

#[local] Existing Instance Sample.helpers.
#[local] Existing Instance Sample.transport.

(** C1 at divisor 10 for power and 5 for energy, multiplier 1 for both. *)
Lemma metering_pairs_must_match_witness :
  (exists message, Meter.electricityMeter (Sample.meterWith 10 5) = Throws message) /\
  (forall device coordinatorEndpoint,
     exists message,
       buildAndConfigureMeter (Sample.meterWith 10 5) device coordinatorEndpoint
       = (Throws message, Io.emptyWorld)) /\
  (exists extend, Meter.electricityMeter (Sample.meterWith 10 10) = Returns extend).
Proof.
  split; [|split].
  - apply (metering_pairs_must_match (Sample.meterWith 10 5) _ _ eq_refl eq_refl eq_refl).
    simpl. intros [Hd _]. vm_compute in Hd. discriminate Hd.
  - apply (metering_pairs_must_match (Sample.meterWith 10 5) _ _ eq_refl eq_refl eq_refl).
    simpl. intros [Hd _]. vm_compute in Hd. discriminate Hd.
  - apply (metering_pairs_must_match (Sample.meterWith 10 10) _ _ eq_refl eq_refl eq_refl).
    simpl. split; reflexivity.
Defined.

(** With matching pairs the configurator runs and talks to the device. *)
Example matching_meter_configures :
  exists world,
    buildAndConfigureMeter (Sample.meterWith 10 10) Sample.device (Sample.endpointAt 1)
    = (Returns tt, world) /\
    length (Io.sent world) = 6%nat.
Proof. eexists. split; [vm_compute; reflexivity | reflexivity]. Qed.

(** C2. A constant scale with a declared precision is meant to round-trip.
    The encoder computes the scaled value and then, when a precision is
    declared, replaces it by the rounding of the unscaled value.  With
    divisor 2 and precision 0, writing 6 puts 6 on the wire, where the
    scaled value is 12, and decoding that wire value gives 3. *)
Theorem declared_precision_drops_scale :
  Io.sent (Numeric.numericConvertSet Sample.halfUnits (Sample.endpointAt 1) "level"
             (VNumber 6) Io.emptyWorld).2
  = [Io.Write 1 (Zh.ClusterName "genAnalogOutput")
       [("presentValue"%string, Io.Plain (VNumber 6))] None]
  /\
  Numeric.numericConvert Sample.halfUnits Sample.model
    (Sample.report 1 [("presentValue"%string, VNumber 6)]) None Sample.meta
  = Returns (Some {[ "level"%string := VNumber 3 ]})
  /\
  Numeric.numericConvert Sample.halfUnits Sample.model
    (Sample.report 1 [("presentValue"%string, VNumber 12)]) None Sample.meta
  = Returns (Some {[ "level"%string := VNumber 6 ]}).
Proof. split; [|split]; vm_compute; reflexivity. Qed.



(** The whole run: nothing is published before 90 s have passed since
    the second notification, and exactly one clear is published then. *)
Example two_alarms_one_clear :
  Timers.published (Timers.elapse 90009 Sample.afterSecond) = [] /\
  Timers.published (Timers.elapse 90010 Sample.afterSecond)
  = [((10 + 90 * 1000)%Q, {[ "smoke"%string := VBool false ]})] /\
  Timers.pending (Timers.elapse 90010 Sample.afterSecond) = [].
Proof. split; [|split]; vm_compute; reflexivity. Qed.

(** C4 as stated fails: with the percentage capability switched off a
    raw 200 yields no percentage although the halving is enabled, and
    with a voltage curve in the definition's metadata a message carrying
    a voltage yields a percentage although the raw percentage is 255. *)
Lemma battery_percentage_is_conditional :
  (exists payload,
     Battery.batteryConvert (Sample.batteryWith (Some false) None None None) Sample.model
       (Sample.report 1 [("batteryPercentageRemaining"%string, VNumber 200)])
       None Sample.meta
     = Returns (Some payload) /\
     payload !! "battery"%string = None)
  /\
  (exists payload,
     Battery.batteryConvert
       (Sample.batteryWith None (Some true) None (Some (Def.VoltageCurve "3V_2100")))
       Sample.calibrated
       (Sample.report 1 [("batteryPercentageRemaining"%string, VNumber 255);
                         ("batteryVoltage"%string, VNumber 30)])
       None Sample.meta
     = Returns (Some payload) /\
     payload !! "battery"%string
     = Some (batteryVoltageToPercentage (VNumber 3000) (Def.VoltageCurve "3V_2100"))).
Proof. split; eexists; (split; [reflexivity|]); vm_compute; reflexivity. Qed.

(** C4, as amended, at raw 200 (halved to 100) and at raw 255. *)
Lemma battery_percentage_decoded_witness :
  (exists payload q,
     Battery.batteryConvert Battery.noArgs Sample.model
       (Sample.report 1 [("batteryPercentageRemaining"%string, VNumber 200)])
       None Sample.meta
     = Returns (Some payload) /\
     payload !! "battery"%string = Some (VNumber q) /\ (q == 100)%Q)
  /\
  (exists payload,
     Battery.batteryConvert Battery.noArgs Sample.model
       (Sample.report 1 [("batteryPercentageRemaining"%string, VNumber 255)])
       None Sample.meta
     = Returns (Some payload) /\
     payload !! "battery"%string = None).
Proof.
  split.
  - destruct (battery_percentage_decoded Battery.noArgs Sample.model
                (Sample.report 1 [("batteryPercentageRemaining"%string, VNumber 200)])
                None Sample.meta 200 eq_refl (or_introl eq_refl) eq_refl)
      as [payload [Hr [_ Hlt]]].
    destruct (Hlt ltac:(lia)) as [q [Hq Heq]].
    exists payload, q. split; [exact Hr|]. split; [exact Hq|].
    rewrite Heq. reflexivity.
  - destruct (battery_percentage_decoded Battery.noArgs Sample.model
                (Sample.report 1 [("batteryPercentageRemaining"%string, VNumber 255)])
                None Sample.meta 255 eq_refl (or_introl eq_refl) eq_refl)
      as [payload [Hr [Hge _]]].
    exists payload. split; [exact Hr|]. apply Hge. lia.
Defined.

(** C5 with only bit 0 set, with bits 10 and 21 set, and with only
    bit 4 set. *)
Lemma battery_low_is_or_of_alarm_bits_witness :
  (exists payload,
     Battery.batteryConvert (Sample.batteryWith None None (Some true) None) Sample.model
       (Sample.report 1 [("batteryAlarmState"%string, VNumber 1)]) None Sample.meta
     = Returns (Some payload) /\
     payload !! "battery_low"%string = Some (VBool true))
  /\
  (exists payload,
     Battery.batteryConvert (Sample.batteryWith None None (Some true) None) Sample.model
       (Sample.report 1 [("batteryAlarmState"%string, VNumber 2098176)]) None Sample.meta
     = Returns (Some payload) /\
     payload !! "battery_low"%string = Some (VBool true))
  /\
  (exists payload,
     Battery.batteryConvert (Sample.batteryWith None None (Some true) None) Sample.model
       (Sample.report 1 [("batteryAlarmState"%string, VNumber 16)]) None Sample.meta
     = Returns (Some payload) /\
     payload !! "battery_low"%string = Some (VBool false)).
Proof.
  split; [|split].
  - destruct (battery_low_is_or_of_alarm_bits
                (Sample.batteryWith None None (Some true) None) Sample.model
                (Sample.report 1 [("batteryAlarmState"%string, VNumber 1)])
                None Sample.meta 1 eq_refl eq_refl)
      as [payload [b [Hr [Hl Hb]]]].
    exists payload. split; [exact Hr|]. rewrite Hl.
    rewrite (proj2 Hb); [reflexivity|].
    exists 0. split; [left | reflexivity].
  - destruct (battery_low_is_or_of_alarm_bits
                (Sample.batteryWith None None (Some true) None) Sample.model
                (Sample.report 1 [("batteryAlarmState"%string, VNumber 2098176)])
                None Sample.meta 2098176 eq_refl eq_refl)
      as [payload [b [Hr [Hl Hb]]]].
    exists payload. split; [exact Hr|]. rewrite Hl.
    rewrite (proj2 Hb); [reflexivity|].
    exists 10. split; [do 4 right; left | reflexivity].
  - destruct (battery_low_is_or_of_alarm_bits
                (Sample.batteryWith None None (Some true) None) Sample.model
                (Sample.report 1 [("batteryAlarmState"%string, VNumber 16)])
                None Sample.meta 16 eq_refl eq_refl)
      as [payload [b [Hr [Hl Hb]]]].
    exists payload. split; [exact Hr|]. rewrite Hl.
    destruct b; [|reflexivity].
    destruct (proj1 Hb eq_refl) as [k [Hin Hk]].
    unfold lowBatteryBits in Hin. rewrite !elem_of_cons, elem_of_nil in Hin.
    destruct Hin as [->|[->|[->|[->|[->|[->|[->|[->|[->|[->|[->|[->|[]]]]]]]]]]]]];
      discriminate Hk.
Defined.


(** An attribute named like a member every object inherits counts as
    present in every message. *)
Example inherited_attribute_name_is_not_absent :
  exists message,
    Numeric.numericConvert
      {| Numeric.name := "level"; Numeric.cluster := Zh.ClusterName "genAnalogOutput";
         Numeric.attribute := Numeric.AttributeName "valueOf";
         Numeric.description := "Level"; Numeric.zigbeeCommandOptions := None;
         Numeric.access := None; Numeric.unit := None; Numeric.endpointNames := None;
         Numeric.reporting := None; Numeric.valueMin := None; Numeric.valueMax := None;
         Numeric.valueStep := None; Numeric.scale := None; Numeric.label := None;
         Numeric.entityCategory := None; Numeric.precision := None |}
      Sample.model (Sample.report 1 [("presentValue"%string, VNumber 6)]) None Sample.meta
    = Throws message.
Proof. eexists. vm_compute. reflexivity. Qed.


(** C9 on a smoke zone: both alarms requested, then only the first. *)
Lemma both_alarms_stay_distinct_witness :
  (exists first second rest,
     exposes (Ias.iasZoneAlarm (Sample.smokeZone [Ias.alarm_1; Ias.alarm_2; Ias.tamper]))
     = first :: second :: rest /\
     Exposes.name first = "smoke_alarm_1"%string /\
     Exposes.name second = "smoke_alarm_2"%string /\
     Exposes.description first
     = Some "Indicates whether the device detected smoke (alarm_1)"%string /\
     Exposes.description second
     = Some "Indicates whether the device detected smoke (alarm_2)"%string)
  /\
  (exists single rest,
     exposes (Ias.iasZoneAlarm (Sample.smokeZone [Ias.alarm_1; Ias.tamper]))
     = single :: rest /\
     Exposes.name single = "smoke"%string).
Proof.
  split.
  - destruct (both_alarms_stay_distinct
                (Sample.smokeZone [Ias.alarm_1; Ias.alarm_2; Ias.tamper])
                ltac:(discriminate)) as [Hboth _].
    destruct Hboth as [described [first [second [Hz [He [Hn1 [Hn2 [Hd1 [Hd2 _]]]]]]]]].
    { split; [left | right; left]. }
    exists first, second. eexists. split; [exact He|].
    injection Hz as <-.
    split; [exact Hn1|]. split; [exact Hn2|]. split; [exact Hd1 | exact Hd2].
  - destruct (both_alarms_stay_distinct (Sample.smokeZone [Ias.alarm_1; Ias.tamper])
                ltac:(discriminate)) as [_ Hone].
    destruct Hone as [single [_ [He [Hn _]]]].
    { intros [_ H2]. cbn in H2. rewrite !elem_of_cons, elem_of_nil in H2.
      destruct H2 as [Hx|[Hx|[]]]; discriminate Hx. }
    exists single. eexists. split; [exact He | exact Hn].
Defined.

(** C10 as stated fails on a smoke zone that requests only alarm_1: the
    two alarm entries share the key "smoke", so the update has nine keys,
    and with bit 0 set and bit 1 clear the key reads false. *)
Lemma single_alarm_zone_shares_the_alarm_key :
  exists payload,
    (Ias.iasConvert (Sample.smokeZone [Ias.alarm_1]) Sample.model
       (Sample.notification 1 1) None Sample.meta Timers.initial).1
    = Returns (Some payload) /\
    Ias.alarm1Name (Sample.smokeZone [Ias.alarm_1]) = "smoke"%string /\
    Ias.alarm2Name (Sample.smokeZone [Ias.alarm_1]) = "smoke"%string /\
    size payload = 9%nat /\
    Z.testbit 1 0 = true /\
    payload !! "smoke"%string = Some (VBool false).
Proof. eexists. split; [reflexivity|]. repeat split; vm_compute; reflexivity. Qed.

(** C10, as amended, on a generic zone with status 5 (bits 0 and 2). *)
Lemma zone_status_flags_witness :
  exists payload,
    (Ias.iasConvert
       {| Ias.zoneType := Ias.generic; Ias.zoneAttributes := [Ias.alarm_1];
          Ias.alarmTimeout := None |}
       Sample.model (Sample.notification 1 5) None Sample.meta Timers.initial).1
    = Returns (Some payload) /\
    payload !! "alarm_1"%string = Some (VBool true) /\
    payload !! "alarm_2"%string = Some (VBool false) /\
    payload !! "tamper"%string = Some (VBool true) /\
    payload !! "battery_defect"%string = Some (VBool false) /\
    size payload = 10%nat.
Proof.
  destruct (zone_status_flags
              {| Ias.zoneType := Ias.generic; Ias.zoneAttributes := [Ias.alarm_1];
                 Ias.alarmTimeout := None |}
              Sample.model (Sample.notification 1 5) None Sample.meta Timers.initial 5
              eq_refl)
    as [payload [Hr [Ht [_ [_ [_ [_ [_ [_ [Hd [_ [_ [Halarms _]]]]]]]]]]]]].
  destruct Halarms as [H1 [H2 Hsize]]; [left; reflexivity|].
  exists payload. split; [exact Hr|].
  split; [exact H1|]. split; [exact H2|]. split; [exact Ht|]. split; [exact Hd | exact Hsize].
Defined.

(** * The further properties on sample values *)

(** X1 on the sample device: both endpoints list seMetering, none lists genOnOff. *)
Lemma endpoints_with_input_cluster_witness :
  (exists all,
     Zh.endpoints Sample.device = Some all /\
     [Sample.endpointAt 1; Sample.endpointAt 2]
     = List.filter (exposesInputCluster (Zh.ClusterName "seMetering")) all) /\
  (Zh.endpoints Sample.device = None \/
   exists all,
     Zh.endpoints Sample.device = Some all /\
     forall e c, e ∈ all -> c ∈ Zh.getInputClusters e ->
                 namesCluster (Zh.ClusterName "genOnOff") c = false).
Proof.
  split.
  - destruct (endpoints_with_input_cluster Sample.device (Zh.ClusterName "seMetering"))
      as [Hfound _].
    destruct (Hfound [Sample.endpointAt 1; Sample.endpointAt 2] eq_refl)
      as [_ [all [Hall [Hfilter _]]]].
    exists all. split; assumption.
  - destruct (endpoints_with_input_cluster Sample.device (Zh.ClusterName "genOnOff"))
      as [_ Hnone].
    apply (Hnone "Device 0x00124b0000000001 has no input cluster genOnOff"%string).
    reflexivity.
Defined.

(** X2 on endpoint 2 of the sample device. *)
Lemma setup_endpoint_subscribes_then_reads_witness :
  exists c,
    setupAttributes (Zh.IsEndpoint (Sample.endpointAt 2)) (Sample.endpointAt 1)
      (Zh.ClusterName "msTemperatureMeasurement") [Fixtures.between "MIN" "1_HOUR"]
      true true Io.emptyWorld
    = (Returns tt,
       {| Io.sent :=
            [Io.Bind 2 (Zh.ClusterName "msTemperatureMeasurement") 1;
             Io.ConfigureReporting 2 (Zh.ClusterName "msTemperatureMeasurement")
               [{| Zh.minimumReportInterval := Seconds 0;
                   Zh.maximumReportInterval := Seconds 3600;
                   Zh.reportableChange := Reporting.ChangeNumber 10;
                   Zh.attribute := Reporting.AttributeName "measuredValue" |}];
             Io.Read 2 (Zh.ClusterName "msTemperatureMeasurement")
               [Zh.KeyName "measuredValue"] None];
          Io.cache := c |}).
Proof.
  apply (setup_endpoint_subscribes_then_reads (Sample.endpointAt 2) (Sample.endpointAt 1)
           (Zh.ClusterName "msTemperatureMeasurement") [Fixtures.between "MIN" "1_HOUR"]
           _ Io.emptyWorld eq_refl).
  - exists []. reflexivity.
  - exists []. reflexivity.
Defined.

(** X3 on a device that refuses the bind, on a misspelt reporting time, and on
    a device that refuses the reporting configuration. *)
Lemma setup_endpoint_aborts_witness :
  @setupAttributes Fixtures.refusesBind (Zh.IsEndpoint (Sample.endpointAt 2))
    (Sample.endpointAt 1) (Zh.ClusterName "msTemperatureMeasurement")
    [Fixtures.between "MIN" "1_HOUR"] true true Io.emptyWorld
  = (Throws "Bind failed (timeout)",
     {| Io.sent := [Io.Bind 2 (Zh.ClusterName "msTemperatureMeasurement") 1];
        Io.cache := ∅ |})
  /\
  setupAttributes (Zh.IsEndpoint (Sample.endpointAt 2))
    (Sample.endpointAt 1) (Zh.ClusterName "msTemperatureMeasurement")
    [Fixtures.between "MIN" "1_DAY"] true true Io.emptyWorld
  = (Throws "Reporting time '1_DAY' is unknown",
     {| Io.sent := [Io.Bind 2 (Zh.ClusterName "msTemperatureMeasurement") 1];
        Io.cache := ∅ |})
  /\
  exists items,
    @setupAttributes Fixtures.refusesReporting (Zh.IsEndpoint (Sample.endpointAt 2))
      (Sample.endpointAt 1) (Zh.ClusterName "msTemperatureMeasurement")
      [Fixtures.between "MIN" "1_HOUR"] true true Io.emptyWorld
    = (Throws "Status 'UNSUPPORTED_ATTRIBUTE'",
       {| Io.sent := [Io.Bind 2 (Zh.ClusterName "msTemperatureMeasurement") 1;
                      Io.ConfigureReporting 2 (Zh.ClusterName "msTemperatureMeasurement")
                        items];
          Io.cache := ∅ |}).
Proof.
  split; [|split].
  - destruct (@setup_endpoint_aborts Fixtures.refusesBind (Sample.endpointAt 2)
                (Sample.endpointAt 1) (Zh.ClusterName "msTemperatureMeasurement")
                [Fixtures.between "MIN" "1_HOUR"] Io.emptyWorld "Bind failed (timeout)")
      as [Hbind _].
    apply Hbind. reflexivity.
  - destruct (setup_endpoint_aborts (Sample.endpointAt 2)
                (Sample.endpointAt 1) (Zh.ClusterName "msTemperatureMeasurement")
                [Fixtures.between "MIN" "1_DAY"] Io.emptyWorld
                "Reporting time '1_DAY' is unknown")
      as [_ [Htime _]].
    apply Htime; [exists []|]; reflexivity.
  - destruct (@setup_endpoint_aborts Fixtures.refusesReporting (Sample.endpointAt 2)
                (Sample.endpointAt 1) (Zh.ClusterName "msTemperatureMeasurement")
                [Fixtures.between "MIN" "1_HOUR"] Io.emptyWorld
                "Status 'UNSUPPORTED_ATTRIBUTE'")
      as [_ [_ Hreport]].
    eexists. apply Hreport; [exists []| |]; reflexivity.
Defined.

(** X4 on the sample device, for a cluster it lists and for one it does not. *)
Lemma setup_addresses_only_its_targets_witness :
  (exists added c,
     (setupAttributes (Zh.IsDevice Sample.device) (Sample.endpointAt 1)
        (Zh.ClusterName "seMetering") [Fixtures.between "MIN" "1_HOUR"] true true
        Io.emptyWorld).2
     = {| Io.sent := [] ++ added; Io.cache := c |} /\
     Forall (fun r => requestEndpoint r ∈ [1; 2]) added) /\
  (exists added c,
     (setupAttributes (Zh.IsDevice Sample.device) (Sample.endpointAt 1)
        (Zh.ClusterName "genOnOff") [Fixtures.between "MIN" "1_HOUR"] true true
        Io.emptyWorld).2
     = {| Io.sent := [] ++ added; Io.cache := c |} /\ added = []).
Proof.
  split.
  - destruct (setup_addresses_only_its_targets (Zh.IsDevice Sample.device)
                (Sample.endpointAt 1) (Zh.ClusterName "seMetering")
                [Fixtures.between "MIN" "1_HOUR"] true true Io.emptyWorld)
      as [added [c [Hrun [_ Hto]]]].
    exists added, c. split; [exact Hrun|].
    apply (Hto [Sample.endpointAt 1; Sample.endpointAt 2]). reflexivity.
  - destruct (setup_addresses_only_its_targets (Zh.IsDevice Sample.device)
                (Sample.endpointAt 1) (Zh.ClusterName "genOnOff")
                [Fixtures.between "MIN" "1_HOUR"] true true Io.emptyWorld)
      as [added [c [Hrun [Hnone _]]]].
    exists added, c. split; [exact Hrun|].
    apply (Hnone "Device 0x00124b0000000001 has no input cluster genOnOff"%string).
    reflexivity.
Defined.

(** X5 on a device that rejects every read. *)
Lemma reading_alone_never_faults_witness :
  exists c,
    @setupAttributes Fixtures.refusesRead (Zh.IsDevice Sample.device) (Sample.endpointAt 1)
      (Zh.ClusterName "seMetering") [Fixtures.between "MIN" "1_HOUR"] false true
      Io.emptyWorld
    = (Returns tt,
       {| Io.sent := [Io.Read 1 (Zh.ClusterName "seMetering") [Zh.KeyName "measuredValue"] None;
                      Io.Read 2 (Zh.ClusterName "seMetering") [Zh.KeyName "measuredValue"] None];
          Io.cache := c |}).
Proof.
  apply (@reading_alone_never_faults Fixtures.refusesRead (Zh.IsDevice Sample.device)
           (Sample.endpointAt 1) (Zh.ClusterName "seMetering")
           [Fixtures.between "MIN" "1_HOUR"]
           [Sample.endpointAt 1; Sample.endpointAt 2] Io.emptyWorld).
  reflexivity.
Defined.

(** X6 with the endpoint name 2. *)
Lemma configurator_stays_on_named_endpoints_witness :
  exists run,
    setupConfigureForReporting ea (Zh.ClusterName "seMetering")
      (Reporting.AttributeName "currentSummDelivered") (Some Fixtures.hourly) 5
      (Some ["2"%string]) = Some run /\
    exists added c,
      (run Sample.device (Sample.endpointAt 1) Io.emptyWorld).2
      = {| Io.sent := Io.sent Io.emptyWorld ++ added; Io.cache := c |} /\
      Forall (fun r => exists e, e ∈ [Sample.endpointAt 1; Sample.endpointAt 2] /\
                                 Zh.ID e = requestEndpoint r /\
                                 pretty (Zh.ID e) ∈ ["2"%string]) added.
Proof.
  eexists. split; [reflexivity|].
  destruct (configurator_stays_on_named_endpoints ea (Zh.ClusterName "seMetering")
              (Reporting.AttributeName "currentSummDelivered") (Some Fixtures.hourly) 5
              ["2"%string] _ Sample.device (Sample.endpointAt 1) Io.emptyWorld eq_refl)
    as [_ Hall].
  exact (Hall _ eq_refl).
Defined.

(** X7 on a device that rejects every read. *)
Lemma readable_without_reporting_only_reads_witness :
  exists run,
    @setupConfigureForReporting Fixtures.refusesRead ea (Zh.ClusterName "seMetering")
      (Reporting.AttributeName "currentSummDelivered") None 5 None = Some run /\
    exists c,
      run Sample.device (Sample.endpointAt 1) Io.emptyWorld
      = (Returns tt,
         {| Io.sent :=
              [Io.Read 1 (Zh.ClusterName "seMetering")
                 [Zh.KeyName "currentSummDelivered"] None;
               Io.Read 2 (Zh.ClusterName "seMetering")
                 [Zh.KeyName "currentSummDelivered"] None];
            Io.cache := c |}).
Proof.
  destruct (@readable_without_reporting_only_reads Fixtures.refusesRead ea
              (Zh.ClusterName "seMetering")
              (Reporting.AttributeName "currentSummDelivered") 5)
    as [run [Hrun [Hreads _]]].
  - vm_compute. discriminate.
  - exists run. split; [exact Hrun|].
    exact (Hreads Sample.device (Sample.endpointAt 1) Io.emptyWorld
             [Sample.endpointAt 1; Sample.endpointAt 2] eq_refl).
Defined.

(** X8 on a plug that rejects every read, and on a device without the on/off
    cluster. *)
Lemma onoff_startup_read_never_fails_witness :
  (exists targets c,
     getEndpointsWithInputCluster Fixtures.plug (Zh.ClusterName "genOnOff")
     = Returns targets /\
     @OnOff.onOffConfigure Fixtures.refusesRead Fixtures.plainSwitch Fixtures.plug
       (Sample.endpointAt 1) Io.emptyWorld
     = (Returns tt,
        {| Io.sent :=
             Io.sent (@setupAttributes Fixtures.refusesRead (Zh.IsDevice Fixtures.plug)
                        (Sample.endpointAt 1) (Zh.ClusterName "genOnOff")
                        [OnOff.onOffReport "onOff"] true true Io.emptyWorld).2 ++
             (if OnOff.withPowerOnBehavior Fixtures.plainSwitch
              then map (fun e => Io.Read (Zh.ID e) (Zh.ClusterName "genOnOff")
                                   [Zh.KeyName "startUpOnOff"] None) targets
              else []);
           Io.cache := c |})) /\
  OnOff.onOffConfigure Fixtures.plainSwitch Sample.device (Sample.endpointAt 1) Io.emptyWorld
  = setupAttributes (Zh.IsDevice Sample.device) (Sample.endpointAt 1)
      (Zh.ClusterName "genOnOff") [OnOff.onOffReport "onOff"] true true Io.emptyWorld.
Proof.
  split.
  - destruct (@onoff_startup_read_never_fails Fixtures.refusesRead Fixtures.plainSwitch
                Fixtures.plug (Sample.endpointAt 1) Io.emptyWorld) as [_ [_ Hok]].
    apply Hok. reflexivity.
  - destruct (onoff_startup_read_never_fails Fixtures.plainSwitch
                Sample.device (Sample.endpointAt 1) Io.emptyWorld) as [_ [Hfail _]].
    apply (Hfail "Device 0x00124b0000000001 has no input cluster genOnOff"%string).
    reflexivity.
Defined.

(** X10 without endpoint names, and with the names 1 and 2. *)
Lemma numeric_descriptors_per_endpoint_witness :
  (exists expose, Numeric.numericExposes Fixtures.hundredths = [expose] /\
                  Exposes.endpoint expose = None /\
                  Exposes.property expose = "humidity"%string) /\
  map Exposes.endpoint (Numeric.numericExposes Sample.twoProbes)
  = [Some "1"%string; Some "2"%string] /\
  Numeric.noEndpoint Sample.halfUnits = true.
Proof.
  split; [|split].
  - destruct (numeric_descriptors_per_endpoint Fixtures.hundredths) as [_ [Hone _]].
    apply Hone. reflexivity.
  - destruct (numeric_descriptors_per_endpoint Sample.twoProbes) as [_ [_ [Hmany _]]].
    apply (Hmany ["1"; "2"]%string); reflexivity.
  - destruct (numeric_descriptors_per_endpoint Sample.halfUnits) as [[_ Hno] _].
    apply Hno. left. reflexivity.
Defined.


(** The quotient and the rounding are those of doubles: 1005 / 1000 is
    the double below 1.005, which rounds to 1. *)
Example thousandths_on_doubles :
  Numeric.decodeValue Fixtures.thousandths 1005 = 1%Q /\
  ~ (precisionRound (1005 / 1000) 2 == 1)%Q.
Proof.
  split; [vm_compute; reflexivity|]. intros E. vm_compute in E. discriminate E.
Qed.

(** X12 on a child lock, and on a capability whose wire values coincide. *)
Lemma binary_round_trip_witness :
  Binary.decodeState Fixtures.childLock
    (Binary.payloadValueOf Fixtures.childLock (VString "UNLOCK")) = VString "UNLOCK" /\
  Binary.decodeState Fixtures.childLock
    (Binary.payloadValueOf Fixtures.childLock (VString "open")) = VString "UNLOCK" /\
  Binary.decodeState Fixtures.stuck
    (Binary.payloadValueOf Fixtures.stuck (VString "OFF")) = VString "ON".
Proof.
  split; [|split].
  - destruct (binary_round_trip Fixtures.childLock) as [_ [_ [Hoff _]]].
    apply Hoff; reflexivity.
  - destruct (binary_round_trip Fixtures.childLock) as [_ [_ [Hoff _]]].
    apply Hoff; reflexivity.
  - destruct (binary_round_trip Fixtures.stuck) as [_ [_ [_ Hsame]]].
    apply Hsame. reflexivity.
Defined.

(** X14 on a report of voltage and alarm state with only the voltage enabled. *)
Lemma battery_payload_keys_witness :
  exists payload,
    Battery.batteryConvert (Sample.batteryWith None (Some true) None None) Sample.model
      (Sample.report 1 [("batteryVoltage"%string, VNumber 30);
                        ("batteryAlarmState"%string, VNumber 1)]) None Sample.meta
    = Returns (Some payload) /\
    exists expose,
      expose ∈ Battery.batteryExposes (Sample.batteryWith None (Some true) None None) /\
      Exposes.property expose = "voltage"%string.
Proof.
  destruct (battery_payload_keys (Sample.batteryWith None (Some true) None None) Sample.model
              (Sample.report 1 [("batteryVoltage"%string, VNumber 30);
                                ("batteryAlarmState"%string, VNumber 1)]) None Sample.meta)
    as [payload [Hrun [_ Hnamed]]].
  exists payload. split; [exact Hrun|].
  apply (Hnamed eq_refl "voltage"%string).
  injection Hrun as <-. vm_compute. eauto.
Defined.

(** X15 at raw 30 and at raw 255. *)
Lemma battery_voltage_in_millivolts_witness :
  (exists payload,
     Battery.batteryConvert (Sample.batteryWith None (Some true) None None) Sample.model
       (Sample.report 1 [("batteryVoltage"%string, VNumber 30)]) None Sample.meta
     = Returns (Some payload) /\
     payload !! "voltage"%string = Some (VNumber (inject_Z 30 * 100))) /\
  (exists payload,
     Battery.batteryConvert (Sample.batteryWith None (Some true) None None) Sample.model
       (Sample.report 1 [("batteryVoltage"%string, VNumber 255)]) None Sample.meta
     = Returns (Some payload) /\
     payload !! "voltage"%string = None).
Proof.
  split.
  - destruct (battery_voltage_in_millivolts (Sample.batteryWith None (Some true) None None)
                Sample.model (Sample.report 1 [("batteryVoltage"%string, VNumber 30)])
                None Sample.meta 30 eq_refl eq_refl) as [payload [Hrun [_ Hlow]]].
    exists payload. split; [exact Hrun | apply Hlow; lia].
  - destruct (battery_voltage_in_millivolts (Sample.batteryWith None (Some true) None None)
                Sample.model (Sample.report 1 [("batteryVoltage"%string, VNumber 255)])
                None Sample.meta 255 eq_refl eq_refl) as [payload [Hrun [Hhigh _]]].
    exists payload. split; [exact Hrun | apply Hhigh; lia].
Defined.

(** X17 at zone status 1025 and 1. *)
Lemma zone_status_reads_low_ten_bits_witness :
  (Ias.iasConvert (Sample.smokeZone [Ias.alarm_1]) Sample.model
     (Sample.notification 1 1025) None Sample.meta Timers.initial).1
  = (Ias.iasConvert (Sample.smokeZone [Ias.alarm_1]) Sample.model
       (Sample.notification 1 1) None Sample.meta Timers.initial).1.
Proof.
  apply (zone_status_reads_low_ten_bits (Sample.smokeZone [Ias.alarm_1]) Sample.model
           (Sample.notification 1 1025) (Sample.notification 1 1) None Sample.meta
           Timers.initial 1025 1 eq_refl eq_refl eq_refl).
Defined.

(** X18 on a read response that carries another attribute. *)
Lemma zone_status_missing_is_all_clear_witness :
  exists payload,
    (Ias.iasConvert (Sample.smokeZone [Ias.alarm_1]) Sample.model (Fixtures.silent 1)
       None Sample.meta Timers.initial).1 = Returns (Some payload) /\
    is_Some (payload !! Ias.alarm1Name (Sample.smokeZone [Ias.alarm_1])) /\
    forall k v, payload !! k = Some v -> v = VBool false.
Proof.
  apply (zone_status_missing_is_all_clear (Sample.smokeZone [Ias.alarm_1]) Sample.model
           (Fixtures.silent 1) None Sample.meta Timers.initial).
  right. split; [discriminate | reflexivity].
Defined.

(** X19 on a metering-only meter and on one with the voltage switched off. *)
Lemma disabled_measurements_are_not_configured_witness :
  Meter.clusterChoice (Sample.meterWith 10 10) = Meter.metering /\
  map fst (Meter.configureLookup Fixtures.meter)
  = ["haElectricalMeasurement"; "seMetering"]%string.
Proof.
  split.
  - destruct (disabled_measurements_are_not_configured (Sample.meterWith 10 10))
      as [_ [_ Hpower]].
    apply (Hpower
             [("power"%string,
               {| Meter.attribute := "instantaneousDemand"; Meter.divisorAttribute := "divisor";
                  Meter.multiplierAttribute := "multiplier";
                  Meter.forced := Meter.power (Sample.meterWith 10 10);
                  Meter.change := 5 |});
              ("energy"%string,
               {| Meter.attribute := "currentSummDelivered"; Meter.divisorAttribute := "divisor";
                  Meter.multiplierAttribute := "multiplier";
                  Meter.forced := Meter.energy (Sample.meterWith 10 10);
                  Meter.change := roundDouble (1 # 10) |})]).
    + apply list_elem_of_here.
    + apply list_elem_of_here.
  - destruct (disabled_measurements_are_not_configured Fixtures.meter) as [_ [Hnames _]].
    exact Hnames.
Defined.

(** X20 for energy with divisor 3 and no multiplier. *)
Lemma forced_constants_replace_the_read_witness :
  exists c,
    Meter.propertyItem (Sample.endpointAt 1) "seMetering" Fixtures.energy Io.emptyWorld
    = (Returns {| Reporting.attribute := Reporting.AttributeName "currentSummDelivered";
                  Reporting.min := TimeName "10_SECONDS";
                  Reporting.max := TimeName "MAX";
                  Reporting.change :=
                    Reporting.ChangePair 0 (jsMultiply (roundDouble (1 # 10)) (jsDivide 3 1)) |},
       {| Io.sent := []; Io.cache := c |}) /\
    c !! (1, "seMetering"%string, "divisor"%string) = Some (VNumber 3) /\
    c !! (1, "seMetering"%string, "multiplier"%string) = Some (VNumber 1).
Proof.
  destruct (forced_constants_replace_the_read Fixtures.meter (Sample.endpointAt 1)
              "seMetering" Fixtures.energy
              {| Meter.multiplier := None; Meter.divisor := Some 3%Q |}
              Io.emptyWorld eq_refl) as [c [Hrun [Hd [Hm _]]]].
  - discriminate.
  - intros Hz. vm_compute in Hz. discriminate Hz.
  - exists c. split; [exact Hrun|]. split; [exact Hd | exact Hm].
Defined.

(** The change is the product of doubles: 0.1 * 3 is the double above
    three tenths. *)
Example energy_change_on_doubles :
  jsMultiply (roundDouble (1 # 10)) (jsDivide 3 1)
  = (1351079888211149 # 4503599627370496)%Q /\
  ~ (jsMultiply (roundDouble (1 # 10)) (jsDivide 3 1) == 3 # 10)%Q.
Proof.
  split; [vm_compute; reflexivity|]. intros E. vm_compute in E. discriminate E.
Qed.

(** X21 on the sample device, which has no electrical measurement cluster. *)
Lemma meter_configure_needs_its_first_cluster_witness :
  Meter.meterConfigure Fixtures.meter Sample.device (Sample.endpointAt 1) Io.emptyWorld
  = (Throws "Device 0x00124b0000000001 has no input cluster haElectricalMeasurement",
     Io.emptyWorld).
Proof.
  apply (meter_configure_needs_its_first_cluster Fixtures.meter Sample.device
           (Sample.endpointAt 1) Io.emptyWorld).
  reflexivity.
Defined.

(** X22 on a name that is unknown and on an inherited one. *)
Lemma reporting_time_rejected_exactly_when_unknown_witness :
  (exists message, convertReportingConfigTime (TimeName "1_DAY") = Throws message) /\
  ~ (exists message, convertReportingConfigTime (TimeName "valueOf") = Throws message).
Proof.
  split.
  - apply (reporting_time_rejected_exactly_when_unknown "1_DAY").
    split; [|reflexivity].
    unfold knownTimeNames. rewrite !elem_of_cons, elem_of_nil.
    intros [Hx|[Hx|[Hx|[Hx|[Hx|[Hx|[]]]]]]]; discriminate Hx.
  - intros Hthrows.
    apply (reporting_time_rejected_exactly_when_unknown "valueOf") in Hthrows.
    destruct Hthrows as [_ Hi]. vm_compute in Hi. discriminate Hi.
Defined.

(** X23 at 30_MINUTES. *)
Lemma known_times_fit_sixteen_bits_witness :
  exists s : Z,
    convertReportingConfigTime (TimeName "30_MINUTES") = Returns (Seconds (inject_Z s)) /\
    0 <= s <= 65000 /\ s < 2 ^ 16.
Proof.
  apply (known_times_fit_sixteen_bits "30_MINUTES").
  unfold knownTimeNames. pick_member.
Defined.

(** X24 for 1_HOUR and for an unknown name. *)
Lemma checkin_interval_is_not_validated_witness :
  Quirk.checkinInterval (Quirk.quirkCheckinInterval (TimeName "1_HOUR") Fixtures.dimmer)
  = Some (Quirk.IntervalOf (Seconds 3600)) /\
  Quirk.checkinInterval (Quirk.quirkCheckinInterval (TimeName "1_DAY") Fixtures.dimmer)
  = Some Quirk.IntervalUndefined.
Proof.
  split.
  - destruct (checkin_interval_is_not_validated (TimeName "1_HOUR") Fixtures.dimmer)
      as [_ [Hknown _]].
    apply Hknown. reflexivity.
  - destruct (checkin_interval_is_not_validated (TimeName "1_DAY") Fixtures.dimmer)
      as [_ [_ Hunknown]].
    apply (Hunknown "Reporting time '1_DAY' is unknown"%string). reflexivity.
Defined.

#[local] Existing Instance Fixtures.clusterTable.
#[local] Existing Instance Fixtures.lookup.

(** X25: adding the level control cluster, by name and by number, and one
    already present. *)
Lemma quirk_adds_the_requested_clusters_witness :
  exists changed moreInputs,
    Quirk.getEndpoint
      (Quirk.quirkAddEndpointCluster
         (Fixtures.addTo 1 [Quirk.ByName "genLevelCtrl"; Quirk.ByNumber 6; Quirk.ByNumber 8])
         Fixtures.dimmer).2 1 = Some changed /\
    Quirk.inputClusters changed = [0; 6] ++ moreInputs /\
    8 ∈ Quirk.inputClusters changed /\
    NoDup (Quirk.inputClusters changed).
Proof.
  destruct (quirk_adds_the_requested_clusters
              (Fixtures.addTo 1 [Quirk.ByName "genLevelCtrl"; Quirk.ByNumber 6;
                                 Quirk.ByNumber 8])
              Fixtures.dimmer
              {| Quirk.ID := 1; Quirk.inputClusters := [0; 6]; Quirk.outputClusters := [25] |}
              eq_refl)
    as [changed [moreInputs [moreOutputs
         [Hget [_ [Hin [_ [Hreq [_ [_ [_ [Hnodup _]]]]]]]]]]]];
    [vm_compute; reflexivity|].
  exists changed, moreInputs. split; [exact Hget|]. split; [exact Hin|]. split.
  - apply Forall_cons in Hreq. destruct Hreq as [[id [Hid Hmember]] _].
    injection Hid as <-. exact Hmember.
  - apply Hnodup. cbn [Quirk.inputClusters].
    apply NoDup_cons. split; [rewrite !elem_of_cons, elem_of_nil; lia|].
    apply NoDup_singleton.
Defined.

(** X26 on the same device. *)
Lemma quirk_add_is_idempotent_witness :
  let once :=
    (Quirk.quirkAddEndpointCluster (Fixtures.addTo 1 [Quirk.ByName "genLevelCtrl"])
       Fixtures.dimmer).2 in
  (Quirk.quirkAddEndpointCluster (Fixtures.addTo 1 [Quirk.ByName "genLevelCtrl"]) once).1
  = Returns tt /\
  Quirk.endpoints
    (Quirk.quirkAddEndpointCluster (Fixtures.addTo 1 [Quirk.ByName "genLevelCtrl"]) once).2
  = Quirk.endpoints once.
Proof.
  apply (quirk_add_is_idempotent (Fixtures.addTo 1 [Quirk.ByName "genLevelCtrl"])
           Fixtures.dimmer).
  reflexivity.
Defined.

(** X27 on a missing endpoint and on a cluster name that does not resolve. *)
Lemma quirk_saves_only_a_completed_change_witness :
  Quirk.quirkAddEndpointCluster (Fixtures.addTo 2 [Quirk.ByName "genLevelCtrl"])
    Fixtures.dimmer = (Returns tt, Fixtures.dimmer) /\
  Quirk.saves
    (Quirk.quirkAddEndpointCluster
       (Fixtures.addTo 1 [Quirk.ByNumber 8; Quirk.ByName "genColorCtrl"]) Fixtures.dimmer).2
  = Quirk.saves Fixtures.dimmer.
Proof.
  split.
  - destruct (quirk_saves_only_a_completed_change
                (Fixtures.addTo 2 [Quirk.ByName "genLevelCtrl"]) Fixtures.dimmer)
      as [Hmissing _].
    apply Hmissing. reflexivity.
  - destruct (quirk_saves_only_a_completed_change
                (Fixtures.addTo 1 [Quirk.ByNumber 8; Quirk.ByName "genColorCtrl"])
                Fixtures.dimmer) as [_ Hthrows].
    destruct (Hthrows "Cluster with name 'genColorCtrl' does not exist"%string eq_refl)
      as [Hsaves _].
    exact Hsaves.
Defined.

(** X28 on another event, and on a device that refuses the configuration. *)
Lemma announce_reconfigures_in_order_witness :
  Announce.onEvent "message" Fixtures.announced Io.emptyWorld = (Returns tt, Io.emptyWorld) /\
  exists o done,
    @Announce.onEvent Fixtures.refusesReporting "deviceAnnounce" Fixtures.announced
      Io.emptyWorld
    = (o, {| Io.sent := Io.sent Io.emptyWorld ++ done; Io.cache := Io.cache Io.emptyWorld |}) /\
    done `prefix_of` Announce.allRequests Fixtures.announced.
Proof.
  split.
  - destruct (announce_reconfigures_in_order "message" Fixtures.announced Io.emptyWorld)
      as [Hother _].
    apply Hother. discriminate.
  - destruct (@announce_reconfigures_in_order Fixtures.refusesReporting "deviceAnnounce"
                Fixtures.announced Io.emptyWorld) as [_ Hannounce].
    destruct (Hannounce eq_refl) as [o [done [Hrun [Hprefix _]]]].
    exists o, done. split; assumption.
Defined.

(** X29 at the largest mode, strobe and level, reversed ordering. *)
Lemma warning_byte_is_injective_witness :
  0 <= Warning.warningInfo true 6 1 3 < 256 /\
  (Warning.warningInfo true 6 1 3 = Warning.warningInfo true 6 1 3 ->
   6 = 6 /\ 1 = 1 /\ 3 = 3).
Proof.
  apply (warning_byte_is_injective true 6 1 3 6 1 3); lia.
Defined.

(** X30 on a burglar warning with and without a strobe level. *)
Lemma strobe_level_never_reaches_the_device_witness :
  Warning.warningPayload None (Fixtures.warning (Some "high"%string))
  = Throws "utils is not defined" /\
  Warning.strobelevel
    {| Warning.startwarninginfo := 17; Warning.warningduration := 30;
       Warning.strobedutycycle := 0; Warning.strobelevel := 1 |} = 1.
Proof.
  split.
  - destruct (strobe_level_never_reaches_the_device None
                (Fixtures.warning (Some "high"%string))) as [Hfault _].
    apply (Hfault "high"%string). reflexivity.
  - destruct (strobe_level_never_reaches_the_device None (Fixtures.warning None))
      as [_ Hsent].
    apply (Hsent {| Warning.startwarninginfo := 17; Warning.warningduration := 30;
                    Warning.strobedutycycle := 0; Warning.strobelevel := 1 |}).
    reflexivity.
Defined.
